(** * Spotify EDA: the cleaning and analysis pipeline

    A shallow embedding of [src/cleaner.py], [src/analyzer.py],
    [src/visualizer.py] and the analysis run of [main.py], and of the
    dashboard's own cleaners and filters in [Spotify_EDA_App/app.py].
    Reading and writing files is left out; what is printed and plotted is
    recorded as a list of calls.

    The program is glue over pandas.  The embedding therefore has three
    layers:

    - [Py]: the Python built-ins the code calls ([str.lower], [str.strip],
      [str.split], [int], [str], [repr]);
    - [Pd]: the part of pandas the code calls, over typed columns
      (int64, float64, object, datetime64) and a typed row index;
    - [Cleaner], [Analyzer], [App], [Visualizer], [Config], [Main]: the
      repository's functions, written statement by statement over [Pd].

    float64 values are IEEE 754 binary64 numbers with the arithmetic of
    the Standard Library's [SpecFloat]; int64 columns hold integers, on
    which the code does no arithmetic, and a cast into int64 is the place
    where the range is checked.

    Library behaviour that has no closed form worth writing down here
    (numpy's [argsort] of kind 'quicksort' and its [partition],
    [ast.literal_eval], the grammars of [pd.to_numeric] and
    [pd.to_datetime], the text of a float, frequencies other than 'YE'
    and 'ME', [value_counts] of values that are not text) is collected in
    the record [Runtime] and taken as a parameter; what is assumed of it
    is always stated in the theorem that needs it.  [Example] gives a
    runtime to run the model with, [Simd] the network numpy's vectorised
    [argsort] applies to a short array.

    Where pandas leaves the four dtypes (a uint64 column read from
    integers beyond int64, say) the model stops with [Unmodelled], which
    is no exception of Python: no statement is made about such a run.
    Python strings are byte strings here, pure ASCII text being the case
    modelled: characters above 127 have no case and are not white
    space. *)

From Stdlib Require Import String Ascii DecimalString.
From Stdlib Require Import List Bool Arith ZArith Lia.
From Stdlib Require Import SpecFloat Permutation Sorted.
Import ListNotations.

Set Warnings "-register-all".

Local Open Scope string_scope.
Local Open Scope list_scope.
Local Open Scope Z_scope.

(* ================================================================== *)
(** * Exceptions and results *)

(** An exception is known by the class an [except] clause sees: a
    subclass counts as its base (IntCastingNaNError as ValueError,
    IndentationError as SyntaxError). *)
Inductive exn : Type :=
| KeyError (key : string)
| ValueError
| TypeError
| SyntaxError
| AttributeError
| OverflowError
| IndexError
| RecursionError
| MemoryError
| Unmodelled.

Inductive result (A : Type) : Type :=
| Ok (a : A)
| Raise (e : exn).

Arguments Ok {A} a.
Arguments Raise {A} e.

Definition bind {A B} (r : result A) (k : A -> result B) : result B :=
  match r with
  | Ok a => k a
  | Raise e => Raise e
  end.

Notation "x <- r ;; k" := (bind r (fun x => k))
  (at level 61, r at next level, right associativity).

Fixpoint mapM {A B} (f : A -> result B) (l : list A) : result (list B) :=
  match l with
  | [] => Ok []
  | a :: l' => b <- f a ;; bs <- mapM f l' ;; Ok (b :: bs)
  end.

(* ================================================================== *)
(** * Python built-ins *)

Module Py.

Definition chars (s : string) : list ascii := list_ascii_of_string s.
Definition str (l : list ascii) : string := string_of_list_ascii l.

Definition code (c : ascii) : nat := nat_of_ascii c.

Definition is_upper (c : ascii) : bool := ((65 <=? code c) && (code c <=? 90))%nat.
Definition is_lower (c : ascii) : bool := ((97 <=? code c) && (code c <=? 122))%nat.

(** Text within ASCII. *)
Definition is_ascii (s : string) : bool :=
  forallb (fun c => (code c <? 128)%nat) (chars s).

Definition lower_char (c : ascii) : ascii :=
  if is_upper c then ascii_of_nat (code c + 32) else c.
Definition upper_char (c : ascii) : ascii :=
  if is_lower c then ascii_of_nat (code c - 32) else c.

(** [str.lower()] and [str.upper()], on ASCII text. *)
Definition lower (s : string) : string := str (map lower_char (chars s)).
Definition upper (s : string) : string := str (map upper_char (chars s)).

(** White space as [str.strip()] sees it: TAB, LF, VT, FF, CR, the four
    separators 0x1c-0x1f and the space. *)
Definition is_space (c : ascii) : bool :=
  (((9 <=? code c) && (code c <=? 13)) || ((28 <=? code c) && (code c <=? 32)))%nat.

Fixpoint lstrip_chars (l : list ascii) : list ascii :=
  match l with
  | c :: l' => if is_space c then lstrip_chars l' else l
  | [] => []
  end.

Definition rstrip_chars (l : list ascii) : list ascii :=
  rev (lstrip_chars (rev l)).

Definition strip_chars (l : list ascii) : list ascii :=
  rstrip_chars (lstrip_chars l).

(** [str.strip()]. *)
Definition strip (s : string) : string := str (strip_chars (chars s)).

(** [s.replace(" ", "_")]. *)
Definition space_to_underscore (c : ascii) : ascii :=
  if Ascii.eqb c " " then "_"%char else c.
Definition replace_spaces (s : string) : string :=
  str (map space_to_underscore (chars s)).

(** The character class of the regular expression [[\[\]']]. *)
Definition is_bracket_or_quote (c : ascii) : bool :=
  Ascii.eqb c "[" || Ascii.eqb c "]" || Ascii.eqb c "'".

(** [re.sub] of that class by the empty string: the characters are dropped. *)
Definition remove_brackets_quotes (s : string) : string :=
  str (filter (fun c => negb (is_bracket_or_quote c)) (chars s)).

(** [s.split(",")]: the pieces between commas, never an empty list. *)
Fixpoint split_commas_chars (cur : list ascii) (l : list ascii) : list (list ascii) :=
  match l with
  | [] => [rev cur]
  | c :: l' =>
      if Ascii.eqb c "," then rev cur :: split_commas_chars [] l'
      else split_commas_chars (c :: cur) l'
  end.

Definition split_commas (s : string) : list string :=
  map str (split_commas_chars [] (chars s)).

(** [str(z)] for an int. *)
Definition str_of_int (z : Z) : string := NilZero.string_of_int (Z.to_int z).

(** White space as [int()] skips it around an ASCII literal: TAB, LF, VT,
    FF, CR and the space; not the separators 0x1c-0x1f. *)
Definition is_c_space (c : ascii) : bool :=
  (((9 <=? code c) && (code c <=? 13)) || (code c =? 32))%nat.

Fixpoint skip_c_spaces (l : list ascii) : list ascii :=
  match l with
  | c :: l' => if is_c_space c then skip_c_spaces l' else l
  | [] => []
  end.

(** [int(s)] for a string, base 10: surrounding white space, an optional
    sign, then digits, with single underscores allowed between digits. *)
Definition digit_of (c : ascii) : option Z :=
  if ((48 <=? code c) && (code c <=? 57))%nat then Some (Z.of_nat (code c - 48)) else None.

Fixpoint int_digits (acc : Z) (l : list ascii) : option Z :=
  match l with
  | [] => Some acc
  | c :: l' =>
      if Ascii.eqb c "_" then
        match l' with
        | d :: l'' =>
            match digit_of d with
            | Some v => int_digits (10 * acc + v) l''
            | None => None
            end
        | [] => None
        end
      else
        match digit_of c with
        | Some v => int_digits (10 * acc + v) l'
        | None => None
        end
  end.

Definition int_unsigned (l : list ascii) : option Z :=
  match l with
  | d :: l' =>
      match digit_of d with
      | Some v => int_digits v l'
      | None => None
      end
  | [] => None
  end.

Definition int_of_str (s : string) : result Z :=
  let l := rev (skip_c_spaces (rev (skip_c_spaces (chars s)))) in
  let r :=
    match l with
    | c :: l' =>
        if Ascii.eqb c "-" then option_map Z.opp (int_unsigned l')
        else if Ascii.eqb c "+" then int_unsigned l'
        else int_unsigned l
    | [] => None
    end in
  match r with
  | Some z => Ok z
  | None => Raise ValueError
  end.

(** [repr(s)] for a string: single quotes unless the string has a single
    quote and no double quote; backslash, the chosen quote, TAB, LF, CR
    and the other control characters are escaped. *)
Definition hex_digit (n : nat) : ascii :=
  if (n <? 10)%nat then ascii_of_nat (48 + n) else ascii_of_nat (87 + n).

Definition repr_char (q : ascii) (c : ascii) : list ascii :=
  if Ascii.eqb c q || Ascii.eqb c "\" then ["\"%char; c]
  else if Ascii.eqb c "009" then ["\"%char; "t"%char]
  else if Ascii.eqb c "010" then ["\"%char; "n"%char]
  else if Ascii.eqb c "013" then ["\"%char; "r"%char]
  else if ((code c <? 32) || (code c =? 127))%nat then
    ["\"%char; "x"%char; hex_digit (code c / 16); hex_digit (code c mod 16)]
  else [c].

Definition has_char (q : ascii) (l : list ascii) : bool := existsb (Ascii.eqb q) l.

Definition repr_str (s : string) : string :=
  let l := chars s in
  let q := if has_char "'" l && negb (has_char "034" l) then "034"%char else "'"%char in
  str (q :: flat_map (repr_char q) l ++ [q]).

(** [str.capitalize()]: the first character in upper case, the others in
    lower case. *)
Definition capitalize (s : string) : string :=
  match chars s with
  | [] => EmptyString
  | c :: l => str (upper_char c :: map lower_char l)
  end.

(** [", ".join(l)]. *)
Fixpoint join_comma (l : list string) : string :=
  match l with
  | [] => EmptyString
  | [s] => s
  | s :: l' => (s ++ ", " ++ join_comma l')%string
  end.

End Py.

(* ================================================================== *)
(** * float64 *)

(** A float64 that is not NaN: a signed zero, a signed infinity, or
    [(-1)^neg * m * 2^e].  A float cell is an [option float64], [None]
    being NaN. *)
Inductive float64 : Type :=
| FZero (neg : bool)
| FInf (neg : bool)
| FFinite (neg : bool) (m : positive) (e : Z).

Module F64.

Definition prec : Z := 53.
Definition emax : Z := 1024.

Definition to_spec (c : option float64) : spec_float :=
  match c with
  | None => S754_nan
  | Some (FZero s) => S754_zero s
  | Some (FInf s) => S754_infinity s
  | Some (FFinite s m e) => S754_finite s m e
  end.

Definition of_spec (x : spec_float) : option float64 :=
  match x with
  | S754_nan => None
  | S754_zero s => Some (FZero s)
  | S754_infinity s => Some (FInf s)
  | S754_finite s m e => Some (FFinite s m e)
  end.

(** [a + b], [a - b] and [a / b], rounded to nearest, ties to even. *)
Definition add (a b : option float64) : option float64 :=
  of_spec (SFadd prec emax (to_spec a) (to_spec b)).
Definition sub (a b : option float64) : option float64 :=
  of_spec (SFsub prec emax (to_spec a) (to_spec b)).
Definition div (a b : option float64) : option float64 :=
  of_spec (SFdiv prec emax (to_spec a) (to_spec b)).

(** The float nearest to an integer. *)
Definition of_Z (z : Z) : option float64 :=
  of_spec (binary_normalize prec emax z 0 false).

Definition zero : option float64 := Some (FZero false).
Definition two : option float64 := of_Z 2.

(** [a <= b] and [a == b]; the two zeros are equal. *)
Definition leb (a b : float64) : bool :=
  SFleb (to_spec (Some a)) (to_spec (Some b)).
Definition eqb (a b : float64) : bool :=
  SFeqb (to_spec (Some a)) (to_spec (Some b)).

Definition is_inf (x : float64) : bool :=
  match x with
  | FInf _ => true
  | _ => false
  end.

(** The integer part of a finite float, toward zero. *)
Definition trunc (x : float64) : Z :=
  match x with
  | FZero _ => 0
  | FInf _ => 0
  | FFinite s m e =>
      let v := if 0 <=? e then Z.shiftl (Zpos m) e else Z.shiftr (Zpos m) (- e) in
      if s then - v else v
  end.

(** Python's [x == z] for a float and an int: exact, not through the
    float nearest to [z]. *)
Definition eqb_Z (x : float64) (z : Z) : bool :=
  match x with
  | FZero _ => z =? 0
  | FInf _ => false
  | FFinite s m e =>
      (trunc x =? z) &&
      ((0 <=? e) || (Z.shiftl (Z.shiftr (Zpos m) (- e)) (- e) =? Zpos m))
  end.

End F64.

(* ================================================================== *)
(** * The pandas model *)

Module Pd.

(** ** Generic list operations behind the row operations *)

(** [l[ix]] for a list of valid positions (numpy's [take]). *)
Definition take {A} (ix : list nat) (l : list A) : list A :=
  flat_map (fun i => match nth_error l i with Some a => [a] | None => [] end) ix.

(** Positions at which a boolean mask is true ([np.nonzero]). *)
Fixpoint nonzero_from (i : nat) (mask : list bool) : list nat :=
  match mask with
  | [] => []
  | b :: mask' => if b then i :: nonzero_from (S i) mask' else nonzero_from (S i) mask'
  end.

Definition nonzero (mask : list bool) : list nat := nonzero_from 0 mask.

(** The rows a boolean mask keeps, without going through positions. *)
Fixpoint select {A} (mask : list bool) (l : list A) : list A :=
  match mask, l with
  | b :: mask', a :: l' => if b then a :: select mask' l' else select mask' l'
  | _, _ => []
  end.

(** The slice [l[:n]]: the first [n] elements, or all but the last [-n]
    when [n] is negative. *)
Definition head {A} (n : Z) (l : list A) : list A :=
  if 0 <=? n then firstn (Z.to_nat n) l
  else firstn (length l - Z.to_nat (- n)) l.

(** [duplicated(keep='first')]: true at every position whose key was seen
    at an earlier position. *)
Fixpoint duplicated_from {A} (eqb : A -> A -> bool) (seen : list A) (l : list A) : list bool :=
  match l with
  | [] => []
  | a :: l' => existsb (eqb a) seen :: duplicated_from eqb (a :: seen) l'
  end.

Definition duplicated {A} (eqb : A -> A -> bool) (l : list A) : list bool :=
  duplicated_from eqb [] l.

Definition somes {A} (l : list (option A)) : list A :=
  flat_map (fun o => match o with Some a => [a] | None => [] end) l.

Definition is_none {A} (o : option A) : bool :=
  match o with None => true | Some _ => false end.

Definition is_some {A} (o : option A) : bool :=
  match o with None => false | Some _ => true end.

(** ** Cells, columns, tables *)

(** A Python object held in a column of dtype object or in a list.
    [ONaN] is the float NaN, which [read_csv] leaves where a field is
    empty; a float that is not NaN is an [OFloat].  [OStamp] is a
    Timestamp or a datetime: its wall-clock time in nanoseconds since the
    epoch and, when it is aware of a time zone, its offset from UTC in
    seconds.  [OOther] is an object of any other type (a tuple, a dict, a
    bool), known by its [repr]. *)
Inductive pyobj : Type :=
| ONone
| ONaN
| ONaT
| OStr (s : string)
| OInt (z : Z)
| OFloat (x : float64)
| OList (l : list pyobj)
| OStamp (t : Z) (utcoffset : option Z)
| OOther (repr : string).

(** A column with its dtype.  int64 has no missing value; float64 has NaN
    ([None]); datetime64[ns] holds nanoseconds since the epoch, in the
    wall-clock time of the column's time zone if it has one, and NaT
    ([None]). *)
Inductive Series : Type :=
| IntCol (l : list Z)
| FloatCol (l : list (option float64))
| ObjCol (l : list pyobj)
| DateCol (l : list (option Z)).

(** A table: the row labels, which are a column of their own, and the
    named columns, in order.  [read_csv] labels the rows 0, 1, 2, ... *)
Record DataFrame : Type := mkDataFrame {
  index : Series;
  cols : list (string * Series)
}.

Definition columns (df : DataFrame) : list string := map fst (cols df).

Definition series_length (s : Series) : nat :=
  match s with
  | IntCol l => length l
  | FloatCol l => length l
  | ObjCol l => length l
  | DateCol l => length l
  end.

Definition nrows (df : DataFrame) : nat := series_length (index df).

Fixpoint distinct (l : list string) : bool :=
  match l with
  | [] => true
  | x :: l' => negb (existsb (String.eqb x) l') && distinct l'
  end.

(** The tables of the model: distinct column names, and every column as
    long as the index. *)
Definition wf (df : DataFrame) : bool :=
  distinct (columns df) &&
  forallb (fun c => Nat.eqb (series_length (snd c)) (nrows df)) (cols df).

(** ** Numbers *)

(** The range of int64. *)
Definition INT64_MIN : Z := - 2 ^ 63.
Definition INT64_MAX : Z := 2 ^ 63 - 1.

Definition in_int64 (z : Z) : bool := (INT64_MIN <=? z) && (z <=? INT64_MAX).

(** The integer pandas shows for NaT. *)
Definition iNaT : Z := INT64_MIN.

(** numpy's cast of a finite float64 to int64: the integer part, and the
    smallest int64 for a value out of range, which is what the conversion
    instruction of x86-64 gives. *)
Definition int64_of_float (x : float64) : Z :=
  if in_int64 (F64.trunc x) then F64.trunc x else INT64_MIN.

(** ** What is taken from the libraries as given *)

(** The value [ast.literal_eval] returns: a list, or anything else. *)
Inductive literal : Type :=
| LitList (l : list pyobj)
| LitOther.

Record Runtime : Type := mkRuntime {
  (** [a.argsort(kind='quicksort')] on int64, on float64 without NaN and
      on objects, where comparing may raise: positions in sorted order. *)
  argsort : list Z -> list nat;
  argsort_float : list float64 -> list nat;
  argsort_obj : list pyobj -> result (list nat);
  (** The values as [np.partition] leaves them for the median: in
      non-decreasing order around the middle. *)
  sorted_floats : list float64 -> list float64;
  (** [ast.literal_eval(s)]: the value or the exception. *)
  literal_eval : string -> result literal;
  (** What [pd.to_numeric] reads from a string that is not empty: the
      integer when the text is an integer literal, and the float, [None]
      when it reads no number or NaN. *)
  str_to_int : string -> option Z;
  str_to_float : string -> option float64;
  (** [pd.to_datetime(s, errors='coerce')] at position [i] of a column
      that is not yet datetime64: the wall-clock time and the offset from
      UTC read there, no offset for a naive time; [None] is NaT. *)
  to_datetime_at : Series -> nat -> option (Z * option Z);
  (** [str(x)] for a float; [str(x)] and [repr(x)] for a Timestamp or a
      datetime; the text [astype(str)] gives position [i] of a
      datetime64 column. *)
  float_str : float64 -> string;
  stamp_str : Z -> option Z -> string;
  stamp_repr : Z -> option Z -> string;
  date_str_at : list (option Z) -> nat -> string;
  (** [s.resample(freq).mean()] for a frequency other than 'YE' and 'ME',
      given the index and the values. *)
  resample_other : string -> Series -> Series -> result (list (Z * option float64));
  (** [pd.Series(l).value_counts()] when [l] holds more than text and
      [None]. *)
  value_counts_other : list pyobj -> result (list (pyobj * Z))
}.

(** The contract of [argsort]: a permutation of the positions that puts
    the keys in non-decreasing order.  Kind 'quicksort' promises nothing
    about the order of equal keys. *)
Definition argsort_sorts (f : list Z -> list nat) : Prop :=
  forall keys,
    Permutation (f keys) (seq 0 (length keys)) /\
    Sorted Z.le (take (f keys) keys).

(** A stable [argsort] moreover lists equal keys by increasing position. *)
Definition argsort_stable (f : list Z -> list nat) : Prop :=
  forall keys,
    Sorted (fun i j => nth i keys 0 < nth j keys 0 \/
                       (nth i keys 0 = nth j keys 0 /\ (i < j)%nat)) (f keys).

(** What is used of [np.partition]: it rearranges the values. *)
Definition partition_permutes (f : list float64 -> list float64) : Prop :=
  forall l, Permutation (f l) l.

(** ** Series operations *)

Definition series_take (ix : list nat) (s : Series) : Series :=
  match s with
  | IntCol l => IntCol (take ix l)
  | FloatCol l => FloatCol (take ix l)
  | ObjCol l => ObjCol (take ix l)
  | DateCol l => DateCol (take ix l)
  end.

(** A missing value in an object column: [None], NaN or NaT. *)
Definition is_null (o : pyobj) : bool :=
  match o with
  | ONone | ONaN | ONaT => true
  | _ => false
  end.

(** [s.isna()]. *)
Definition isna (s : Series) : list bool :=
  match s with
  | IntCol l => map (fun _ => false) l
  | FloatCol l => map is_none l
  | ObjCol l => map is_null l
  | DateCol l => map is_none l
  end.

(** [s.fillna(v)] for a scalar [v] that is a string or an int.  A column
    with nothing to fill is returned as it is; a float or datetime column
    filled with a value it cannot hold becomes an object column. *)
Definition fillna (v : pyobj) (s : Series) : Series :=
  match s with
  | IntCol l => IntCol l
  | FloatCol l =>
      if existsb is_none l then
        match v with
        | OInt z => FloatCol (map (fun c => match c with None => F64.of_Z z | _ => c end) l)
        | OFloat x => FloatCol (map (fun c => match c with None => Some x | _ => c end) l)
        | _ => ObjCol (map (fun c => match c with None => v | Some x => OFloat x end) l)
        end
      else FloatCol l
  | ObjCol l => ObjCol (map (fun c => if is_null c then v else c) l)
  | DateCol l =>
      if existsb is_none l then
        ObjCol (map (fun c => match c with None => v | Some t => OStamp t None end) l)
      else DateCol l
  end.

(** An integer as a C [long]. *)
Definition as_long (z : Z) : result Z :=
  if in_int64 z then Ok z else Raise OverflowError.

(** [int(x)] for a cell of an object column, stored as int64. *)
Definition int_of_obj (o : pyobj) : result Z :=
  match o with
  | OInt z => as_long z
  | OFloat x => if F64.is_inf x then Raise OverflowError else as_long (F64.trunc x)
  | OStr s => z <- Py.int_of_str s ;; as_long z
  | ONaN => Raise ValueError
  | ONone => Raise TypeError
  | ONaT => Raise TypeError
  | OList _ => Raise TypeError
  | OStamp _ _ => Raise TypeError
  | OOther _ => Raise Unmodelled
  end.

(** A float that [astype(int)] refuses: NaN or an infinity. *)
Definition non_finite (c : option float64) : bool :=
  match c with
  | None => true
  | Some x => F64.is_inf x
  end.

Definition int64_of_cell (c : option float64) : Z :=
  match c with
  | Some x => int64_of_float x
  | None => INT64_MIN
  end.

(** [s.astype(int)].  On float64 pandas raises IntCastingNaNError, a
    ValueError, when a value is NaN or infinite. *)
Definition astype_int (s : Series) : result Series :=
  match s with
  | IntCol l => Ok (IntCol l)
  | FloatCol l =>
      if existsb non_finite l then Raise ValueError
      else Ok (IntCol (map int64_of_cell l))
  | ObjCol l => zs <- mapM int_of_obj l ;; Ok (IntCol zs)
  | DateCol l =>
      Ok (IntCol (map (fun c => match c with Some t => t | None => iNaT end) l))
  end.

(** Equality of keys as pandas hashes them: Python's [==], with NaN equal
    to NaN. *)
Definition option_eqb {A} (eqb : A -> A -> bool) (a b : option A) : bool :=
  match a, b with
  | Some x, Some y => eqb x y
  | None, None => true
  | _, _ => false
  end.

(** The instant of an aware time. *)
Definition instant (t offset : Z) : Z := t - offset * 10 ^ 9.

Fixpoint obj_eqb (a b : pyobj) {struct a} : bool :=
  match a, b with
  | ONone, ONone => true
  | ONaN, ONaN => true
  | ONaT, ONaT => true
  | OStr x, OStr y => String.eqb x y
  | OInt x, OInt y => Z.eqb x y
  | OFloat x, OFloat y => F64.eqb x y
  | OInt x, OFloat y => F64.eqb_Z y x
  | OFloat x, OInt y => F64.eqb_Z x y
  | OList x, OList y =>
      (fix list_eqb (x y : list pyobj) {struct x} : bool :=
         match x, y with
         | [], [] => true
         | a :: x', b :: y' => obj_eqb a b && list_eqb x' y'
         | _, _ => false
         end) x y
  | OStamp t None, OStamp u None => Z.eqb t u
  | OStamp t (Some o), OStamp u (Some p) => Z.eqb (instant t o) (instant u p)
  | OOther x, OOther y => String.eqb x y
  | _, _ => false
  end.

(** [s.duplicated()]. *)
Definition series_duplicated (s : Series) : list bool :=
  match s with
  | IntCol l => duplicated Z.eqb l
  | FloatCol l => duplicated (option_eqb F64.eqb) l
  | ObjCol l => duplicated obj_eqb l
  | DateCol l => duplicated (option_eqb Z.eqb) l
  end.

Section WithRuntime.

Variable rt : Runtime.

(** [repr(x)] and [str(x)] for a cell of an object column. *)
Fixpoint repr_obj (o : pyobj) : string :=
  match o with
  | ONone => "None"
  | ONaN => "nan"
  | ONaT => "NaT"
  | OStr s => Py.repr_str s
  | OInt z => Py.str_of_int z
  | OFloat x => float_str rt x
  | OList l => ("[" ++ Py.join_comma (map repr_obj l) ++ "]")%string
  | OStamp t o => stamp_repr rt t o
  | OOther r => r
  end.

Definition str_of_obj (o : pyobj) : string :=
  match o with
  | OStr s => s
  | OStamp t o => stamp_str rt t o
  | _ => repr_obj o
  end.

(** [s.astype(str)]: always an object column of strings. *)
Definition astype_str (s : Series) : Series :=
  match s with
  | IntCol l => ObjCol (map (fun z => OStr (Py.str_of_int z)) l)
  | FloatCol l =>
      ObjCol (map (fun c => OStr (match c with Some x => float_str rt x | None => "nan" end)) l)
  | ObjCol l => ObjCol (map (fun o => OStr (str_of_obj o)) l)
  | DateCol l => ObjCol (map (fun i => OStr (date_str_at rt l i)) (seq 0 (length l)))
  end.

(** A cell the [.str] accessor takes for text: text, or missing. *)
Definition text_or_null (c : pyobj) : bool :=
  match c with
  | OStr _ | ONone | ONaN => true
  | _ => false
  end.

(** A method of the [.str] accessor.  Only an object column has one, and
    pandas asks for the cells to look like text: on text and missing
    values the method is applied to the text; a column that holds other
    objects beside is left out of the model. *)
Definition str_method (f : string -> string) (s : Series) : result Series :=
  match s with
  | ObjCol l =>
      if forallb text_or_null l
      then Ok (ObjCol (map (fun o => match o with OStr x => OStr (f x) | _ => o end) l))
      else Raise Unmodelled
  | _ => Raise AttributeError
  end.

(** What [pd.to_numeric(errors='coerce')] reads from a cell of an object
    column: the integer, if it reads one, and the float; what cannot be
    read is NaN. *)
Definition int_reading (o : pyobj) : option Z :=
  match o with
  | OInt z => Some z
  | OStr s => if String.eqb s EmptyString then None else str_to_int rt s
  | _ => None
  end.

Definition float_reading (o : pyobj) : option float64 :=
  match o with
  | OInt z => F64.of_Z z
  | OFloat x => Some x
  | OStr s => if String.eqb s EmptyString then None else str_to_float rt s
  | _ => None
  end.

Definition is_other (o : pyobj) : bool :=
  match o with
  | OOther _ => true
  | _ => false
  end.

Definition beyond_int64 (r : option Z) : bool :=
  match r with
  | Some z => negb (in_int64 z)
  | None => false
  end.

(** [pd.to_numeric(s, errors='coerce')].  An object column becomes int64
    when every cell reads as an integer, float64 otherwise.  An integer
    beyond int64 would make it uint64, float64 or leave it as it is, and
    an object of another type may read as a number: both are left out of
    the model. *)
Definition to_numeric (s : Series) : result Series :=
  match s with
  | IntCol l => Ok (IntCol l)
  | FloatCol l => Ok (FloatCol l)
  | ObjCol l =>
      if existsb is_other l || existsb beyond_int64 (map int_reading l)
      then Raise Unmodelled
      else if forallb is_some (map int_reading l)
      then Ok (IntCol (somes (map int_reading l)))
      else Ok (FloatCol (map float_reading l))
  | DateCol l => Ok (IntCol (map (fun c => match c with Some t => t | None => iNaT end) l))
  end.

(** The offsets from UTC of the times read, the naive ones included. *)
Definition offsets (cells : list (option (Z * option Z))) : list (option Z) :=
  map snd (somes cells).

Definition same_offset (cells : list (option (Z * option Z))) : bool :=
  match offsets cells with
  | [] => true
  | o :: os => forallb (option_eqb Z.eqb o) os
  end.

Definition datetime_obj (c : option (Z * option Z)) : pyobj :=
  match c with
  | Some (t, o) => OStamp t o
  | None => ONaT
  end.

(** [pd.to_datetime(s, errors='coerce')]: a datetime64 column when the
    times read are all naive or all have the same offset from UTC; with
    mixed offsets pandas 2 gives an object column of datetimes. *)
Definition to_datetime (s : Series) : Series :=
  match s with
  | DateCol l => DateCol l
  | _ =>
      let cells := map (to_datetime_at rt s) (seq 0 (series_length s)) in
      if same_offset cells then DateCol (map (option_map fst) cells)
      else ObjCol (map datetime_obj cells)
  end.

(** [nargsort(keys, kind='quicksort', ascending=False)] of pandas on keys
    without NaN: reverse, argsort, reverse. *)
Definition nargsort_desc (keys : list Z) : list nat :=
  rev (take (argsort rt (rev keys)) (rev (seq 0 (length keys)))).

End WithRuntime.

(** ** Table operations *)

Fixpoint lookup (name : string) (cs : list (string * Series)) : option Series :=
  match cs with
  | [] => None
  | (n, s) :: cs' => if String.eqb n name then Some s else lookup name cs'
  end.

(** [name in df.columns]. *)
Definition has_column (name : string) (df : DataFrame) : bool :=
  existsb (String.eqb name) (columns df).

(** [df[name]]. *)
Definition getitem (name : string) (df : DataFrame) : result Series :=
  match lookup name (cols df) with
  | Some s => Ok s
  | None => Raise (KeyError name)
  end.

Fixpoint assign (name : string) (s : Series) (cs : list (string * Series))
  : list (string * Series) :=
  match cs with
  | [] => [(name, s)]
  | (n, s0) :: cs' =>
      if String.eqb n name then (n, s) :: cs' else (n, s0) :: assign name s cs'
  end.

(** [df[name] = s]: in place when the column exists, appended otherwise. *)
Definition setitem (name : string) (s : Series) (df : DataFrame) : DataFrame :=
  mkDataFrame (index df) (assign name s (cols df)).

(** [df.columns = df.columns.map(f)]. *)
Definition rename_columns (f : string -> string) (df : DataFrame) : DataFrame :=
  mkDataFrame (index df) (map (fun c => (f (fst c), snd c)) (cols df)).

(** [df.take(ix)]: the rows at positions [ix], labels included. *)
Definition df_take (ix : list nat) (df : DataFrame) : DataFrame :=
  mkDataFrame (series_take ix (index df))
              (map (fun c => (fst c, series_take ix (snd c))) (cols df)).

(** [df.head(n)], that is [df.iloc[:n]]. *)
Definition df_head (n : Z) (df : DataFrame) : DataFrame :=
  df_take (head n (seq 0 (nrows df))) df.

(** [df[mask]] for a boolean mask. *)
Definition df_filter (mask : list bool) (df : DataFrame) : DataFrame :=
  df_take (nonzero mask) df.

(** [df.drop_duplicates(subset=[name])], keeping the first of each key. *)
Definition drop_duplicates (name : string) (df : DataFrame) : result DataFrame :=
  s <- getitem name df ;;
  Ok (df_filter (map negb (series_duplicated s)) df).

(** [df.dropna(subset=[name])]. *)
Definition dropna (name : string) (df : DataFrame) : result DataFrame :=
  s <- getitem name df ;;
  Ok (df_filter (map negb (isna s)) df).

(** ** Median and mean, skipping NaN *)

Section Median.

Variable rt : Runtime.

(** [s.median()]: the middle of the values that are present, the mean of
    the two middle ones, their sum divided by 2, when their number is
    even; NaN when there is none. *)
Definition median (l : list (option float64)) : option float64 :=
  let v := sorted_floats rt (somes l) in
  let n := length (somes l) in
  if Nat.odd n then nth_error v (n / 2)
  else
    match nth_error v (n / 2 - 1), nth_error v (n / 2) with
    | Some a, Some b => F64.div (F64.add (Some a) (Some b)) F64.two
    | _, _ => None
    end.

(** One column of [df[num].fillna(df[num].median())]: an int64 column has
    nothing to fill, and a NaN median fills nothing. *)
Definition fillna_median (s : Series) : Series :=
  match s with
  | FloatCol l =>
      match median l with
      | Some m => FloatCol (map (fun c => match c with None => Some m | _ => c end) l)
      | None => FloatCol l
      end
  | _ => s
  end.

End Median.

(** [select_dtypes(include=['number'])]. *)
Definition is_number (s : Series) : bool :=
  match s with
  | IntCol _ | FloatCol _ => true
  | ObjCol _ | DateCol _ => false
  end.

(** [num = df.select_dtypes(include=['number']).columns;
     df[num] = df[num].fillna(df[num].median())]. *)
Definition fill_numeric_with_median (rt : Runtime) (df : DataFrame) : DataFrame :=
  mkDataFrame (index df)
    (map (fun c => (fst c, if is_number (snd c) then fillna_median rt (snd c) else snd c))
         (cols df)).

(** The mean of a group as pandas' [group_mean] computes it: the values
    that are not NaN are added up in order with Kahan's compensation, a
    compensation that is NaN being reset to 0, and the sum is divided by
    their number; NaN for a group without values. *)
Fixpoint kahan_sum (sumx compensation : option float64) (nobs : Z)
         (values : list (option float64)) : option float64 * Z :=
  match values with
  | [] => (sumx, nobs)
  | None :: values' => kahan_sum sumx compensation nobs values'
  | Some val :: values' =>
      let y := F64.sub (Some val) compensation in
      let t := F64.add sumx y in
      let c := F64.sub (F64.sub t sumx) y in
      let c := match c with None => F64.zero | Some _ => c end in
      kahan_sum t c (nobs + 1) values'
  end.

Definition group_mean (values : list (option float64)) : option float64 :=
  let '(sumx, nobs) := kahan_sum F64.zero F64.zero 0 values in
  if nobs =? 0 then None else F64.div sumx (F64.of_Z nobs).

(** ** Calendar *)

Definition ns_per_day : Z := 86400 * 10 ^ 9.

(** Days since 1970-01-01 to proleptic Gregorian (year, month, day). *)
Definition civil_from_days (d : Z) : Z * Z * Z :=
  let z := d + 719468 in
  let era := z / 146097 in
  let doe := z - era * 146097 in
  let yoe := (doe - doe / 1460 + doe / 36524 - doe / 146096) / 365 in
  let doy := doe - (365 * yoe + yoe / 4 - yoe / 100) in
  let mp := (5 * doy + 2) / 153 in
  let day := doy - (153 * mp + 2) / 5 + 1 in
  let m := if mp <? 10 then mp + 3 else mp - 9 in
  let y := yoe + era * 400 in
  (if m <=? 2 then y + 1 else y, m, day).

Definition days_from_civil (y m d : Z) : Z :=
  let y' := if m <=? 2 then y - 1 else y in
  let era := y' / 400 in
  let yoe := y' - era * 400 in
  let doy := (153 * (if 2 <? m then m - 3 else m + 9) + 2) / 5 + d - 1 in
  let doe := yoe * 365 + yoe / 4 - yoe / 100 + doy in
  era * 146097 + doe - 719468.

(** A timestamp for midnight of a date. *)
Definition timestamp (y m d : Z) : Z := days_from_civil y m d * ns_per_day.

Definition year_of (t : Z) : Z :=
  let '(y, _, _) := civil_from_days (t / ns_per_day) in y.

Definition month_of (t : Z) : Z :=
  let '(_, m, _) := civil_from_days (t / ns_per_day) in m.

(** The two frequencies modelled in closed form. *)
Inductive offset : Type := YearEnd | MonthEnd.

Definition to_offset (freq : string) : option offset :=
  if String.eqb freq "YE" then Some YearEnd
  else if String.eqb freq "ME" then Some MonthEnd
  else None.

(** The calendar period of a timestamp, as a number: the year, or the
    months since year 0. *)
Definition period_of (o : offset) (t : Z) : Z :=
  match o with
  | YearEnd => year_of t
  | MonthEnd => 12 * year_of t + (month_of t - 1)
  end.

(** The label of a period: midnight of its last day. *)
Definition period_end (o : offset) (p : Z) : Z :=
  match o with
  | YearEnd => timestamp p 12 31
  | MonthEnd => (days_from_civil ((p + 1) / 12) ((p + 1) mod 12 + 1) 1 - 1) * ns_per_day
  end.

(** [lo, lo+1, ..., hi]. *)
Definition zrange (lo hi : Z) : list Z :=
  map (fun k => lo + Z.of_nat k) (seq 0 (Z.to_nat (hi - lo + 1))).

(** The rows in the order of their timestamps, rows with the same
    timestamp in their original order: before it groups, [resample]
    sorts an index that is not increasing with a stable sort. *)
Fixpoint insert_by_time {A} (r : Z * A) (l : list (Z * A)) : list (Z * A) :=
  match l with
  | [] => [r]
  | r' :: l' => if fst r' <=? fst r then r' :: insert_by_time r l' else r :: l
  end.

Definition sort_by_time {A} (rows : list (Z * A)) : list (Z * A) :=
  fold_left (fun acc r => insert_by_time r acc) rows [].

(** The row [resample(o).mean()] has for period [q]: the label of the
    period and the mean of the values whose timestamp falls in it, taken
    in the order of the timestamps. *)
Definition bucket (o : offset) (rows : list (Z * option float64)) (q : Z)
  : Z * option float64 :=
  (period_end o q,
   group_mean (map snd (filter (fun r => period_of o (fst r) =? q) (sort_by_time rows)))).

(** [s.resample(o).mean()] for a series indexed by timestamps: one row
    for every period from that of the earliest timestamp to that of the
    latest; a period without values has NaN.  Nothing for an empty
    series. *)
Definition resample_mean (o : offset) (rows : list (Z * option float64))
  : list (Z * option float64) :=
  match map (fun r => period_of o (fst r)) rows with
  | [] => []
  | p :: ps =>
      map (bucket o rows) (zrange (fold_right Z.min p ps) (fold_right Z.max p ps))
  end.

(** [s > t] for an int [t].  The key of [get_top_popular_tracks] has been
    cast to int64 when it is compared; comparing the cells of an object
    column is left out of the model. *)
Definition gt_scalar (s : Series) (t : Z) : result (list bool) :=
  match s with
  | IntCol l => Ok (map (fun z => t <? z) l)
  | FloatCol l =>
      Ok (map (fun c => match c, F64.of_Z t with
                        | Some x, Some y => negb (F64.leb x y)
                        | _, _ => false
                        end) l)
  | ObjCol _ => Raise Unmodelled
  | DateCol _ => Raise TypeError
  end.

(** A series without its dtype, as the values a loop over it sees, the
    missing ones dropped ([s.dropna()]). *)
Definition dropna_values (s : Series) : list pyobj :=
  match s with
  | IntCol l => map OInt l
  | FloatCol l => map OFloat (somes l)
  | ObjCol l => filter (fun o => negb (is_null o)) l
  | DateCol l => map (fun t => OStamp t None) (somes l)
  end.

(** The values of a numeric column as floats, for an average.  The mean
    of a column that is not numeric is left out of the model: there
    [popularity_trend] has made the column numeric. *)
Definition float_values (s : Series) : result (list (option float64)) :=
  match s with
  | IntCol l => Ok (map F64.of_Z l)
  | FloatCol l => Ok l
  | ObjCol _ => Raise Unmodelled
  | DateCol _ => Raise Unmodelled
  end.

(** [df.set_index(name)]: the column becomes the row labels and leaves
    the table. *)
Definition set_index (name : string) (df : DataFrame) : result DataFrame :=
  s <- getitem name df ;;
  Ok (mkDataFrame s (filter (fun c => negb (String.eqb (fst c) name)) (cols df))).

(** The rows that have a timestamp: each timestamp with the value beside
    it, in the order of the table. *)
Definition dated_rows {A} (dates : list (option Z)) (values : list A) : list (Z * A) :=
  flat_map (fun dv => match fst dv with Some t => [(t, snd dv)] | None => [] end)
           (combine dates values).

Section Sorting.

Variable rt : Runtime.

(** [s.resample(freq).mean()] for a series [s] with the index [idx]:
    only an index of timestamps can be resampled. *)
Definition resample (freq : string) (idx : Series) (s : Series)
  : result (list (Z * option float64)) :=
  match to_offset freq with
  | Some o =>
      match idx with
      | DateCol stamps =>
          v <- float_values s ;;
          Ok (resample_mean o (dated_rows stamps v))
      | _ => Raise TypeError
      end
  | None => resample_other rt freq idx s
  end.

(** [nargsort(keys, kind='quicksort', ascending=False)] on keys of which
    some are missing: [ix] is the [argsort] of the keys that are present,
    reversed, and [present] are their positions; they come in descending
    order, the [missing] positions last. *)
Definition descending (ix present missing : list nat) : list nat :=
  rev (take ix (rev present)) ++ missing.

(** [df.sort_values(name, ascending=False)].  Comparing objects may
    raise. *)
Definition sort_values_desc (name : string) (df : DataFrame) : result DataFrame :=
  s <- getitem name df ;;
  let present := nonzero (map negb (isna s)) in
  let missing := nonzero (isna s) in
  match s with
  | IntCol keys => Ok (df_take (nargsort_desc rt keys) df)
  | FloatCol keys =>
      Ok (df_take (descending (argsort_float rt (rev (somes keys))) present missing) df)
  | DateCol keys =>
      Ok (df_take (descending (argsort rt (rev (somes keys))) present missing) df)
  | ObjCol keys =>
      ix <- argsort_obj rt (rev (filter (fun o => negb (is_null o)) keys)) ;;
      Ok (df_take (descending ix present missing) df)
  end.

(** The distinct values in order of first appearance. *)
Definition unique (l : list string) : list string :=
  take (nonzero (map negb (duplicated String.eqb l))) l.

Definition count (x : string) (l : list string) : Z :=
  Z.of_nat (length (filter (String.eqb x) l)).

(** [pd.Series(l).value_counts()] for text: the distinct values with
    their number of occurrences, gathered in order of first appearance
    and then sorted by [sort_values(ascending=False)]. *)
Definition value_counts_str (l : list string) : list (string * Z) :=
  let keys := unique l in
  let counts := map (fun k => count k l) keys in
  take (nargsort_desc rt counts) (combine keys counts).

(** The text among values that are text or [None]; nothing when there is
    a value of another kind. *)
Fixpoint strings_of (l : list pyobj) : option (list string) :=
  match l with
  | [] => Some []
  | OStr x :: l' => option_map (cons x) (strings_of l')
  | ONone :: l' => strings_of l'
  | _ :: _ => None
  end.

Definition text_key (kc : string * Z) : pyobj * Z := (OStr (fst kc), snd kc).

(** [pd.Series(l).value_counts()]: [None] is not counted. *)
Definition value_counts (l : list pyobj) : result (list (pyobj * Z)) :=
  match strings_of l with
  | Some strs => Ok (map text_key (value_counts_str strs))
  | None => value_counts_other rt l
  end.

End Sorting.

(** ** Masks *)

(** [s.dt.year]: only a datetime column has the accessor, and NaT has no
    year. *)
Definition dt_year (s : Series) : result (list (option Z)) :=
  match s with
  | DateCol l => Ok (map (option_map year_of) l)
  | _ => Raise AttributeError
  end.

(** [y >= t] and [y <= t] for an int [t]: false where [y] is missing. *)
Definition ge_scalar (y : list (option Z)) (t : Z) : list bool :=
  map (fun c => match c with Some v => t <=? v | None => false end) y.

Definition le_scalar (y : list (option Z)) (t : Z) : list bool :=
  map (fun c => match c with Some v => v <=? t | None => false end) y.

(** [a & b] for two masks over the same rows. *)
Definition mask_and (a b : list bool) : list bool :=
  map (fun ab => fst ab && snd ab) (combine a b).

Section Masks.

Variable rt : Runtime.

(** [s == x] for a string [x].  Cells of an object column are compared as
    Python objects; a number never equals a string; a datetime column is
    compared with the timestamp read from [x], taken to be the one
    [pd.to_datetime] reads, and equals nothing when there is none. *)
Definition eq_str (s : Series) (x : string) : list bool :=
  match s with
  | IntCol l => map (fun _ => false) l
  | FloatCol l => map (fun _ => false) l
  | ObjCol l => map (obj_eqb (OStr x)) l
  | DateCol l =>
      match to_datetime_at rt (ObjCol [OStr x]) 0 with
      | Some (t, None) => map (option_eqb Z.eqb (Some t)) l
      | _ => map (fun _ => false) l
      end
  end.

End Masks.

(** ** Parts of a table *)

(** [df.empty]: no row or no column. *)
Definition empty (df : DataFrame) : bool :=
  (nrows df =? 0)%nat || (length (cols df) =? 0)%nat.

(** [df.select_dtypes(include='number')]. *)
Definition select_dtypes_number (df : DataFrame) : DataFrame :=
  mkDataFrame (index df) (filter (fun c => is_number (snd c)) (cols df)).

(** [df[names]] for a list of names: the columns named, in that order. *)
Definition select_columns (names : list string) (df : DataFrame) : result DataFrame :=
  cs <- mapM (fun n => s <- getitem n df ;; Ok (n, s)) names ;;
  Ok (mkDataFrame (index df) cs).

(** The slice [l[-n:]] for a positive [n] ([s.tail(n)]). *)
Definition tail {A} (n : nat) (l : list A) : list A :=
  skipn (length l - n) l.

Section Frames.

Variable rt : Runtime.

(** [df.sort_values(name, ascending=False)] on a table that may have the
    column twice: a label that is not unique is a ValueError. *)
Definition sort_values_desc_unique (name : string) (df : DataFrame) : result DataFrame :=
  if (1 <? length (filter (String.eqb name) (columns df)))%nat then Raise ValueError
  else sort_values_desc rt name df.

End Frames.

End Pd.

Import Pd.

(* ================================================================== *)
(** * src/cleaner.py *)

Module Cleaner.

Section WithRuntime.

Variable rt : Runtime.

(** [df.columns.str.lower().str.replace(" ", "_")], one name. *)
Definition normalize_column (c : string) : string :=
  Py.replace_spaces (Py.lower c).

(** [s.astype(str).str.replace(r"[\[\]']", ..., regex=True).str.strip().str.lower()]. *)
Definition clean_genres (s : Series) : result Series :=
  s <- str_method Py.remove_brackets_quotes (astype_str rt s) ;;
  s <- str_method Py.strip s ;;
  str_method Py.lower s.

Definition clean_artists (artists : DataFrame) : result DataFrame :=
  let df := artists in
  (* Standardize column names *)
  let df := rename_columns normalize_column df in
  (* Handle missing values *)
  g <- getitem "genres" df ;;
  let df := setitem "genres" (fillna (OStr "Unknown") g) df in
  f <- getitem "followers" df ;;
  f <- astype_int (fillna (OInt 0) f) ;;
  let df := setitem "followers" f df in
  p <- getitem "popularity" df ;;
  p <- astype_int (fillna (OInt 0) p) ;;
  let df := setitem "popularity" p df in
  (* Clean up genres formatting *)
  g <- getitem "genres" df ;;
  g <- clean_genres g ;;
  let df := setitem "genres" g df in
  (* Remove duplicates *)
  drop_duplicates "id" df.

Definition clean_tracks (tracks : DataFrame) : result DataFrame :=
  let df := tracks in
  (* Standardize column names *)
  let df := rename_columns normalize_column df in
  (* Convert release_date to datetime *)
  d <- getitem "release_date" df ;;
  let df := setitem "release_date" (to_datetime rt d) df in
  (* Handle missing values *)
  let df := fill_numeric_with_median rt df in
  (* Remove duplicates *)
  drop_duplicates "id" df.

Definition clean_features (features : DataFrame) : result DataFrame :=
  let df := features in
  (* Standardize column names *)
  let df := rename_columns normalize_column df in
  (* Handle missing values *)
  let df := fill_numeric_with_median rt df in
  (* Remove duplicates *)
  drop_duplicates "track_id" df.

Definition clean_data (artists tracks features : DataFrame)
  : result (DataFrame * DataFrame * DataFrame) :=
  artists <- clean_artists artists ;;
  tracks <- clean_tracks tracks ;;
  features <- clean_features features ;;
  Ok (artists, tracks, features).

End WithRuntime.

End Cleaner.

(* ================================================================== *)
(** * src/analyzer.py *)

Module Analyzer.

Section WithRuntime.

Variable rt : Runtime.

Definition get_top_popular_tracks (tracks : DataFrame) (threshold : option Z) (top_n : Z)
  : result DataFrame :=
  if negb (has_column "popularity" tracks) then Ok (df_head 0 tracks)
  else
    let df := tracks in
    p <- getitem "popularity" df ;;
    p <- to_numeric rt p ;;
    p <- astype_int (fillna (OInt 0) p) ;;
    let df := setitem "popularity" p df in
    filtered <-
      match threshold with
      | Some t =>
          p <- getitem "popularity" df ;;
          mask <- gt_scalar p t ;;
          Ok (df_filter mask df)
      | None => Ok df
      end ;;
    sorted <- sort_values_desc rt "popularity" filtered ;;
    Ok (df_head top_n sorted).

Definition set_release_date_index (tracks : DataFrame) : result DataFrame :=
  let df := tracks in
  if has_column "release_date" df then
    d <- getitem "release_date" df ;;
    let df := setitem "release_date" (to_datetime rt d) df in
    set_index "release_date" df
  else Ok df.

Definition top_artists_by_followers (artists : DataFrame) (top_n : Z) : result DataFrame :=
  if negb (has_column "followers" artists) then Ok (df_head 0 artists)
  else
    let df := artists in
    f <- getitem "followers" df ;;
    f <- to_numeric rt f ;;
    f <- astype_int (fillna (OInt 0) f) ;;
    let df := setitem "followers" f df in
    sorted <- sort_values_desc rt "followers" df ;;
    Ok (df_head top_n sorted).

(** [[g.strip() for g in val.split(",")]]. *)
Definition split_genres (val : string) : list pyobj :=
  map (fun g => OStr (Py.strip g)) (Py.split_commas val).

(** The body of the loop of [genre_distribution]: what one value adds to
    [all_genres]. *)
Definition genre_tokens (val : pyobj) : result (list pyobj) :=
  match val with
  | OList l => Ok l
  | OStr s =>
      match literal_eval rt s with
      | Ok (LitList parsed) => Ok parsed
      | Ok LitOther => Ok (split_genres s)
      | Raise ValueError => Ok (split_genres s)
      | Raise SyntaxError => Ok (split_genres s)
      | Raise e => Raise e
      end
  | _ => Ok []
  end.

Definition genre_distribution (artists : DataFrame) : result (list (pyobj * Z)) :=
  if negb (has_column "genres" artists) then Ok []
  else
    g <- getitem "genres" artists ;;
    all_genres <- mapM genre_tokens (dropna_values g) ;;
    value_counts rt (concat all_genres).

Definition popularity_trend (tracks : DataFrame) (freq : string)
  : result (list (Z * option float64)) :=
  if negb (has_column "release_date" tracks) then Ok []
  else
    let df := tracks in
    d <- getitem "release_date" df ;;
    let df := setitem "release_date" (to_datetime rt d) df in
    df <- dropna "release_date" df ;;
    (* Ensure popularity is numeric *)
    df <- (if has_column "popularity" df then
             p <- getitem "popularity" df ;;
             p <- to_numeric rt p ;;
             Ok (setitem "popularity" p df)
           else Ok df) ;;
    (* Backwards compatibility: map deprecated 'Y' to 'YE' *)
    let freq_upper := Py.upper freq in
    let freq := if String.eqb freq_upper "Y" then "YE" else freq in
    df <- set_index "release_date" df ;;
    p <- getitem "popularity" df ;;
    resample rt freq (index df) p.

End WithRuntime.

End Analyzer.

(* ================================================================== *)
(** * Spotify_EDA_App/app.py: the dashboard's own cleaners and filters *)

Module App.

Section WithRuntime.

Variable rt : Runtime.

Definition clean_artists (df : DataFrame) : result DataFrame :=
  let df := rename_columns Cleaner.normalize_column df in
  f <- getitem "followers" df ;;
  f <- to_numeric rt f ;;
  f <- astype_int (fillna (OInt 0) f) ;;
  let df := setitem "followers" f df in
  p <- getitem "popularity" df ;;
  p <- to_numeric rt p ;;
  p <- astype_int (fillna (OInt 0) p) ;;
  let df := setitem "popularity" p df in
  g <- getitem "genres" df ;;
  g <- str_method Py.lower (fillna (OStr "Unknown") g) ;;
  let df := setitem "genres" g df in
  n <- getitem "name" df ;;
  let df := setitem "name" (fillna (OStr "Unknown") n) df in
  Ok df.

Definition clean_tracks (df : DataFrame) : result DataFrame :=
  let df := rename_columns Cleaner.normalize_column df in
  d <- getitem "release_date" df ;;
  let df := setitem "release_date" (to_datetime rt d) df in
  let df := fill_numeric_with_median rt df in
  n <- getitem "name" df ;;
  let df := setitem "name" (fillna (OStr "Unknown") n) df in
  Ok df.

(** [year_range] is the pair the slider gives: first and last year. *)
Definition get_filtered_tracks (tracks : DataFrame) (artist : string) (year_range : Z * Z)
  : result DataFrame :=
  let df := tracks in
  df <- (if negb (String.eqb artist "All") then
           a <- getitem "artists" df ;;
           Ok (df_filter (eq_str rt a artist) df)
         else Ok df) ;;
  d <- getitem "release_date" df ;;
  lo <- dt_year d ;;
  d <- getitem "release_date" df ;;
  hi <- dt_year d ;;
  Ok (df_filter (mask_and (ge_scalar lo (fst year_range)) (le_scalar hi (snd year_range)))
                df).

Definition get_filtered_artists (artists : DataFrame) (artist genre : string)
  : result DataFrame :=
  let df := artists in
  df <- (if negb (String.eqb artist "All") then
           n <- getitem "name" df ;;
           Ok (df_filter (eq_str rt n artist) df)
         else Ok df) ;;
  df <- (if negb (String.eqb genre "All") then
           g <- getitem "genres" df ;;
           Ok (df_filter (eq_str rt g genre) df)
         else Ok df) ;;
  Ok df.

End WithRuntime.

End App.

(* ================================================================== *)
(** * Output

    Printing and plotting are recorded, not interpreted: a computation
    with output is the list of what it printed, or of the calls it made
    into matplotlib and seaborn, in order, together with the way it ended.
    The calls themselves are taken to return, except the one known to
    raise: the bar chart of an empty series.  Logging is left out. *)

Definition io (E A : Type) : Type := (list E * result A)%type.

Definition emit {E} (e : E) : io E unit := ([e], Ok tt).

Definition lift {E A} (r : result A) : io E A := ([], r).

Definition done {E} : io E unit := ([], Ok tt).

Definition io_bind {E A B} (m : io E A) (k : A -> io E B) : io E B :=
  match m with
  | (out, Ok a) => let '(out', r) := k a in (out ++ out', r)
  | (out, Raise e) => (out, Raise e)
  end.

Notation "x <~ m ;; k" := (io_bind m (fun x => k))
  (at level 61, m at next level, right associativity).

Notation "m ;;; k" := (io_bind m (fun _ => k))
  (at level 61, right associativity).

(* ================================================================== *)
(** * src/visualizer.py *)

Module Visualizer.

(** The calls the module makes, with the arguments that vary. *)
Inductive call : Type :=
| Figure (width height : Z)                 (* plt.figure(figsize=(w, h)) *)
| Heatmap (numeric_df : DataFrame)          (* sns.heatmap(numeric_df.corr(), ...) *)
| BarOf (counts : list (pyobj * Z))         (* counts.plot(kind='bar', ...) *)
| LineOf (series : list (Z * option float64)) (* series.plot(marker='o') *)
| Barplot (x y : string) (data : DataFrame) (* sns.barplot(x=x, y=y, data=data) *)
| Title (s : string)
| Xlabel (s : string)
| Ylabel (s : string)
| Xticks                                    (* plt.xticks(rotation=45, ha='right') *)
| Grid                                      (* plt.grid(True, ...) *)
| TightLayout
| Savefig (path : string)                   (* plt.savefig(path, dpi=300, ...) *)
| Close
| Show.

(** [if save_path: plt.savefig(save_path, ...); plt.close()
     else: plt.show()]: [None] and the empty path are false. *)
Definition save_or_show (save_path : option string) : io call unit :=
  match save_path with
  | Some (String c p) => emit (Savefig (String c p)) ;;; emit Close
  | _ => emit Show
  end.

(** [counts.plot(kind='bar', ...)]: pandas raises IndexError when the
    series is empty. *)
Definition plot_bar (counts : list (pyobj * Z)) : io call unit :=
  match counts with
  | [] => lift (Raise IndexError)
  | _ => emit (BarOf counts)
  end.

Section WithRuntime.

Variable rt : Runtime.

Definition plot_correlation_heatmap (df : DataFrame) (title : string)
           (save_path : option string) : io call unit :=
  let numeric_df := select_dtypes_number df in
  if empty numeric_df || (length (cols numeric_df) <? 2)%nat then done
  else
    emit (Figure 12 8) ;;;
    emit (Heatmap numeric_df) ;;;
    emit (Title title) ;;;
    emit TightLayout ;;;
    save_or_show save_path.

Definition plot_genre_distribution (genre_counts : option (list (pyobj * Z)))
           (top_n : Z) (save_path : option string) : io call unit :=
  match genre_counts with
  | None => done
  | Some [] => done
  | Some genre_counts =>
      emit (Figure 12 6) ;;;
      plot_bar (head top_n genre_counts) ;;;
      emit (Title ("Top " ++ Py.str_of_int top_n ++ " Genres")%string) ;;;
      emit (Xlabel "Genre") ;;;
      emit (Ylabel "Count") ;;;
      emit Xticks ;;;
      emit TightLayout ;;;
      save_or_show save_path
  end.

Definition plot_popularity_trend (popularity_series : option (list (Z * option float64)))
           (freq_label : string) (save_path : option string) : io call unit :=
  match popularity_series with
  | None => done
  | Some [] => done
  | Some popularity_series =>
      emit (Figure 12 6) ;;;
      emit (LineOf popularity_series) ;;;
      emit (Title ("Average Track Popularity Over Time (" ++ freq_label ++ ")")%string) ;;;
      emit (Xlabel "Time") ;;;
      emit (Ylabel "Average Popularity") ;;;
      emit Grid ;;;
      emit TightLayout ;;;
      save_or_show save_path
  end.

Definition plot_top_entities (df : option DataFrame) (column value_col : string)
           (top_n : Z) (title : string) (save_path : option string) : io call unit :=
  match df with
  | None => done
  | Some df =>
      if empty df then done
      else if negb (has_column column df) || negb (has_column value_col df) then done
      else
        pair <~ lift (select_columns [column; value_col] df) ;;
        sorted <~ lift (sort_values_desc_unique rt value_col pair) ;;
        let top_entities := df_head top_n sorted in
        if empty top_entities then done
        else
          emit (Figure 12 6) ;;;
          emit (Barplot value_col column top_entities) ;;;
          emit (Title title) ;;;
          emit (Xlabel (Py.capitalize value_col)) ;;;
          emit (Ylabel (Py.capitalize column)) ;;;
          emit TightLayout ;;;
          save_or_show save_path
  end.

End WithRuntime.

End Visualizer.

(* ================================================================== *)
(** * src/config.py and main.py: the analysis run *)

Module Config.

Definition POPULARITY_THRESHOLD : Z := 90.
Definition TOP_N_TRACKS : Z := 10.
Definition TOP_N_ARTISTS : Z := 10.
Definition TOP_N_GENRES : Z := 15.
Definition POPULARITY_FREQ : string := "Y".
Definition POPULARITY_FREQ_LABEL : string := "Yearly".

End Config.

Module Main.

(** The dict [results] of [run_analysis], one field for each key. *)
Record Results : Type := mkResults {
  top_tracks : DataFrame;
  top_artists : DataFrame;
  genres : list (pyobj * Z);
  popularity_trend : list (Z * option float64)
}.

Section WithRuntime.

Variable rt : Runtime.

(** [features] is passed and not used. *)
Definition run_analysis (artists tracks features : DataFrame) : result Results :=
  top_tracks <- Analyzer.get_top_popular_tracks rt tracks
                  (Some Config.POPULARITY_THRESHOLD) Config.TOP_N_TRACKS ;;
  top_artists <- Analyzer.top_artists_by_followers rt artists Config.TOP_N_ARTISTS ;;
  genres <- Analyzer.genre_distribution rt artists ;;
  popularity_trend <- Analyzer.popularity_trend rt tracks Config.POPULARITY_FREQ ;;
  Ok (mkResults top_tracks top_artists genres popularity_trend).

(** What [print] is given: a line of text, a table, or a series. *)
Inductive shown : Type :=
| Text (s : string)
| Frame (df : DataFrame)
| Counts (l : list (pyobj * Z))
| Points (l : list (Z * option float64)).

(** The line feed that opens each heading. *)
Definition nl : string := String "010" EmptyString.

Definition display_results (results : Results) : io shown unit :=
  emit (Text (nl ++ "=== Top Popular Tracks ===")%string) ;;;
  df <~ lift (select_columns ["name"; "popularity"] (top_tracks results)) ;;
  emit (Frame df) ;;;
  emit (Text (nl ++ "=== Top Artists by Followers ===")%string) ;;;
  df <~ lift (select_columns ["name"; "followers"] (top_artists results)) ;;
  emit (Frame df) ;;;
  emit (Text (nl ++ "=== Genre Distribution (Top "
                 ++ Py.str_of_int Config.TOP_N_GENRES ++ ") ===")%string) ;;;
  emit (Counts (head Config.TOP_N_GENRES (genres results))) ;;;
  emit (Text (nl ++ "=== Popularity Trend ("
                 ++ Config.POPULARITY_FREQ_LABEL ++ ") ===")%string) ;;;
  emit (Points (tail 5 (popularity_trend results))).

(** [os.path.join(RESULTS_DIR, name)], with the separator of POSIX. *)
Definition RESULTS_DIR : string := "results".

Definition in_results (name : string) : string := (RESULTS_DIR ++ "/" ++ name)%string.

Definition generate_visuals (results : Results) (features : DataFrame)
  : io Visualizer.call unit :=
  Visualizer.plot_correlation_heatmap features "Feature Correlation Heatmap"
    (Some (in_results "correlation_heatmap.png")) ;;;
  Visualizer.plot_genre_distribution (Some (genres results)) Config.TOP_N_GENRES
    (Some (in_results "genre_distribution.png")) ;;;
  Visualizer.plot_popularity_trend (Some (popularity_trend results))
    Config.POPULARITY_FREQ_LABEL
    (Some (in_results "popularity_trend.png")) ;;;
  Visualizer.plot_top_entities rt (Some (top_artists results)) "name" "followers"
    Config.TOP_N_ARTISTS
    ("Top " ++ Py.str_of_int Config.TOP_N_ARTISTS ++ " Artists by Followers")%string
    (Some (in_results "top_artists.png")) ;;;
  Visualizer.plot_top_entities rt (Some (top_tracks results)) "name" "popularity"
    Config.TOP_N_TRACKS
    ("Top " ++ Py.str_of_int Config.TOP_N_TRACKS ++ " Tracks by Popularity")%string
    (Some (in_results "top_tracks.png")).

End WithRuntime.

End Main.

(* ================================================================== *)
(** * A runtime to run the model on examples

    Insertion sort for [argsort] and [partition], which leaves equal keys
    in their original order as numpy's kind 'stable' does, and readers
    for the few notations the examples use: list literals of plainly
    quoted strings, decimal integers, ISO dates.  Where it has no answer
    of the library to give it stops with [Unmodelled].  Floats and
    timestamps are printed in a plain way of its own; no example prints
    one. *)

Module Example.

(** Insertion of position [i] with key [k] before the first entry it
    precedes under [before]. *)
Fixpoint insert_by (before : Z -> Z -> bool) (k : Z) (i : nat) (l : list (Z * nat))
  : list (Z * nat) :=
  match l with
  | [] => [(k, i)]
  | (k', j) :: l' =>
      if before k k' then (k, i) :: l else (k', j) :: insert_by before k i l'
  end.

Definition sort_by (before : Z -> Z -> bool) (l : list (Z * nat)) : list (Z * nat) :=
  fold_right (fun p acc => insert_by before (fst p) (snd p) acc) [] l.

Definition argsort_by (before : Z -> Z -> bool) (keys : list Z) : list nat :=
  map snd (sort_by before (combine keys (seq 0 (length keys)))).

(** The same for floats. *)
Fixpoint insert_float {A} (x : float64 * A) (l : list (float64 * A)) : list (float64 * A) :=
  match l with
  | [] => [x]
  | y :: l' => if F64.leb (fst x) (fst y) then x :: l else y :: insert_float x l'
  end.

Definition sort_floats {A} (l : list (float64 * A)) : list (float64 * A) :=
  fold_right insert_float [] l.

Definition argsort_float (keys : list float64) : list nat :=
  map snd (sort_floats (combine keys (seq 0 (length keys)))).

Definition sorted_floats (l : list float64) : list float64 :=
  map fst (sort_floats (map (fun x => (x, tt)) l)).

(** A quoted string without escapes: the text up to the closing quote and
    what follows it. *)
Fixpoint until_quote (q : ascii) (acc : list ascii) (l : list ascii)
  : option (list ascii * list ascii) :=
  match l with
  | [] => None
  | c :: l' =>
      if Ascii.eqb c q then Some (rev acc, l')
      else if Ascii.eqb c "\" then None
      else until_quote q (c :: acc) l'
  end.

(** The items of a list literal after the opening bracket. *)
Fixpoint list_items (fuel : nat) (l : list ascii) : option (list string) :=
  match fuel with
  | O => None
  | S fuel' =>
      match Py.lstrip_chars l with
      | c :: l' =>
          if Ascii.eqb c "]" then
            match Py.lstrip_chars l' with [] => Some [] | _ => None end
          else if Ascii.eqb c "'" || Ascii.eqb c "034" then
            match until_quote c [] l' with
            | Some (s, rest) =>
                match Py.lstrip_chars rest with
                | d :: rest' =>
                    if Ascii.eqb d "," then option_map (cons (Py.str s)) (list_items fuel' rest')
                    else if Ascii.eqb d "]" then
                      match Py.lstrip_chars rest' with [] => Some [Py.str s] | _ => None end
                    else None
                | [] => None
                end
            | None => None
            end
          else None
      | [] => None
      end
  end.

(** What [ast.literal_eval] answers on the other strings of the
    examples: a name is a ValueError, and so is a tuple of names; words
    side by side and the empty string are a SyntaxError; a dict whose
    key cannot be hashed is a TypeError. *)
Definition answers : list (string * result literal) :=
  [("pop, jazz", Raise ValueError);
   ("unknown", Raise ValueError);
   ("pop", Raise ValueError);
   ("rock", Raise ValueError);
   ("hip hop", Raise SyntaxError);
   (EmptyString, Raise SyntaxError);
   (" Hip Hop ", Raise SyntaxError);
   ("glam rock, rock", Raise SyntaxError);
   ("rock, glam rock", Raise SyntaxError);
   ("{[]: 1}", Raise TypeError);
   ("{{}: 1}", Raise TypeError);
   ("[1, 2]", Ok (LitList [OInt 1; OInt 2]));
   ("[None, 'pop']", Ok (LitList [ONone; OStr "pop"]))].

Fixpoint answer (s : string) (l : list (string * result literal)) : option (result literal) :=
  match l with
  | [] => None
  | (k, r) :: l' => if String.eqb k s then Some r else answer s l'
  end.

(** A list for a list literal of plainly quoted strings, the answer
    above for the strings listed there. *)
Definition literal_eval (s : string) : result literal :=
  match answer s answers with
  | Some r => r
  | None =>
      match Py.chars s with
      | c :: l =>
          if Ascii.eqb c "[" then
            match list_items (S (length l)) l with
            | Some items => Ok (LitList (map OStr items))
            | None => Raise Unmodelled
            end
          else Raise Unmodelled
      | [] => Raise Unmodelled
      end
  end.

(** Decimal integers. *)
Definition str_to_int (s : string) : option Z :=
  match Py.int_unsigned (Py.chars s) with
  | Some z => Some z
  | None =>
      match Py.chars s with
      | c :: l => if Ascii.eqb c "-" then option_map Z.opp (Py.int_unsigned l) else None
      | [] => None
      end
  end.

Definition str_to_float (s : string) : option float64 :=
  match str_to_int s with
  | Some z => F64.of_Z z
  | None => None
  end.

(** [YYYY-MM-DD]. *)
Definition iso_date (s : string) : option Z :=
  match Py.chars s with
  | [y1; y2; y3; y4; d1; m1; m2; d2; a1; a2] =>
      if Ascii.eqb d1 "-" && Ascii.eqb d2 "-" then
        match Py.int_unsigned [y1; y2; y3; y4], Py.int_unsigned [m1; m2], Py.int_unsigned [a1; a2] with
        | Some y, Some m, Some d =>
            if (1 <=? m) && (m <=? 12) && (1 <=? d) && (d <=? 31)
            then Some (timestamp y m d) else None
        | _, _, _ => None
        end
      else None
  | _ => None
  end.

(** Naive times: the date of an ISO text, the nanoseconds of an int. *)
Definition to_datetime_at (s : Series) (i : nat) : option (Z * option Z) :=
  match s with
  | ObjCol l =>
      match nth_error l i with
      | Some (OStr x) => option_map (fun t => (t, None)) (iso_date x)
      | _ => None
      end
  | IntCol l => option_map (fun t => (t, None)) (nth_error l i)
  | _ => None
  end.

Definition float_str (x : float64) : string :=
  match x with
  | FZero false => "0.0"
  | FZero true => "-0.0"
  | FInf false => "inf"
  | FInf true => "-inf"
  | FFinite s m e =>
      ((if s then "-" else EmptyString) ++ Py.str_of_int (Zpos m) ++ "*2**" ++ Py.str_of_int e)%string
  end.

Definition stamp_str (t : Z) (o : option Z) : string :=
  match o with
  | None => Py.str_of_int t
  | Some off => (Py.str_of_int t ++ "+" ++ Py.str_of_int off)%string
  end.

Definition date_str_at (l : list (option Z)) (i : nat) : string :=
  match nth_error l i with
  | Some (Some t) => Py.str_of_int t
  | _ => "NaT"
  end.

Definition make (argsort : list Z -> list nat) : Runtime :=
  mkRuntime argsort argsort_float (fun _ => Raise Unmodelled) sorted_floats
            literal_eval str_to_int str_to_float to_datetime_at
            float_str stamp_str stamp_str date_str_at
            (fun _ _ _ => Raise Unmodelled) (fun _ => Raise Unmodelled).

(** Equal keys in original order. *)
Definition stable : Runtime := make (argsort_by Z.leb).

End Example.

(* ================================================================== *)
(** * numpy's vectorised argsort on a short array

    On x86-64 with AVX2 or AVX-512 numpy sorts 64-bit keys with
    x86-simd-sort.  An array that fits one vector goes through a bitonic
    network of compare-exchange steps on pairs of a key and its position:
    the array is padded with the largest key, neighbouring lanes are
    compared, then lanes that mirror each other, then neighbours again.
    In a step a lane takes the smaller or the larger key of the pair, and
    with it the position that came with that key; it keeps its own
    position when the key it takes is equal to its own.  This is written
    down here for up to four keys, the first four lanes of the vector, on
    which the later steps of a wider vector change nothing.  Longer
    arrays go through wider networks and a quicksort that are not
    transcribed: there the keys are sorted by insertion. *)

Module Simd.

Definition lanes : nat := 4.

(** One compare-exchange step over all lanes. *)
Definition cmp_merge (partner : nat -> nat) (takes_max : nat -> bool) (v : list (Z * nat))
  : list (Z * nat) :=
  map (fun i =>
         let own := nth i v (0, 0%nat) in
         let other := nth (partner i) v (0, 0%nat) in
         let k := if takes_max i then Z.max (fst other) (fst own)
                  else Z.min (fst other) (fst own) in
         (k, if k =? fst own then snd own else snd other))
      (seq 0 (length v)).

Definition neighbour (i : nat) : nat := if Nat.even i then S i else (i - 1)%nat.
Definition mirror (i : nat) : nat := (3 - i)%nat.

Definition network (v : list (Z * nat)) : list (Z * nat) :=
  cmp_merge neighbour Nat.odd
    (cmp_merge mirror (fun i => (2 <=? i)%nat)
       (cmp_merge neighbour Nat.odd v)).

(** The keys with their positions, padded to the width of the vector. *)
Definition load (keys : list Z) : list (Z * nat) :=
  combine (keys ++ repeat INT64_MAX (lanes - length keys))
          (seq 0 (length keys) ++ repeat 0%nat (lanes - length keys)).

Definition argsort (keys : list Z) : list nat :=
  if (length keys <=? lanes)%nat
  then firstn (length keys) (map snd (network (load keys)))
  else Example.argsort_by Z.leb keys.

Definition runtime : Runtime := Example.make argsort.

End Simd.
(* ================================================================== *)
(** * Vocabulary of the statements *)

(** Every column as long as the index. *)
Definition rectangular (df : DataFrame) : Prop :=
  Forall (fun c => series_length (snd c) = nrows df) (cols df).

(** A float column is steady when nothing is missing or everything is. *)
Definition steady (l : list (option float64)) : Prop :=
  Forall (fun c => c <> None) l \/ Forall (fun c => c = None) l.

(** What the fill leaves behind: a float column is steady afterwards. *)
Definition settled (s : Series) : Prop :=
  match s with
  | FloatCol l => steady l
  | _ => True
  end.

(** Column names already in the cleaner's form. *)
Definition normalized (df : DataFrame) : Prop :=
  Forall (fun c => Cleaner.normalize_column (fst c) = fst c) (cols df).

(** An infinite cell. *)
Definition is_infinite (c : option float64) : bool :=
  match c with
  | Some x => F64.is_inf x
  | None => false
  end.

Definition has_infinity (s : Series) : bool :=
  match s with
  | FloatCol l => existsb is_infinite l
  | _ => false
  end.

(** A column without an infinite value. *)
Definition no_infinity (s : Series) : Prop := has_infinity s = false.

(** A table without an infinite value. *)
Definition finite_table (df : DataFrame) : Prop :=
  forallb (fun c => negb (has_infinity (snd c))) (cols df) = true.

(** The release dates of a table, under its normalised column names,
    read into one datetime column: all of them naive, or all with the
    same offset from UTC. *)
Definition reads_datetime (rt : Runtime) (df : DataFrame) : Prop :=
  forall d,
    getitem "release_date" (rename_columns Cleaner.normalize_column df) = Ok d ->
    exists l, to_datetime rt d = DateCol l.

(** What casting to int after filling with 0 makes of a numeric column:
    0 where the value is missing, elsewhere the integer part, or the
    smallest int64 when that is out of range. *)
Definition zero_filled_ints (s : Series) : list Z :=
  match s with
  | IntCol l => l
  | FloatCol l => map (fun c => match c with Some x => int64_of_float x | None => 0 end) l
  | _ => []
  end.

(** [pd.to_numeric(s, errors='coerce').fillna(0).astype(int)], the key
    of the two rankings. *)
Definition coerce_int (rt : Runtime) (s : Series) : result Series :=
  q <- to_numeric rt s ;; astype_int (fillna (OInt 0) q).






(** The rows [drop_duplicates] keeps after the median fill, given the
    id column [i] before the fill: the positions at which an id appears
    for the first time. *)
Definition kept_rows (rt : Runtime) (i : Series) : list nat :=
  nonzero (map negb
             (series_duplicated (if is_number i then fillna_median rt i else i))).



(** Pairs of a key and a position in increasing order of the key, and of
    the position where the keys are equal. *)
Definition lex (p q : Z * nat) : Prop :=
  fst p < fst q \/ (fst p = fst q /\ (snd p < snd q)%nat).

(** Positions in decreasing order of their key, and in increasing order
    where the keys are equal: what a stable descending sort gives. *)
Definition desc_stable (keys : list Z) (i j : nat) : Prop :=
  nth i keys 0 > nth j keys 0 \/ (nth i keys 0 = nth j keys 0 /\ (i < j)%nat).

(** An answer of [ast.literal_eval] that [genre_distribution] survives:
    a value, or one of the two exceptions it catches. *)
Definition recoverable (r : result literal) : Prop :=
  match r with
  | Ok _ => True
  | Raise e => e = ValueError \/ e = SyntaxError
  end.

(** A genres value on which [ast.literal_eval], if it is asked, gives
    such an answer. *)
Definition readable (rt : Runtime) (v : pyobj) : Prop :=
  match v with
  | OStr s => recoverable (literal_eval rt s)
  | _ => True
  end.

(** The pieces between the commas of a text, stripped of white space. *)
Definition pieces (x : string) : list string := map Py.strip (Py.split_commas x).

(** Text as [clean_artists] leaves genres: no bracket, no single quote,
    no upper-case letter, no white space at either end. *)
Definition formatted (x : string) : Prop :=
  Forall (fun c => Py.is_bracket_or_quote c = false /\ Py.is_upper c = false)
         (Py.chars x) /\
  Py.strip x = x.

(** A list that does not begin with white space. *)
Definition starts_clean (l : list ascii) : Prop :=
  match l with
  | c :: _ => Py.is_space c = false
  | [] => True
  end.

(** The genres pipeline of [clean_artists] on one string. *)
Definition genres_norm (s : string) : string :=
  Py.lower (Py.strip (Py.remove_brackets_quotes s)).

(* ================================================================== *)
(** * Example tables *)

(** A track table with a release date and no popularity. *)
Definition tracks_without_popularity : DataFrame :=
  mkDataFrame (IntCol [0]) [("release_date", DateCol [Some (timestamp 2020 1 1)])].


(** Raw tables as [read_csv] gives them. *)
Definition raw_artists : DataFrame :=
  mkDataFrame (IntCol [0; 1; 2; 3])
    [("ID", ObjCol [OStr "a1"; OStr "a1"; OStr "a2"; OStr "a3"]);
     ("Name", ObjCol [ONaN; OStr "Queen"; OStr "Adele"; OStr "Nas"]);
     ("Genres", ObjCol [ONaN; OStr "['Glam Rock', 'Rock']"; OStr "[]"; OStr " Hip Hop "]);
     ("Followers", FloatCol [None; F64.of_Z 5; F64.div (F64.of_Z 7) (F64.of_Z 2); F64.of_Z (-4)]);
     ("Popularity", IntCol [3; 82; 90; 77])].

Definition raw_tracks : DataFrame :=
  mkDataFrame (IntCol [0; 1; 2; 3])
    [("id", ObjCol [OStr "t1"; OStr "t2"; OStr "t3"; OStr "t3"]);
     ("Release Date", ObjCol [OStr "2020-03-01"; OStr "soon"; ONaN; ONaN]);
     ("popularity", IntCol [50; 70; 90; 90]);
     ("tempo", FloatCol [None; F64.of_Z 100; F64.of_Z 130; None]);
     ("energy", FloatCol [None; None; None; None])].

Definition raw_features : DataFrame :=
  mkDataFrame (IntCol [0; 1; 2])
    [("track_id", ObjCol [OStr "t1"; OStr "t2"; OStr "t1"]);
     ("Loudness", FloatCol [F64.of_Z (-7); None; F64.of_Z (-3)]);
     ("key", ObjCol [OStr "C#"; ONaN; OStr "A"])].

(** Features of which one repeats an id, with an infinite loudness on
    either side of a missing one. *)
Definition features_with_infinities : DataFrame :=
  mkDataFrame (IntCol [0; 1; 2])
    [("track_id", ObjCol [OStr "t1"; OStr "t2"; OStr "t1"]);
     ("loudness", FloatCol [Some (FInf false); None; Some (FInf true)])].

(** Artists of whom one has no name. *)
Definition artists_null_name : DataFrame :=
  mkDataFrame (IntCol [0; 1])
    [("id", ObjCol [OStr "a1"; OStr "a2"]);
     ("name", ObjCol [ONaN; OStr "Queen"]);
     ("genres", ObjCol [OStr "['pop']"; OStr "['rock']"]);
     ("followers", IntCol [10; 20]);
     ("popularity", IntCol [50; 60])].


(** Artists whose follower counts are text, one of it not a number. *)
Definition artists_text_followers : DataFrame :=
  mkDataFrame (IntCol [0; 1])
    [("id", ObjCol [OStr "a1"; OStr "a2"]);
     ("name", ObjCol [OStr "Adele"; OStr "Queen"]);
     ("genres", ObjCol [OStr "['pop']"; OStr "['rock']"]);
     ("followers", ObjCol [OStr "many"; OStr "20"]);
     ("popularity", IntCol [50; 60])].

(** The example tables after cleaning. *)
Definition or_else {A} (r : result A) (d : A) : A :=
  match r with
  | Ok a => a
  | Raise _ => d
  end.

Definition cleaned_artists : DataFrame :=
  or_else (Cleaner.clean_artists Example.stable raw_artists) raw_artists.
Definition cleaned_tracks : DataFrame :=
  or_else (Cleaner.clean_tracks Example.stable raw_tracks) raw_tracks.
Definition cleaned_features : DataFrame :=
  or_else (Cleaner.clean_features Example.stable raw_features) raw_features.

(** The five tracks of the specification's example. *)
Definition five_tracks : DataFrame :=
  mkDataFrame (IntCol [0; 1; 2; 3; 4])
    [("name", ObjCol [OStr "a"; OStr "b"; OStr "c"; OStr "d"; OStr "e"]);
     ("popularity", IntCol [95; 90; 92; 88; 95])].

(** Four tracks of which the first two are tied. *)
Definition four_tracks : DataFrame :=
  mkDataFrame (IntCol [0; 1; 2; 3])
    [("name", ObjCol [OStr "a"; OStr "b"; OStr "c"; OStr "d"]);
     ("popularity", IntCol [91; 91; 93; 92])].

(** A dict with a list as key: [ast.literal_eval] raises TypeError on
    it. *)
Definition unhashable_key : string := "{[]: 1}".

(** Artists of whom one has such a dict as genres. *)
Definition artists_dict_genres : DataFrame :=
  mkDataFrame (IntCol [0; 1])
    [("genres", ObjCol [OStr "['pop']"; OStr unhashable_key])].

(** Artists of whom one has no genres and one a dict of a dict. *)
Definition artists_braces_genres : DataFrame :=
  mkDataFrame (IntCol [0; 1])
    [("id", ObjCol [OStr "a1"; OStr "a2"]);
     ("name", ObjCol [OStr "Adele"; OStr "Queen"]);
     ("genres", ObjCol [ONaN; OStr "{{}: 1}"]);
     ("followers", IntCol [10; 20]);
     ("popularity", IntCol [50; 60])].

(** The three artists of the specification's example. *)
Definition three_artists : DataFrame :=
  mkDataFrame (IntCol [0; 1; 2])
    [("genres", ObjCol [OStr "['pop','rock']"; OStr "pop, jazz"; OList [OStr "rock"]])].

(** Tracks of 2020 (popularity 50 and 70) and of 2021 (popularity 90). *)
Definition trend_tracks : DataFrame :=
  mkDataFrame (IntCol [0; 1; 2])
    [("release_date",
      DateCol [Some (timestamp 2020 3 1); Some (timestamp 2020 7 15);
               Some (timestamp 2021 1 1)]);
     ("popularity", IntCol [50; 70; 90])].

(** Tracks of 2018 and 2020, none of 2019; one track without a date. *)
Definition gap_tracks : DataFrame :=
  mkDataFrame (IntCol [0; 1; 2])
    [("release_date",
      DateCol [Some (timestamp 2018 5 1); None; Some (timestamp 2020 2 1)]);
     ("popularity", IntCol [50; 60; 90])].

(* ================================================================== *)
(** * Vocabulary of the further properties *)

(** The number of values above a threshold; all of them when there is
    none. *)
Definition count_above (threshold : option Z) (l : list Z) : nat :=
  length (filter (fun z => match threshold with Some t => t <? z | None => true end) l).

(** The length of the slice [l[:n]] of a list of length [len]. *)
Definition head_length (n : Z) (len : nat) : nat :=
  if 0 <=? n then Nat.min (Z.to_nat n) len else (len - Z.to_nat (- n))%nat.

(** Artists whose follower counts are numbers, text and missing. *)
Definition artists_mixed_followers : DataFrame :=
  mkDataFrame (IntCol [0; 1; 2; 3])
    [("name", ObjCol [OStr "Adele"; OStr "Queen"; OStr "Nas"; OStr "Moby"]);
     ("followers", ObjCol [OStr "12"; OStr "many"; ONaN; OInt 40])].

(** Tracks with a date that cannot be read. *)
Definition tracks_bad_date : DataFrame :=
  mkDataFrame (IntCol [0; 1; 2])
    [("name", ObjCol [OStr "a"; OStr "b"; OStr "c"]);
     ("release_date", ObjCol [OStr "2020-03-01"; OStr "soon"; OStr "2019-12-31"]);
     ("popularity", IntCol [50; 70; 90])].

(** The sum of a list of counts. *)
Definition total (l : list Z) : Z := fold_right Z.add 0 l.

(** The values [genre_distribution] reads genres from: lists and
    strings. *)
Definition holds_genres (v : pyobj) : bool :=
  match v with
  | OStr _ | OList _ => true
  | _ => false
  end.

(** An exception that [genre_distribution] does not catch. *)
Definition uncaught (e : exn) : Prop := e <> ValueError /\ e <> SyntaxError.

(** Artists whose genres are numbers. *)
Definition artists_numeric_genres : DataFrame :=
  mkDataFrame (IntCol [0; 1; 2])
    [("name", ObjCol [OStr "Adele"; OStr "Queen"; OStr "Nas"]);
     ("genres", FloatCol [F64.of_Z 1; None; F64.of_Z 3])].



(** Tracks without a date that can be read. *)
Definition tracks_no_dates : DataFrame :=
  mkDataFrame (IntCol [0; 1])
    [("release_date", ObjCol [OStr "soon"; ONaN]);
     ("popularity", IntCol [50; 70])].

(** The mask of a choice in the dashboard's sidebar over the cells of a
    text column: every row for "All", the rows whose cell is the text
    chosen otherwise. *)
Definition selection_mask (choice : pyobj) (cells : list pyobj) : list bool :=
  map (fun c => obj_eqb choice (OStr "All") || obj_eqb choice c) cells.

(** A release date within a range of years; a missing date is in none. *)
Definition in_years (year_range : Z * Z) (c : option Z) : bool :=
  match c with
  | Some t => (fst year_range <=? year_of t) && (year_of t <=? snd year_range)
  | None => false
  end.


(** Tracks as the dashboard filters them. *)
Definition dashboard_tracks : DataFrame :=
  mkDataFrame (IntCol [0; 1; 2; 3])
    [("name", ObjCol [OStr "a"; OStr "b"; OStr "c"; OStr "d"]);
     ("artists", ObjCol [OStr "Queen"; OStr "Adele"; OStr "Queen"; OStr "Queen"]);
     ("release_date",
      DateCol [Some (timestamp 1975 10 31); Some (timestamp 2015 11 20);
               None; Some (timestamp 1991 2 4)])].

(** Artists as the dashboard filters them. *)
Definition dashboard_artists : DataFrame :=
  mkDataFrame (IntCol [0; 1; 2])
    [("name", ObjCol [OStr "Queen"; OStr "Adele"; OStr "Nas"]);
     ("genres", ObjCol [OStr "['rock']"; OStr "['pop']"; OStr "['rock']"])].


(** The state of matplotlib while a trace of calls is read: no figure
    open, a figure being drawn, the figure saved. *)
Inductive figure_state : Type := NoFigure | Drawing | Saved.

(** A trace read as figures that are opened, drawn and finished one after
    the other: for each figure the path it was saved to before it was
    closed, or [None] when it was shown.  There is no such reading when a
    call is made outside a figure, a figure is left open, saved twice,
    closed without being saved, or opened inside another. *)
Fixpoint figures (st : figure_state) (out : list Visualizer.call)
  : option (list (option string)) :=
  match out with
  | [] => match st with NoFigure => Some [] | _ => None end
  | c :: out' =>
      match c, st with
      | Visualizer.Figure _ _, NoFigure => figures Drawing out'
      | Visualizer.Figure _ _, _ => None
      | Visualizer.Savefig p, Drawing => option_map (cons (Some p)) (figures Saved out')
      | Visualizer.Savefig _, _ => None
      | Visualizer.Close, Saved => figures NoFigure out'
      | Visualizer.Close, _ => None
      | Visualizer.Show, Drawing => option_map (cons None) (figures NoFigure out')
      | Visualizer.Show, _ => None
      | _, Drawing => figures Drawing out'
      | _, _ => None
      end
  end.

(** What [if save_path:] makes of the argument: a path that is not
    empty, or nothing. *)
Definition given (save_path : option string) : option string :=
  match save_path with
  | Some (String c p) => Some (String c p)
  | _ => None
  end.

(** The files [generate_visuals] writes to, in the order of its calls. *)
Definition visuals : list string :=
  ["results/correlation_heatmap.png"; "results/genre_distribution.png";
   "results/popularity_trend.png"; "results/top_artists.png";
   "results/top_tracks.png"].

(** The headings [display_results] prints. *)
Definition heading_tracks : Main.shown :=
  Main.Text (Main.nl ++ "=== Top Popular Tracks ===")%string.
Definition heading_artists : Main.shown :=
  Main.Text (Main.nl ++ "=== Top Artists by Followers ===")%string.
Definition heading_genres : Main.shown :=
  Main.Text (Main.nl ++ "=== Genre Distribution (Top 15) ===")%string.
Definition heading_trend : Main.shown :=
  Main.Text (Main.nl ++ "=== Popularity Trend (Yearly) ===")%string.

(** Features with three numeric columns. *)
Definition numeric_features : DataFrame :=
  mkDataFrame (IntCol [0; 1])
    [("track_id", ObjCol [OStr "t1"; OStr "t2"]);
     ("energy", FloatCol [F64.div (F64.of_Z 1) (F64.of_Z 2); F64.div (F64.of_Z 3) (F64.of_Z 4)]);
     ("tempo", FloatCol [F64.of_Z 100; F64.of_Z 130]);
     ("key", IntCol [1; 5])].

(** Tracks and artists with names, ready for the run. *)
Definition named_tracks : DataFrame :=
  mkDataFrame (IntCol [0; 1; 2])
    [("name", ObjCol [OStr "a"; OStr "b"; OStr "c"]);
     ("release_date",
      DateCol [Some (timestamp 2020 3 1); Some (timestamp 2020 7 15);
               Some (timestamp 2021 1 1)]);
     ("popularity", IntCol [95; 70; 92])].

Definition named_artists : DataFrame :=
  mkDataFrame (IntCol [0; 1])
    [("name", ObjCol [OStr "Adele"; OStr "Queen"]);
     ("genres", ObjCol [OStr "pop"; OStr "rock, glam rock"]);
     ("followers", IntCol [10; 20])].

(** Tracks whose release dates are still text. *)
Definition uncleaned_tracks : DataFrame :=
  mkDataFrame (IntCol [0; 1])
    [("artists", ObjCol [OStr "Queen"; OStr "Adele"]);
     ("release_date", ObjCol [OStr "1975-10-31"; OStr "2015-11-20"])].
(* ================================================================== *)
(** * Lists: positions, masks, slices *)

Section ListFacts.

Context {A : Type}.

Lemma take_nil (l : list A) : take [] l = [].
Proof. reflexivity. Qed.

Lemma take_cons (i : nat) (ix : list nat) (l : list A) :
  take (i :: ix) l =
  match nth_error l i with Some a => [a] | None => [] end ++ take ix l.
Proof. reflexivity. Qed.

Lemma take_app (ix jx : list nat) (l : list A) :
  take (ix ++ jx) l = take ix l ++ take jx l.
Proof. unfold take. now rewrite flat_map_app. Qed.

Lemma take_rev (ix : list nat) (l : list A) :
  take (rev ix) l = rev (take ix l).
Proof.
  induction ix as [|i ix IH]; [reflexivity|].
  simpl rev. rewrite take_app, IH, take_cons, rev_app_distr.
  f_equal. simpl. destruct (nth_error l i); reflexivity.
Qed.

Lemma take_in_range (ix : list nat) (l : list A) (d : A) :
  Forall (fun i => (i < length l)%nat) ix ->
  take ix l = map (fun i => nth i l d) ix.
Proof.
  induction 1 as [|i ix Hi _ IH]; [reflexivity|].
  rewrite take_cons, IH. simpl.
  destruct (nth_error l i) eqn:E.
  - now rewrite (nth_error_nth _ _ _ E).
  - apply nth_error_None in E. lia.
Qed.

Lemma length_take (ix : list nat) (l : list A) :
  Forall (fun i => (i < length l)%nat) ix -> length (take ix l) = length ix.
Proof.
  intros H. destruct l as [|d l].
  - destruct H as [|i ix Hi _]; [reflexivity | simpl in Hi; lia].
  - rewrite (take_in_range ix (d :: l) d H). apply length_map.
Qed.

Lemma take_shift (a : A) (ix : list nat) (l : list A) :
  take (map S ix) (a :: l) = take ix l.
Proof.
  induction ix as [|i ix IH]; [reflexivity|].
  simpl map. now rewrite !take_cons, IH.
Qed.

Lemma take_seq_all (l : list A) : take (seq 0 (length l)) l = l.
Proof.
  induction l as [|a l IH]; [reflexivity|].
  simpl length. simpl seq. rewrite take_cons. simpl.
  rewrite <- seq_shift, take_shift. now f_equal.
Qed.

Lemma take_firstn (n : nat) (ix : list nat) (l : list A) :
  Forall (fun i => (i < length l)%nat) ix ->
  take (firstn n ix) l = firstn n (take ix l).
Proof.
  intros H. revert n. induction H as [|i ix Hi _ IH]; intros n.
  - now rewrite !firstn_nil.
  - destruct n as [|n]; [reflexivity|].
    simpl firstn. rewrite !take_cons.
    destruct (nth_error l i) eqn:E.
    + simpl. now rewrite IH.
    + apply nth_error_None in E. lia.
Qed.

Lemma take_perm (ix : list nat) (l : list A) :
  Permutation ix (seq 0 (length l)) -> Permutation (take ix l) l.
Proof.
  intros H. rewrite <- (take_seq_all l) at 2.
  unfold take. now apply Permutation_flat_map.
Qed.

Lemma nonzero_from_shift (i : nat) (mask : list bool) :
  nonzero_from (S i) mask = map S (nonzero_from i mask).
Proof.
  revert i. induction mask as [|b mask IH]; intros i; [reflexivity|].
  simpl. rewrite IH. now destruct b.
Qed.

Lemma take_nonzero (mask : list bool) (l : list A) :
  take (nonzero mask) l = select mask l.
Proof.
  unfold nonzero. revert l. induction mask as [|b mask IH]; intros l.
  - reflexivity.
  - destruct l as [|a l].
    + simpl. destruct b; [rewrite take_cons|]; simpl;
        induction (nonzero_from 1 mask) as [|j jx IHj]; try reflexivity;
        rewrite take_cons; now destruct j.
    + simpl. rewrite nonzero_from_shift. destruct b.
      * rewrite take_cons. simpl. now rewrite take_shift, IH.
      * now rewrite take_shift, IH.
Qed.

Lemma nonzero_from_bound (i : nat) (mask : list bool) :
  Forall (fun j => (i <= j < i + length mask)%nat) (nonzero_from i mask).
Proof.
  revert i. induction mask as [|b mask IH]; intros i; [constructor|].
  simpl. specialize (IH (S i)).
  assert (H : Forall (fun j => (i <= j < i + S (length mask))%nat) (nonzero_from (S i) mask)).
  { eapply Forall_impl; [|exact IH]. simpl. intros; lia. }
  destruct b; [constructor; [lia | exact H] | exact H].
Qed.

Lemma nonzero_bound (mask : list bool) :
  Forall (fun j => (j < length mask)%nat) (nonzero mask).
Proof.
  eapply Forall_impl; [|apply (nonzero_from_bound 0 mask)]. simpl. intros; lia.
Qed.

Lemma nonzero_all_true (n : nat) : nonzero (repeat true n) = seq 0 n.
Proof.
  unfold nonzero. generalize 0%nat. induction n as [|n IH]; intros i; [reflexivity|].
  simpl. now rewrite IH.
Qed.

Lemma select_length_le (mask : list bool) (l : list A) :
  (length (select mask l) <= length l)%nat.
Proof.
  revert l. induction mask as [|b mask IH]; intros [|a l]; simpl; try lia.
  specialize (IH l). destruct b; simpl; lia.
Qed.

Lemma head_zero (l : list A) : head 0 l = [].
Proof. reflexivity. Qed.

End ListFacts.

Lemma select_map {A B} (f : A -> B) (mask : list bool) (l : list A) :
  select mask (map f l) = map f (select mask l).
Proof.
  revert l. induction mask as [|b mask IH]; intros [|a l]; simpl; try reflexivity.
  destruct b; simpl; now rewrite IH.
Qed.

Lemma take_map {A B} (f : A -> B) (ix : list nat) (l : list A) :
  take ix (map f l) = map f (take ix l).
Proof.
  induction ix as [|i ix IH]; [reflexivity|].
  rewrite !take_cons, map_app, IH, nth_error_map.
  now destruct (nth_error l i).
Qed.

Lemma take_take {A} (ix jx : list nat) (l : list A) :
  Forall (fun j => (j < length l)%nat) jx ->
  take ix (take jx l) = take (take ix jx) l.
Proof.
  intros H. destruct l as [|d l].
  - destruct H as [|j jx Hj _]; [|simpl in Hj; lia].
    simpl. induction ix as [|i ix IH]; [reflexivity|].
    rewrite take_cons. now destruct i.
  - rewrite (take_in_range jx (d :: l) d H), take_map.
    symmetry. apply take_in_range.
    assert (Hin : forall j, In j (take ix jx) -> In j jx).
    { intros j Hj. unfold take in Hj. apply in_flat_map in Hj.
      destruct Hj as (i & _ & Hj). destruct (nth_error jx i) eqn:E; [|contradiction].
      destruct Hj as [<-|[]]. eapply nth_error_In; eauto. }
    rewrite Forall_forall in *. auto.
Qed.

(* ================================================================== *)
(** * Tables: lookup, assignment, row selection *)

Lemma bind_ok {A B} (r : result A) (k : A -> result B) (b : B) :
  bind r k = Ok b -> exists a, r = Ok a /\ k a = Ok b.
Proof. destruct r as [a|e]; simpl; [eauto | discriminate]. Qed.

Lemma bind_Ok {A B} (a : A) (k : A -> result B) : bind (Ok a) k = k a.
Proof. reflexivity. Qed.

Ltac bind_step := rewrite bind_Ok; cbv beta.

Ltac bind_inv H :=
  let a := fresh "x" in
  let Ha := fresh "E" in
  apply bind_ok in H; destruct H as (a & Ha & H).

Lemma lookup_assign_same (n : string) (s : Series) (cs : list (string * Series)) :
  lookup n (assign n s cs) = Some s.
Proof.
  induction cs as [|[m s0] cs IH]; simpl.
  - now rewrite String.eqb_refl.
  - destruct (String.eqb m n) eqn:E; simpl; rewrite E; auto.
Qed.

Lemma lookup_assign_other (n m : string) (s : Series) (cs : list (string * Series)) :
  n <> m -> lookup m (assign n s cs) = lookup m cs.
Proof.
  intros Hnm. induction cs as [|[k s0] cs IH]; simpl.
  - apply String.eqb_neq in Hnm. now rewrite Hnm.
  - destruct (String.eqb k n) eqn:E; simpl.
    + apply String.eqb_eq in E. subst k.
      apply String.eqb_neq in Hnm. now rewrite Hnm.
    + now rewrite IH.
Qed.

Lemma assign_lookup_same (n : string) (s : Series) (cs : list (string * Series)) :
  lookup n cs = Some s -> assign n s cs = cs.
Proof.
  induction cs as [|[m s0] cs IH]; simpl; [discriminate|].
  destruct (String.eqb m n) eqn:E.
  - intros [= ->]. reflexivity.
  - intros H. now rewrite IH.
Qed.

Lemma columns_assign (n : string) (s s0 : Series) (cs : list (string * Series)) :
  lookup n cs = Some s0 -> map fst (assign n s cs) = map fst cs.
Proof.
  induction cs as [|[m s1] cs IH]; simpl; [discriminate|].
  destruct (String.eqb m n) eqn:E; simpl; [reflexivity|].
  intros H. now rewrite IH.
Qed.

Lemma lookup_map (f : Series -> Series) (n : string) (cs : list (string * Series)) :
  lookup n (map (fun c => (fst c, f (snd c))) cs) = option_map f (lookup n cs).
Proof.
  induction cs as [|[m s] cs IH]; simpl; [reflexivity|].
  now destruct (String.eqb m n).
Qed.

Lemma lookup_In (n : string) (s : Series) (cs : list (string * Series)) :
  lookup n cs = Some s -> In (n, s) cs.
Proof.
  induction cs as [|[m s0] cs IH]; simpl; [discriminate|].
  destruct (String.eqb m n) eqn:E.
  - apply String.eqb_eq in E. intros [= ->]. left. now subst.
  - auto.
Qed.

Lemma has_column_false (n : string) (df : DataFrame) :
  has_column n df = false -> lookup n (cols df) = None.
Proof.
  unfold has_column, columns. induction (cols df) as [|[m s] cs IH]; simpl; [reflexivity|].
  rewrite String.eqb_sym. destruct (String.eqb m n); simpl; [discriminate | exact IH].
Qed.

Lemma has_column_true (n : string) (df : DataFrame) :
  has_column n df = true -> exists s, lookup n (cols df) = Some s.
Proof.
  unfold has_column, columns. induction (cols df) as [|[m s] cs IH]; simpl; [discriminate|].
  rewrite String.eqb_sym. destruct (String.eqb m n); simpl; eauto.
Qed.

Lemma getitem_ok (n : string) (df : DataFrame) (s : Series) :
  getitem n df = Ok s <-> lookup n (cols df) = Some s.
Proof.
  unfold getitem. destruct (lookup n (cols df)); split; congruence.
Qed.

Lemma columns_setitem (n : string) (s s0 : Series) (df : DataFrame) :
  getitem n df = Ok s0 -> columns (setitem n s df) = columns df.
Proof.
  intros H. apply getitem_ok in H. unfold columns, setitem. simpl.
  eapply columns_assign; eauto.
Qed.

Lemma columns_df_take (ix : list nat) (df : DataFrame) :
  columns (df_take ix df) = columns df.
Proof.
  unfold columns, df_take. simpl. rewrite map_map. reflexivity.
Qed.

Lemma lookup_df_take (ix : list nat) (n : string) (df : DataFrame) :
  lookup n (cols (df_take ix df)) = option_map (series_take ix) (lookup n (cols df)).
Proof. unfold df_take. simpl. apply (lookup_map (series_take ix)). Qed.

Lemma getitem_df_take (ix : list nat) (n : string) (df : DataFrame) (s : Series) :
  getitem n df = Ok s -> getitem n (df_take ix df) = Ok (series_take ix s).
Proof.
  rewrite !getitem_ok. unfold df_take. simpl. intros H.
  now rewrite (lookup_map (series_take ix)), H.
Qed.

Lemma getitem_setitem_same (n : string) (s : Series) (df : DataFrame) :
  getitem n (setitem n s df) = Ok s.
Proof. apply getitem_ok. apply lookup_assign_same. Qed.

Lemma getitem_setitem_other (n m : string) (s : Series) (df : DataFrame) :
  n <> m -> getitem m (setitem n s df) = getitem m df.
Proof.
  intros H. unfold getitem. simpl. now rewrite lookup_assign_other.
Qed.

Lemma setitem_getitem_same (n : string) (s : Series) (df : DataFrame) :
  getitem n df = Ok s -> setitem n s df = df.
Proof.
  intros H. apply getitem_ok in H. unfold setitem.
  rewrite assign_lookup_same by exact H. now destruct df.
Qed.

Lemma nrows_setitem (n : string) (s : Series) (df : DataFrame) :
  nrows (setitem n s df) = nrows df.
Proof. reflexivity. Qed.

Lemma series_length_take_nil (s : Series) : series_length (series_take [] s) = 0%nat.
Proof. now destruct s. Qed.

Lemma nrows_df_head_zero (df : DataFrame) : nrows (df_head 0 df) = 0%nat.
Proof. apply series_length_take_nil. Qed.

(* ================================================================== *)
(** * The analyzer on a table that lacks a column *)

Section MissingColumns.

Variable rt : Runtime.

Lemma df_head_zero_shape (df : DataFrame) :
  columns (df_head 0 df) = columns df /\ nrows (df_head 0 df) = 0%nat.
Proof. split; [apply columns_df_take | apply nrows_df_head_zero]. Qed.

(** Each analyzer function answers an empty result when the column it
    tests for is absent: the input's columns without rows for the two
    rankings, an empty series for the two aggregates. *)
Lemma missing_tested_column_degrades (df : DataFrame) :
  (has_column "popularity" df = false ->
   forall threshold top_n,
     Analyzer.get_top_popular_tracks rt df threshold top_n = Ok (df_head 0 df)) /\
  (has_column "followers" df = false ->
   forall top_n, Analyzer.top_artists_by_followers rt df top_n = Ok (df_head 0 df)) /\
  (has_column "genres" df = false -> Analyzer.genre_distribution rt df = Ok []) /\
  (has_column "release_date" df = false ->
   forall freq, Analyzer.popularity_trend rt df freq = Ok []).
Proof.
  unfold Analyzer.get_top_popular_tracks, Analyzer.top_artists_by_followers,
    Analyzer.genre_distribution, Analyzer.popularity_trend.
  repeat split; intros H; intros; now rewrite H.
Qed.

Lemma columns_sort_values_desc (n : string) (df r : DataFrame) :
  sort_values_desc rt n df = Ok r -> columns r = columns df.
Proof.
  unfold sort_values_desc. intros H. bind_inv H.
  destruct x; simpl in H; try bind_inv H; injection H as <-; apply columns_df_take.
Qed.

(** The rankings always return the columns of their input. *)
Lemma get_top_popular_tracks_columns (df r : DataFrame) (threshold : option Z) (top_n : Z) :
  Analyzer.get_top_popular_tracks rt df threshold top_n = Ok r ->
  columns r = columns df.
Proof.
  unfold Analyzer.get_top_popular_tracks.
  destruct (has_column "popularity" df); simpl.
  - intros H. bind_inv H. bind_inv H. bind_inv H. bind_inv H. bind_inv H.
    injection H as <-. unfold df_head. rewrite columns_df_take.
    apply columns_sort_values_desc in E3. rewrite E3.
    destruct threshold as [t|].
    + bind_inv E2. bind_inv E2. injection E2 as <-.
      unfold df_filter. rewrite columns_df_take. eapply columns_setitem; eauto.
    + injection E2 as <-. eapply columns_setitem; eauto.
  - intros [= <-]. apply columns_df_take.
Qed.

Lemma top_artists_by_followers_columns (df r : DataFrame) (top_n : Z) :
  Analyzer.top_artists_by_followers rt df top_n = Ok r ->
  columns r = columns df.
Proof.
  unfold Analyzer.top_artists_by_followers.
  destruct (has_column "followers" df); simpl.
  - intros H. bind_inv H. bind_inv H. bind_inv H. bind_inv H.
    injection H as <-. unfold df_head. rewrite columns_df_take.
    apply columns_sort_values_desc in E2. rewrite E2.
    eapply columns_setitem; eauto.
  - intros [= <-]. apply columns_df_take.
Qed.

End MissingColumns.

(** C1 (the analyzer functions never raise for a missing input column):
    [popularity_trend] tests for 'popularity' before coercing it and then
    reads it without the test, so a table that has 'release_date' and no
    'popularity' raises KeyError. *)
Theorem popularity_trend_raises_without_popularity (rt : Runtime) (freq : string) :
  Analyzer.popularity_trend rt tracks_without_popularity freq
  = Raise (KeyError "popularity").
Proof. reflexivity. Qed.

(* ================================================================== *)
(** * The legacy yearly code *)

(** C9: the legacy yearly code 'Y' gives the result of the canonical code
    'YE', on every table and whatever the libraries do: the same buckets,
    the same values, or the same exception. *)
Theorem popularity_trend_legacy_yearly_alias (rt : Runtime) (tracks : DataFrame) :
  Analyzer.popularity_trend rt tracks "Y" = Analyzer.popularity_trend rt tracks "YE".
Proof. reflexivity. Qed.

(** The lower-case spelling is mapped as well. *)
Lemma popularity_trend_lowercase_alias (rt : Runtime) (tracks : DataFrame) :
  Analyzer.popularity_trend rt tracks "y" = Analyzer.popularity_trend rt tracks "YE".
Proof. reflexivity. Qed.

(* ================================================================== *)
(** * Strings: the normal forms the cleaner produces *)

Module PyFacts.

Import Py.

Lemma chars_str (l : list ascii) : chars (str l) = l.
Proof. apply list_ascii_of_string_of_list_ascii. Qed.

Lemma str_chars (s : string) : str (chars s) = s.
Proof. apply string_of_list_ascii_of_string. Qed.

Ltac each_char c :=
  destruct c as [b0 b1 b2 b3 b4 b5 b6 b7];
  destruct b0, b1, b2, b3, b4, b5, b6, b7.

Lemma lower_char_idem (c : ascii) : lower_char (lower_char c) = lower_char c.
Proof. each_char c; reflexivity. Qed.

Lemma space_to_underscore_idem (c : ascii) :
  space_to_underscore (space_to_underscore c) = space_to_underscore c.
Proof. each_char c; reflexivity. Qed.

Lemma lower_char_space_to_underscore (c : ascii) :
  lower_char (space_to_underscore c) = space_to_underscore (lower_char c).
Proof. each_char c; reflexivity. Qed.

Lemma is_space_lower_char (c : ascii) : is_space (lower_char c) = is_space c.
Proof. each_char c; reflexivity. Qed.

Lemma is_bracket_or_quote_lower_char (c : ascii) :
  is_bracket_or_quote (lower_char c) = is_bracket_or_quote c.
Proof. each_char c; reflexivity. Qed.

Lemma lower_idem (s : string) : lower (lower s) = lower s.
Proof.
  unfold lower. rewrite chars_str, map_map. f_equal.
  apply map_ext. apply lower_char_idem.
Qed.

Lemma replace_spaces_lower (s : string) :
  replace_spaces (lower (replace_spaces (lower s))) = replace_spaces (lower s).
Proof.
  unfold replace_spaces, lower. rewrite !chars_str, !map_map. f_equal.
  apply map_ext. intros c.
  now rewrite lower_char_space_to_underscore, lower_char_idem, space_to_underscore_idem.
Qed.

(** *** Stripping *)

Lemma lstrip_chars_map_lower (l : list ascii) :
  lstrip_chars (map lower_char l) = map lower_char (lstrip_chars l).
Proof.
  induction l as [|c l IH]; [reflexivity|].
  simpl. rewrite is_space_lower_char. now destruct (is_space c).
Qed.

Lemma strip_chars_map_lower (l : list ascii) :
  strip_chars (map lower_char l) = map lower_char (strip_chars l).
Proof.
  unfold strip_chars, rstrip_chars.
  now rewrite lstrip_chars_map_lower, <- map_rev, lstrip_chars_map_lower, map_rev.
Qed.

Lemma lstrip_chars_starts_clean (l : list ascii) : starts_clean (lstrip_chars l).
Proof.
  induction l as [|c l IH]; simpl; [exact I|].
  destruct (is_space c) eqn:E; [exact IH | exact E].
Qed.

Lemma lstrip_chars_clean (l : list ascii) : starts_clean l -> lstrip_chars l = l.
Proof. destruct l as [|c l]; simpl; [reflexivity|]. now intros ->. Qed.

Lemma lstrip_chars_app_clean (l : list ascii) (c : ascii) :
  is_space c = false -> exists m, lstrip_chars (l ++ [c]) = m ++ [c].
Proof.
  intros Hc. induction l as [|a l IH]; simpl.
  - rewrite Hc. now exists [].
  - destruct (is_space a); [exact IH|]. now exists (a :: l).
Qed.

Lemma rstrip_chars_starts_clean (l : list ascii) :
  starts_clean l -> starts_clean (rstrip_chars l).
Proof.
  unfold rstrip_chars. destruct l as [|c l]; simpl; [intros _; exact I|].
  intros Hc. destruct (lstrip_chars_app_clean (rev l) c Hc) as (m & ->).
  rewrite rev_app_distr. simpl. exact Hc.
Qed.

Lemma rstrip_chars_idem (l : list ascii) : rstrip_chars (rstrip_chars l) = rstrip_chars l.
Proof.
  unfold rstrip_chars. rewrite rev_involutive.
  now rewrite (lstrip_chars_clean _ (lstrip_chars_starts_clean (rev l))).
Qed.

Lemma strip_chars_idem (l : list ascii) : strip_chars (strip_chars l) = strip_chars l.
Proof.
  unfold strip_chars.
  rewrite (lstrip_chars_clean (rstrip_chars (lstrip_chars l))).
  - apply rstrip_chars_idem.
  - apply rstrip_chars_starts_clean, lstrip_chars_starts_clean.
Qed.

Lemma Forall_lstrip_chars (P : ascii -> Prop) (l : list ascii) :
  Forall P l -> Forall P (lstrip_chars l).
Proof.
  induction 1 as [|c l Hc Hl IH]; simpl; [constructor|].
  destruct (is_space c); [exact IH | now constructor].
Qed.

Lemma Forall_strip_chars (P : ascii -> Prop) (l : list ascii) :
  Forall P l -> Forall P (strip_chars l).
Proof.
  intros H. unfold strip_chars, rstrip_chars.
  apply Forall_rev, Forall_lstrip_chars, Forall_rev, Forall_lstrip_chars, H.
Qed.

(** *** The genres pipeline on one string *)

Lemma filter_id {A} (f : A -> bool) (l : list A) :
  Forall (fun a => f a = true) l -> filter f l = l.
Proof.
  induction 1 as [|a l Ha _ IH]; simpl; [reflexivity|]. now rewrite Ha, IH.
Qed.

Lemma genres_norm_idem (s : string) : genres_norm (genres_norm s) = genres_norm s.
Proof.
  unfold genres_norm, lower, strip, remove_brackets_quotes.
  rewrite !chars_str. f_equal.
  set (l := filter (fun c => negb (is_bracket_or_quote c)) (chars s)).
  assert (Hl : Forall (fun c => negb (is_bracket_or_quote c) = true) l)
    by (apply Forall_forall; intros c Hc; now apply filter_In in Hc).
  rewrite filter_id.
  - now rewrite strip_chars_map_lower, strip_chars_idem, map_map,
      (map_ext _ _ (fun c => lower_char_idem c)).
  - apply Forall_map. apply Forall_strip_chars with (P := fun c => _) in Hl.
    eapply Forall_impl; [|exact Hl]. simpl. intros c Hc.
    now rewrite is_bracket_or_quote_lower_char.
Qed.

End PyFacts.

(* ================================================================== *)
(** * Row counts *)

Lemma wf_rectangular (df : DataFrame) : wf df = true -> rectangular df.
Proof.
  unfold wf, rectangular. intros H. apply andb_prop in H. destruct H as [_ H].
  rewrite forallb_forall in H. apply Forall_forall. intros c Hc.
  now apply Nat.eqb_eq, H.
Qed.

Lemma rectangular_getitem (n : string) (df : DataFrame) (s : Series) :
  rectangular df -> getitem n df = Ok s -> series_length s = nrows df.
Proof.
  intros H E. apply getitem_ok, lookup_In in E.
  unfold rectangular in H. rewrite Forall_forall in H. exact (H _ E).
Qed.

Lemma rectangular_rename (f : string -> string) (df : DataFrame) :
  rectangular df -> rectangular (rename_columns f df).
Proof.
  unfold rectangular, rename_columns, nrows. simpl. intros H.
  apply Forall_map. eapply Forall_impl; [|exact H]. now simpl.
Qed.

Lemma Forall_assign (P : string * Series -> Prop) (n : string) (s : Series)
      (cs : list (string * Series)) :
  Forall P cs -> P (n, s) -> Forall P (assign n s cs).
Proof.
  intros H Hs. induction H as [|[m s0] cs Hc Hcs IH]; simpl.
  - constructor; [exact Hs | constructor].
  - destruct (String.eqb m n) eqn:E; constructor; auto.
    apply String.eqb_eq in E. now subst m.
Qed.

Lemma rectangular_setitem (n : string) (s : Series) (df : DataFrame) :
  rectangular df -> series_length s = nrows df -> rectangular (setitem n s df).
Proof.
  intros H Hs. unfold rectangular, setitem. simpl.
  apply Forall_assign; [exact H | exact Hs].
Qed.

Lemma series_take_select (mask : list bool) (s : Series) :
  series_take (nonzero mask) s =
  match s with
  | IntCol l => IntCol (select mask l)
  | FloatCol l => FloatCol (select mask l)
  | ObjCol l => ObjCol (select mask l)
  | DateCol l => DateCol (select mask l)
  end.
Proof. destruct s; simpl; now rewrite take_nonzero. Qed.

Lemma series_length_take (ix : list nat) (s : Series) :
  Forall (fun i => (i < series_length s)%nat) ix ->
  series_length (series_take ix s) = length ix.
Proof. destruct s; simpl; apply length_take. Qed.

Lemma rectangular_df_take (ix : list nat) (df : DataFrame) :
  rectangular df -> Forall (fun i => (i < nrows df)%nat) ix ->
  rectangular (df_take ix df).
Proof.
  unfold rectangular, df_take, nrows. simpl. intros H Hix.
  rewrite (series_length_take ix (index df) Hix).
  apply Forall_map. eapply Forall_impl; [|exact H]. simpl. intros c Hc.
  apply series_length_take. now rewrite Hc.
Qed.

Lemma series_take_all (s : Series) : series_take (seq 0 (series_length s)) s = s.
Proof. destruct s; simpl; now rewrite take_seq_all. Qed.

Lemma df_take_all (df : DataFrame) :
  rectangular df -> df_take (seq 0 (nrows df)) df = df.
Proof.
  destruct df as [ix cs]. unfold rectangular, df_take, nrows. simpl. intros H.
  rewrite series_take_all. f_equal.
  induction H as [|[n s] cs Hs _ IH]; simpl; [reflexivity|].
  simpl in Hs. rewrite <- Hs at 1. now rewrite series_take_all, IH.
Qed.

(* ================================================================== *)
(** * Dropping duplicates *)

Section Duplicates.

Context {A : Type} (eqb : A -> A -> bool).

Lemma duplicated_from_length (seen l : list A) :
  length (duplicated_from eqb seen l) = length l.
Proof.
  revert seen. induction l as [|a l IH]; intros seen; simpl; [reflexivity|].
  now rewrite IH.
Qed.

(** Once the duplicates are gone, nothing is a duplicate. *)
Lemma duplicated_from_select (seen seen' l : list A) :
  (forall x, In x seen' -> In x seen) ->
  duplicated_from eqb seen'
    (select (map negb (duplicated_from eqb seen l)) l)
  = map (fun _ => false) (select (map negb (duplicated_from eqb seen l)) l).
Proof.
  revert seen seen'. induction l as [|a l IH]; intros seen seen' Hsub; [reflexivity|].
  simpl. destruct (existsb (eqb a) seen) eqn:E; simpl.
  - apply IH. intros x Hx. right. auto.
  - assert (E' : existsb (eqb a) seen' = false).
    { destruct (existsb (eqb a) seen') eqn:E'; [|reflexivity].
      apply existsb_exists in E'. destruct E' as (x & Hx & Hax).
      assert (existsb (eqb a) seen = true) by (apply existsb_exists; eauto).
      congruence. }
    rewrite E'. f_equal. apply IH.
    intros x [<-|Hx]; [now left | right; auto].
Qed.

Lemma duplicated_select (l : list A) :
  duplicated eqb (select (map negb (duplicated eqb l)) l)
  = map (fun _ => false) (select (map negb (duplicated eqb l)) l).
Proof. apply duplicated_from_select. auto. Qed.

End Duplicates.

Lemma existsb_select {A} (f : A -> bool) (mask : list bool) (l : list A) :
  existsb f l = false -> existsb f (select mask l) = false.
Proof.
  revert l. induction mask as [|b mask IH]; intros [|a l] H; simpl in *; try reflexivity.
  apply orb_false_iff in H. destruct H as [Ha Hl].
  destruct b; simpl; [rewrite Ha; simpl|]; auto.
Qed.

Lemma series_duplicated_length (s : Series) :
  length (series_duplicated s) = series_length s.
Proof. destruct s; simpl; apply duplicated_from_length. Qed.

(** After [drop_duplicates] the key column has no duplicate left. *)
Lemma series_duplicated_dropped (s : Series) :
  series_duplicated (series_take (nonzero (map negb (series_duplicated s))) s)
  = repeat false
      (series_length (series_take (nonzero (map negb (series_duplicated s))) s)).
Proof.
  rewrite series_take_select.
  destruct s; simpl; now rewrite duplicated_select, map_const.
Qed.

Lemma map_negb_repeat_false (n : nat) : map negb (repeat false n) = repeat true n.
Proof. induction n as [|n IH]; simpl; congruence. Qed.

Lemma rectangular_df_filter (mask : list bool) (df : DataFrame) :
  rectangular df -> length mask = nrows df -> rectangular (df_filter mask df).
Proof.
  intros H Hm. apply rectangular_df_take; [exact H|].
  rewrite <- Hm. apply nonzero_bound.
Qed.

Lemma drop_duplicates_rectangular (n : string) (df r : DataFrame) :
  rectangular df -> drop_duplicates n df = Ok r -> rectangular r.
Proof.
  intros Hrect H. unfold drop_duplicates in H. bind_inv H.
  injection H as <-. apply rectangular_df_filter; [exact Hrect|].
  rewrite length_map, series_duplicated_length.
  eapply rectangular_getitem; eauto.
Qed.

(** [drop_duplicates] changes nothing the second time. *)
Lemma drop_duplicates_idempotent (n : string) (df r : DataFrame) :
  rectangular df -> drop_duplicates n df = Ok r -> drop_duplicates n r = Ok r.
Proof.
  intros Hrect H. pose proof (drop_duplicates_rectangular _ _ _ Hrect H) as Hr.
  unfold drop_duplicates in H. bind_inv H. injection H as <-.
  unfold drop_duplicates, df_filter in *.
  rewrite (getitem_df_take _ _ _ _ E). simpl.
  rewrite series_duplicated_dropped.
  rewrite map_negb_repeat_false, nonzero_all_true.
  rewrite (rectangular_getitem n _ _ Hr (getitem_df_take _ _ _ _ E)).
  now rewrite df_take_all.
Qed.

(* ================================================================== *)
(** * float64: when an operation gives NaN *)

Module F64Facts.

Import F64.

Lemma iter_shr_1_nonneg (p : positive) (mrs : shr_record) :
  0 <= shr_m mrs -> 0 <= shr_m (iter_pos shr_1 p mrs).
Proof.
  assert (Hstep : forall r, 0 <= shr_m r -> 0 <= shr_m (shr_1 r)).
  { intros [m r s0] H. simpl in *.
    destruct m as [|q|q]; simpl; try lia; destruct q; simpl; lia. }
  revert mrs. induction p as [p IH|p IH|]; intros mrs H; simpl; auto.
Qed.

Lemma shr_nonneg (mrs : shr_record) (e n : Z) :
  0 <= shr_m mrs -> 0 <= shr_m (fst (shr mrs e n)).
Proof.
  intros H. unfold shr. destruct n; simpl; auto. now apply iter_shr_1_nonneg.
Qed.

Lemma shr_fexp_nonneg (m e : Z) (l : location) :
  0 <= m -> 0 <= shr_m (fst (shr_fexp prec emax m e l)).
Proof.
  intros H. unfold shr_fexp. apply shr_nonneg.
  destruct l as [|[]]; simpl; exact H.
Qed.

(** Rounding a magnitude never gives NaN. *)
Lemma binary_round_aux_not_nan (sx : bool) (mx ex : Z) (lx : location) :
  0 <= mx -> binary_round_aux prec emax sx mx ex lx <> S754_nan.
Proof.
  intros H. unfold binary_round_aux.
  pose proof (shr_fexp_nonneg mx ex lx H) as H1.
  destruct (shr_fexp prec emax mx ex lx) as [mrs' e']. simpl in H1.
  assert (H2 : 0 <= round_nearest_even (shr_m mrs') (loc_of_shr_record mrs')).
  { unfold round_nearest_even.
    destruct (loc_of_shr_record mrs') as [|[]]; try lia.
    destruct (Z.even (shr_m mrs')); lia. }
  pose proof (shr_fexp_nonneg _ e' loc_Exact H2) as H3.
  destruct (shr_fexp prec emax _ e' loc_Exact) as [mrs'' e'']. simpl in H3.
  destruct (shr_m mrs'') as [|q|q]; try discriminate; [|lia].
  destruct (e'' <=? emax - prec); discriminate.
Qed.

Lemma binary_normalize_not_nan (m e : Z) (szero : bool) :
  binary_normalize prec emax m e szero <> S754_nan.
Proof.
  unfold binary_normalize, binary_round.
  destruct m as [|q|q]; try discriminate;
    destruct (shl_align _ _ _) as [mz ez]; apply binary_round_aux_not_nan; lia.
Qed.

(** The float nearest to an integer is a number. *)
Lemma of_Z_not_nan (z : Z) : of_Z z <> None.
Proof.
  unfold of_Z. pose proof (binary_normalize_not_nan z 0 false) as H.
  destruct (binary_normalize prec emax z 0 false); simpl; congruence.
Qed.

(** The sum of two numbers is NaN only when they are infinities. *)
Lemma add_not_nan (x y : float64) :
  is_inf x = false -> is_inf y = false -> add (Some x) (Some y) <> None.
Proof.
  intros Hx Hy. unfold add.
  destruct x as [sx|sx|sx mx ex]; try discriminate;
    destruct y as [sy|sy|sy my ey]; try discriminate; simpl.
  - destruct sx, sy; discriminate.
  - pose proof (binary_normalize_not_nan
                  (cond_Zopp sx (Zpos (fst (shl_align mx ex (Z.min ex ey)))) +
                   cond_Zopp sy (Zpos (fst (shl_align my ey (Z.min ex ey)))))
                  (Z.min ex ey) false) as H.
    destruct (binary_normalize _ _ _ _ _); simpl; congruence.
Qed.

Lemma two_eq : two = Some (FFinite false 4503599627370496 (-51)).
Proof. reflexivity. Qed.

(** Half of a number is a number. *)
Lemma div_two_not_nan (a : option float64) : a <> None -> div a two <> None.
Proof.
  intros H. rewrite two_eq. unfold div.
  destruct a as [[sx|sx|sx mx ex]|]; try congruence; simpl; try discriminate.
  set (r := SFdiv_core_binary prec emax (Zpos mx) ex 4503599627370496 (-51)).
  assert (Hq : 0 <= fst (fst r)).
  { unfold r, SFdiv_core_binary.
    set (m' := match _ with Zpos _ => _ | Z0 => _ | Zneg _ => _ end).
    assert (Hm : 0 <= m').
    { unfold m'. destruct (_ - _ - _)%Z; try lia.
      pose proof (Z.shiftl_nonneg (Zpos mx) (Zpos p)). lia. }
    pose proof (Z_div_mod m' 4503599627370496 ltac:(lia)) as Hd.
    destruct (Z.div_eucl m' 4503599627370496) as [q rm]. simpl.
    destruct Hd as [Hd Hr]. nia. }
  destruct r as [[mz ez] lz]. simpl in Hq.
  pose proof (binary_round_aux_not_nan sx mz ez lz Hq) as Hn.
  rewrite Bool.xorb_false_r.
  destruct (binary_round_aux prec emax sx mz ez lz); simpl; congruence.
Qed.

End F64Facts.

(* ================================================================== *)
(** * Median fill *)

Lemma somes_nil_iff {A} (l : list (option A)) :
  somes l = [] <-> Forall (fun c => c = None) l.
Proof.
  induction l as [|[a|] l IH]; simpl.
  - split; [constructor | reflexivity].
  - split; [discriminate | intros H; inversion H; discriminate].
  - rewrite IH. split; [now constructor | now inversion 1].
Qed.

Lemma somes_In {A} (l : list (option A)) (a : A) : In a (somes l) <-> In (Some a) l.
Proof.
  unfold somes. rewrite in_flat_map. split.
  - intros ([b|] & Hb & Ha); [|contradiction]. destruct Ha as [<-|[]]. exact Hb.
  - intros H. exists (Some a). split; [exact H | now left].
Qed.

Lemma no_infinity_In (l : list (option float64)) (a : float64) :
  no_infinity (FloatCol l) -> In (Some a) l -> F64.is_inf a = false.
Proof.
  unfold no_infinity. simpl. intros H Ha.
  destruct (F64.is_inf a) eqn:E; [|reflexivity].
  assert (existsb is_infinite l = true) by (apply existsb_exists; eauto).
  congruence.
Qed.

Lemma finite_table_Forall (df : DataFrame) :
  finite_table df <-> Forall (fun c => no_infinity (snd c)) (cols df).
Proof.
  unfold finite_table, no_infinity. rewrite forallb_forall, Forall_forall.
  split; intros H c Hc; specialize (H c Hc); destruct (has_infinity (snd c));
    simpl in *; congruence.
Qed.

Section MedianFacts.

Variable rt : Runtime.

Hypothesis permutes : partition_permutes (sorted_floats rt).

(** The median of a column that is entirely missing is NaN. *)
Lemma median_all_missing (l : list (option float64)) :
  Forall (fun c => c = None) l -> median rt l = None.
Proof.
  intros H. apply somes_nil_iff in H. unfold median. rewrite H. simpl.
  pose proof (permutes []) as Hp. apply Permutation_sym, Permutation_nil in Hp.
  now rewrite Hp.
Qed.

(** The median of a column that has a value and no infinity is a
    number. *)
Lemma median_present (l : list (option float64)) :
  no_infinity (FloatCol l) ->
  ~ Forall (fun c => c = None) l ->
  median rt l <> None.
Proof.
  intros Hfin Hsome. rewrite <- somes_nil_iff in Hsome.
  unfold median. pose proof (permutes (somes l)) as Hp.
  pose proof (Permutation_length Hp) as Hlen.
  set (v := sorted_floats rt (somes l)) in *.
  set (n := length (somes l)) in *.
  assert (Hpos : (0 < n)%nat).
  { unfold n. destruct (somes l); [congruence | simpl; lia]. }
  assert (Hv : forall i a, nth_error v i = Some a -> F64.is_inf a = false).
  { intros i a Hi. apply nth_error_In in Hi.
    apply (Permutation_in _ Hp), somes_In in Hi.
    exact (no_infinity_In l a Hfin Hi). }
  destruct (Nat.odd n) eqn:Hodd.
  - apply nth_error_Some. rewrite Hlen. apply Nat.div_lt; lia.
  - assert (Hn : (2 <= n)%nat).
    { destruct n as [|[|n']]; [lia | discriminate Hodd | lia]. }
    assert (H1 : (n / 2 - 1 < length v)%nat)
      by (rewrite Hlen; pose proof (Nat.div_lt n 2); lia).
    assert (H2 : (n / 2 < length v)%nat) by (rewrite Hlen; apply Nat.div_lt; lia).
    apply nth_error_Some in H1, H2.
    destruct (nth_error v (n / 2 - 1)) as [a|] eqn:Ea; [|congruence].
    destruct (nth_error v (n / 2)) as [b|] eqn:Eb; [|congruence].
    apply F64Facts.div_two_not_nan, F64Facts.add_not_nan; eauto.
Qed.

Lemma Forall_take {A} (P : A -> Prop) (ix : list nat) (l : list A) :
  Forall P l -> Forall P (take ix l).
Proof.
  intros H. apply Forall_forall. intros a Ha. unfold take in Ha.
  apply in_flat_map in Ha. destruct Ha as (i & _ & Ha).
  destruct (nth_error l i) eqn:E; [|contradiction].
  destruct Ha as [<-|[]]. rewrite Forall_forall in H.
  eapply H, nth_error_In; eauto.
Qed.

Lemma steady_take (ix : list nat) (l : list (option float64)) :
  steady l -> steady (take ix l).
Proof. intros [H|H]; [left | right]; now apply Forall_take. Qed.

Lemma fill_present (m : float64) (l : list (option float64)) :
  Forall (fun c => c <> None) l ->
  map (fun c => match c with None => Some m | _ => c end) l = l.
Proof.
  induction 1 as [|c l Hc _ IH]; simpl; [reflexivity|].
  rewrite IH. now destruct c.
Qed.

Lemma fillna_median_steady (l : list (option float64)) :
  steady l -> fillna_median rt (FloatCol l) = FloatCol l.
Proof.
  intros H. simpl. destruct (median rt l) as [m|] eqn:E; [|reflexivity].
  destruct H as [H|H].
  - now rewrite fill_present.
  - apply median_all_missing in H. congruence.
Qed.

(** Without infinities the fill leaves a column steady. *)
Lemma fillna_median_settled (s : Series) :
  no_infinity s -> settled (fillna_median rt s).
Proof.
  destruct s; simpl; try (intros; exact I). intros Hfin.
  destruct (median rt l) as [m|] eqn:E; simpl.
  - left. apply Forall_map, Forall_forall. intros [q|] _; discriminate.
  - right. destruct (somes l) eqn:Es; [now apply somes_nil_iff|].
    exfalso. apply (median_present l Hfin); [|exact E].
    rewrite <- somes_nil_iff. congruence.
Qed.

Lemma settled_take (ix : list nat) (s : Series) :
  settled s -> settled (series_take ix s).
Proof. destruct s; simpl; auto. apply steady_take. Qed.

Lemma fillna_median_fixed (s : Series) : settled s -> fillna_median rt s = s.
Proof. destruct s; try reflexivity. apply fillna_median_steady. Qed.

Lemma is_number_take (ix : list nat) (s : Series) :
  is_number (series_take ix s) = is_number s.
Proof. now destruct s. Qed.

Lemma is_number_fillna_median (s : Series) :
  is_number (fillna_median rt s) = is_number s.
Proof. destruct s; try reflexivity. simpl. now destruct (median rt l). Qed.

Lemma series_length_fillna_median (s : Series) :
  series_length (fillna_median rt s) = series_length s.
Proof.
  destruct s; try reflexivity. simpl.
  destruct (median rt l); simpl; now rewrite ?length_map.
Qed.

Lemma rectangular_fill (df : DataFrame) :
  rectangular df -> rectangular (fill_numeric_with_median rt df).
Proof.
  unfold rectangular, fill_numeric_with_median, nrows. simpl. intros H.
  apply Forall_map. eapply Forall_impl; [|exact H]. simpl. intros [n s] Hs. simpl in *.
  destruct (is_number s); [now rewrite series_length_fillna_median | exact Hs].
Qed.

(** Filling again after rows were dropped changes nothing, on a table
    without infinities. *)
Lemma fill_take_fill (ix : list nat) (df : DataFrame) :
  finite_table df ->
  fill_numeric_with_median rt (df_take ix (fill_numeric_with_median rt df))
  = df_take ix (fill_numeric_with_median rt df).
Proof.
  rewrite finite_table_Forall.
  unfold fill_numeric_with_median, df_take. simpl. intros Hfin. f_equal.
  rewrite !map_map. apply map_ext_in. intros [n s] Hin. simpl. f_equal.
  rewrite Forall_forall in Hfin. specialize (Hfin _ Hin). simpl in Hfin.
  rewrite is_number_take.
  destruct (is_number s) eqn:E.
  - rewrite is_number_fillna_median, E.
    now apply fillna_median_fixed, settled_take, fillna_median_settled.
  - now rewrite E.
Qed.

End MedianFacts.

(* ================================================================== *)
(** * Cleaning twice *)

Section Idempotence.

Variable rt : Runtime.

Lemma normalize_column_idem (c : string) :
  Cleaner.normalize_column (Cleaner.normalize_column c) = Cleaner.normalize_column c.
Proof. apply PyFacts.replace_spaces_lower. Qed.

Lemma normalized_rename (df : DataFrame) :
  normalized (rename_columns Cleaner.normalize_column df).
Proof.
  unfold normalized, rename_columns. simpl. apply Forall_map, Forall_forall.
  intros c _. apply normalize_column_idem.
Qed.

Lemma rename_normalized (df : DataFrame) :
  normalized df -> rename_columns Cleaner.normalize_column df = df.
Proof.
  destruct df as [ix cs]. unfold normalized, rename_columns. simpl. intros H.
  f_equal. induction H as [|[n s] cs Hn _ IH]; simpl; [reflexivity|].
  simpl in Hn. now rewrite Hn, IH.
Qed.

Lemma normalized_map (f : string * Series -> Series) (df : DataFrame) (ix : Series) :
  normalized df ->
  normalized (mkDataFrame ix (map (fun c => (fst c, f c)) (cols df))).
Proof.
  unfold normalized. simpl. intros H. apply Forall_map.
  eapply Forall_impl; [|exact H]. now simpl.
Qed.

Lemma normalized_df_take (ix : list nat) (df : DataFrame) :
  normalized df -> normalized (df_take ix df).
Proof. apply (normalized_map (fun c => series_take ix (snd c))). Qed.

Lemma normalized_fill (df : DataFrame) :
  normalized df -> normalized (fill_numeric_with_median rt df).
Proof.
  apply (normalized_map
           (fun c => if is_number (snd c) then fillna_median rt (snd c) else snd c)).
Qed.

Lemma normalized_setitem (n : string) (s : Series) (df : DataFrame) :
  Cleaner.normalize_column n = n -> normalized df -> normalized (setitem n s df).
Proof.
  intros Hn H. unfold normalized, setitem. simpl.
  apply Forall_assign; [exact H | exact Hn].
Qed.

Lemma getitem_fill (n : string) (df : DataFrame) (s : Series) :
  getitem n df = Ok s ->
  getitem n (fill_numeric_with_median rt df)
  = Ok (if is_number s then fillna_median rt s else s).
Proof.
  rewrite !getitem_ok. unfold fill_numeric_with_median. simpl. intros H.
  now rewrite (lookup_map (fun s => if is_number s then fillna_median rt s else s)), H.
Qed.

Lemma series_length_to_datetime (s : Series) :
  series_length (to_datetime rt s) = series_length s.
Proof.
  destruct s; simpl; try reflexivity;
    match goal with |- context [if ?b then _ else _] => destruct b end;
    simpl; now rewrite ?length_map, ?length_map, ?length_seq.
Qed.

Lemma finite_table_rename (f : string -> string) (df : DataFrame) :
  finite_table df -> finite_table (rename_columns f df).
Proof.
  rewrite !finite_table_Forall. unfold rename_columns. simpl. intros H.
  apply Forall_map. eapply Forall_impl; [|exact H]. now simpl.
Qed.

Lemma finite_table_setitem (n : string) (s : Series) (df : DataFrame) :
  no_infinity s -> finite_table df -> finite_table (setitem n s df).
Proof.
  rewrite !finite_table_Forall. intros Hs H. unfold setitem. simpl.
  apply (Forall_assign (fun c => no_infinity (snd c))); [exact H | exact Hs].
Qed.

Hypothesis permutes : partition_permutes (sorted_floats rt).

Lemma clean_features_idempotent (t r : DataFrame) :
  rectangular t -> finite_table t ->
  Cleaner.clean_features rt t = Ok r -> Cleaner.clean_features rt r = Ok r.
Proof.
  unfold Cleaner.clean_features. intros Hrect Hfin H.
  set (df0 := rename_columns Cleaner.normalize_column t) in *.
  set (df1 := fill_numeric_with_median rt df0) in *.
  assert (Hrect1 : rectangular df1) by now apply rectangular_fill, rectangular_rename.
  assert (Hnorm1 : normalized df1) by apply normalized_fill, normalized_rename.
  pose proof (drop_duplicates_idempotent _ _ _ Hrect1 H) as Hidem.
  unfold drop_duplicates in H. bind_inv H. injection H as <-.
  unfold df_filter in *.
  rewrite rename_normalized by now apply normalized_df_take.
  unfold df1 at 1. rewrite (fill_take_fill rt permutes); [exact Hidem|].
  now apply finite_table_rename.
Qed.

Lemma clean_tracks_idempotent (t r : DataFrame) :
  rectangular t -> finite_table t -> reads_datetime rt t ->
  Cleaner.clean_tracks rt t = Ok r -> Cleaner.clean_tracks rt r = Ok r.
Proof.
  unfold Cleaner.clean_tracks, reads_datetime. intros Hrect Hfin Hdate H.
  bind_inv H. rename x into d.
  set (df0 := rename_columns Cleaner.normalize_column t) in *.
  set (df1 := fill_numeric_with_median rt
                (setitem "release_date" (to_datetime rt d) df0)) in *.
  assert (Hrect0 : rectangular df0) by now apply rectangular_rename.
  assert (Hrect1 : rectangular df1).
  { apply rectangular_fill, rectangular_setitem; [exact Hrect0|].
    rewrite series_length_to_datetime. eapply rectangular_getitem; eauto. }
  assert (Hnorm1 : normalized df1).
  { apply normalized_fill, normalized_setitem; [reflexivity | apply normalized_rename]. }
  pose proof (drop_duplicates_idempotent _ _ _ Hrect1 H) as Hidem.
  unfold drop_duplicates in H. bind_inv H. injection H as <-.
  unfold df_filter in *.
  rewrite rename_normalized by now apply normalized_df_take.
  destruct (Hdate d E) as (l & Hl).
  set (ix := nonzero (map negb (series_duplicated x))) in *.
  assert (Hd : getitem "release_date" (df_take ix df1) = Ok (DateCol (take ix l))).
  { erewrite getitem_df_take.
    2:{ unfold df1. apply getitem_fill. apply getitem_setitem_same. }
    rewrite Hl. reflexivity. }
  rewrite Hd. simpl bind. simpl to_datetime.
  rewrite (setitem_getitem_same _ _ _ Hd).
  unfold df1 at 1. rewrite (fill_take_fill rt permutes); [exact Hidem|].
  apply finite_table_setitem; [now rewrite Hl | now apply finite_table_rename].
Qed.

Lemma mapM_length {A B} (f : A -> result B) (l : list A) (l' : list B) :
  mapM f l = Ok l' -> length l' = length l.
Proof.
  revert l'. induction l as [|a l IH]; simpl; intros l' H.
  - now injection H as <-.
  - bind_inv H. bind_inv H. injection H as <-. simpl. f_equal. now apply IH.
Qed.

Lemma series_length_fillna (v : pyobj) (s : Series) :
  series_length (fillna v s) = series_length s.
Proof.
  destruct s; simpl; try reflexivity.
  - destruct (existsb is_none l); [destruct v|]; simpl; now rewrite ?length_map.
  - now rewrite length_map.
  - destruct (existsb is_none l); simpl; now rewrite ?length_map.
Qed.

Lemma astype_int_IntCol (s s' : Series) :
  astype_int s = Ok s' ->
  exists l, s' = IntCol l /\ length l = series_length s.
Proof.
  destruct s; simpl.
  - intros [= <-]. eauto.
  - destruct (existsb non_finite l); [discriminate|]. intros [= <-].
    eexists; split; [reflexivity | apply length_map].
  - intros H. bind_inv H. injection H as <-.
    eexists; split; [reflexivity | eapply mapM_length; eauto].
  - intros [= <-]. eexists; split; [reflexivity | apply length_map].
Qed.

Lemma IntCol_fixed (v : pyobj) (l : list Z) :
  astype_int (fillna v (IntCol l)) = Ok (IntCol l).
Proof. reflexivity. Qed.

Lemma astype_str_strings (s : Series) :
  exists l0, astype_str rt s = ObjCol (map OStr l0) /\ length l0 = series_length s.
Proof.
  destruct s; simpl; eexists; rewrite <- map_map with (g := OStr);
    (split; [reflexivity | now rewrite ?length_map, ?length_seq]).
Qed.

Lemma text_or_null_strings (l : list string) : forallb text_or_null (map OStr l) = true.
Proof. induction l; simpl; auto. Qed.

Lemma str_method_strings (f : string -> string) (l : list string) :
  str_method f (ObjCol (map OStr l)) = Ok (ObjCol (map OStr (map f l))).
Proof. simpl. now rewrite text_or_null_strings, !map_map. Qed.

(** The genres column after [clean_genres]: strings in normal form. *)
Lemma clean_genres_spec (s s' : Series) :
  Cleaner.clean_genres rt s = Ok s' ->
  exists l, s' = ObjCol (map OStr l) /\
            Forall (fun x => genres_norm x = x) l /\
            length l = series_length s.
Proof.
  unfold Cleaner.clean_genres.
  destruct (astype_str_strings s) as (l0 & -> & Hlen).
  rewrite str_method_strings. cbn [bind].
  rewrite str_method_strings. cbn [bind].
  rewrite str_method_strings. rewrite !map_map.
  intros [= <-]. exists (map genres_norm l0). split; [|split].
  - now rewrite map_map.
  - apply Forall_map, Forall_forall. intros x _. apply PyFacts.genres_norm_idem.
  - now rewrite length_map.
Qed.

Lemma astype_str_fixed (l : list string) :
  astype_str rt (ObjCol (map OStr l)) = ObjCol (map OStr l).
Proof. simpl. now rewrite map_map. Qed.

Lemma clean_genres_fixed (l : list string) :
  Forall (fun x => genres_norm x = x) l ->
  Cleaner.clean_genres rt (ObjCol (map OStr l)) = Ok (ObjCol (map OStr l)).
Proof.
  intros H. unfold Cleaner.clean_genres. rewrite astype_str_fixed.
  rewrite str_method_strings. cbn [bind].
  rewrite str_method_strings. cbn [bind].
  rewrite str_method_strings. rewrite !map_map.
  do 2 f_equal.
  apply map_ext_Forall. eapply Forall_impl; [|exact H].
  simpl. intros x Hx. unfold genres_norm in Hx. now rewrite Hx.
Qed.

Lemma fillna_strings (v : pyobj) (l : list string) :
  fillna v (ObjCol (map OStr l)) = ObjCol (map OStr l).
Proof. simpl. now rewrite map_map. Qed.

Lemma clean_artists_idempotent (t r : DataFrame) :
  rectangular t ->
  Cleaner.clean_artists rt t = Ok r -> Cleaner.clean_artists rt r = Ok r.
Proof.
  unfold Cleaner.clean_artists. intros Hrect H.
  set (df0 := rename_columns Cleaner.normalize_column t) in *.
  assert (Hrect0 : rectangular df0) by now apply rectangular_rename.
  assert (Hnorm0 : normalized df0) by apply normalized_rename.
  bind_inv H. rename x into g, E into Eg.
  set (df1 := setitem "genres" (fillna (OStr "Unknown") g) df0) in *.
  bind_inv H. rename x into f, E into Ef.
  bind_inv H. rename x into f', E into Ef'.
  set (df2 := setitem "followers" f' df1) in *.
  bind_inv H. rename x into p, E into Ep.
  bind_inv H. rename x into p', E into Ep'.
  set (df3 := setitem "popularity" p' df2) in *.
  bind_inv H. rename x into g1, E into Eg1.
  bind_inv H. rename x into g', E into Eg'.
  set (df4 := setitem "genres" g' df3) in *.
  (* the shape of the three columns *)
  assert (Eg1' : g1 = fillna (OStr "Unknown") g).
  { unfold df3, df2 in Eg1.
    rewrite !getitem_setitem_other in Eg1 by discriminate.
    unfold df1 in Eg1. rewrite getitem_setitem_same in Eg1. congruence. }
  assert (Ef0 : getitem "followers" df0 = Ok f).
  { unfold df1 in Ef. now rewrite getitem_setitem_other in Ef by discriminate. }
  assert (Ep0 : getitem "popularity" df0 = Ok p).
  { unfold df2, df1 in Ep. now rewrite !getitem_setitem_other in Ep by discriminate. }
  destruct (astype_int_IntCol _ _ Ef') as (lf & -> & Hlf).
  destruct (astype_int_IntCol _ _ Ep') as (lp & -> & Hlp).
  destruct (clean_genres_spec _ _ Eg') as (lg & -> & Hfix & Hlg).
  rewrite series_length_fillna in Hlf, Hlp. subst g1.
  rewrite series_length_fillna in Hlg.
  pose proof (rectangular_getitem _ _ _ Hrect0 Eg) as Hg.
  pose proof (rectangular_getitem _ _ _ Hrect0 Ef0) as Hf.
  pose proof (rectangular_getitem _ _ _ Hrect0 Ep0) as Hp.
  assert (Hrect4 : rectangular df4).
  { unfold df4, df3, df2, df1.
    repeat apply rectangular_setitem; try exact Hrect0; simpl;
      rewrite ?series_length_fillna, ?length_map, ?nrows_setitem; congruence. }
  assert (Hnorm4 : normalized df4).
  { unfold df4, df3, df2, df1. repeat apply normalized_setitem; auto. }
  pose proof (drop_duplicates_idempotent _ _ _ Hrect4 H) as Hidem.
  unfold drop_duplicates in H. bind_inv H. injection H as <-.
  unfold df_filter in *. set (ix := nonzero (map negb (series_duplicated x))) in *.
  set (r := df_take ix df4) in *.
  (* the second pass *)
  rewrite rename_normalized by now apply normalized_df_take.
  assert (Rg : getitem "genres" r = Ok (ObjCol (map OStr (take ix lg)))).
  { unfold r. erewrite getitem_df_take by apply getitem_setitem_same.
    simpl. now rewrite take_map. }
  assert (Rf : getitem "followers" r = Ok (IntCol (take ix lf))).
  { unfold r. rewrite (getitem_df_take ix "followers" df4 (IntCol lf)); [reflexivity|].
    unfold df4, df3. rewrite !getitem_setitem_other by discriminate.
    apply getitem_setitem_same. }
  assert (Rp : getitem "popularity" r = Ok (IntCol (take ix lp))).
  { unfold r. rewrite (getitem_df_take ix "popularity" df4 (IntCol lp)); [reflexivity|].
    unfold df4. rewrite !getitem_setitem_other by discriminate.
    apply getitem_setitem_same. }
  rewrite Rg. bind_step. rewrite fillna_strings.
  rewrite (setitem_getitem_same _ _ _ Rg).
  rewrite Rf. bind_step. rewrite IntCol_fixed. bind_step.
  rewrite (setitem_getitem_same _ _ _ Rf).
  rewrite Rp. bind_step. rewrite IntCol_fixed. bind_step.
  rewrite (setitem_getitem_same _ _ _ Rp).
  rewrite Rg. bind_step.
  rewrite clean_genres_fixed by now apply Forall_take.
  bind_step. rewrite (setitem_getitem_same _ _ _ Rg).
  exact Hidem.
Qed.

End Idempotence.

Lemma rectangular_rename_inv (f : string -> string) (df : DataFrame) :
  rectangular (rename_columns f df) -> rectangular df.
Proof.
  unfold rectangular, rename_columns, nrows. simpl. intros H.
  rewrite Forall_map in H. exact H.
Qed.

(** The insertion sort of the example runtime rearranges the values. *)
Lemma insert_float_perm {A} (x : float64 * A) (l : list (float64 * A)) :
  Permutation (Example.insert_float x l) (x :: l).
Proof.
  induction l as [|y l IH]; simpl; [reflexivity|].
  destruct (F64.leb (fst x) (fst y)); [reflexivity|].
  rewrite IH. apply perm_swap.
Qed.

Lemma sort_floats_perm {A} (l : list (float64 * A)) :
  Permutation (Example.sort_floats l) l.
Proof.
  induction l as [|x l IH]; simpl; [constructor|].
  rewrite insert_float_perm. now constructor.
Qed.

Lemma example_partition_permutes (argsort : list Z -> list nat) :
  partition_permutes (sorted_floats (Example.make argsort)).
Proof.
  intros l. simpl. unfold Example.sorted_floats.
  rewrite sort_floats_perm, map_map. simpl. now rewrite map_id.
Qed.

(** C2 (corrected): idempotence holds when no numeric column of tracks
    and features holds an infinite value and the release dates read into
    one datetime column.  On tables whose normalised column names are
    distinct and whose columns are as long as the index, each cleaner
    applied to its own output then returns that output, and where the
    first cleaning raises, so does the composition.  [clean_artists]
    needs neither condition.  What is assumed of numpy's [partition] is
    that it rearranges the values. *)
Theorem cleaners_idempotent (rt : Runtime) (artists tracks features : DataFrame) :
  partition_permutes (sorted_floats rt) ->
  wf (rename_columns Cleaner.normalize_column artists) = true ->
  wf (rename_columns Cleaner.normalize_column tracks) = true ->
  wf (rename_columns Cleaner.normalize_column features) = true ->
  finite_table tracks -> reads_datetime rt tracks ->
  finite_table features ->
  (a <- Cleaner.clean_artists rt artists ;; Cleaner.clean_artists rt a)
  = Cleaner.clean_artists rt artists /\
  (t <- Cleaner.clean_tracks rt tracks ;; Cleaner.clean_tracks rt t)
  = Cleaner.clean_tracks rt tracks /\
  (f <- Cleaner.clean_features rt features ;; Cleaner.clean_features rt f)
  = Cleaner.clean_features rt features.
Proof.
  intros Hperm Ha Ht Hf Hfint Hdate Hfinf.
  apply wf_rectangular, rectangular_rename_inv in Ha, Ht, Hf. repeat split.
  - destruct (Cleaner.clean_artists rt artists) as [r|e] eqn:E; [|reflexivity].
    simpl. exact (clean_artists_idempotent rt artists r Ha E).
  - destruct (Cleaner.clean_tracks rt tracks) as [r|e] eqn:E; [|reflexivity].
    simpl. exact (clean_tracks_idempotent rt Hperm tracks r Ht Hfint Hdate E).
  - destruct (Cleaner.clean_features rt features) as [r|e] eqn:E; [|reflexivity].
    simpl. exact (clean_features_idempotent rt Hperm features r Hf Hfinf E).
Qed.

Lemma cleaners_idempotent_witness :
  (a <- Cleaner.clean_artists Example.stable raw_artists ;;
   Cleaner.clean_artists Example.stable a)
  = Cleaner.clean_artists Example.stable raw_artists /\
  (t <- Cleaner.clean_tracks Example.stable raw_tracks ;;
   Cleaner.clean_tracks Example.stable t)
  = Cleaner.clean_tracks Example.stable raw_tracks /\
  (f <- Cleaner.clean_features Example.stable raw_features ;;
   Cleaner.clean_features Example.stable f)
  = Cleaner.clean_features Example.stable raw_features.
Proof.
  apply (cleaners_idempotent Example.stable raw_artists raw_tracks raw_features).
  - apply example_partition_permutes.
  - reflexivity.
  - reflexivity.
  - reflexivity.
  - reflexivity.
  - intros d [= <-]. eexists. reflexivity.
  - reflexivity.
Defined.

(** The median of +inf and -inf is NaN, so the fill leaves the NaN
    between them; once the row that repeats an id is gone, the median is
    +inf, and the second cleaning fills the cell. *)
Lemma clean_features_twice_fills_again :
  Cleaner.clean_features Example.stable features_with_infinities
  = Ok (mkDataFrame (IntCol [0; 1])
          [("track_id", ObjCol [OStr "t1"; OStr "t2"]);
           ("loudness", FloatCol [Some (FInf false); None])]) /\
  (f <- Cleaner.clean_features Example.stable features_with_infinities ;;
   Cleaner.clean_features Example.stable f)
  = Ok (mkDataFrame (IntCol [0; 1])
          [("track_id", ObjCol [OStr "t1"; OStr "t2"]);
           ("loudness", FloatCol [Some (FInf false); Some (FInf false)])]).
Proof. split; reflexivity. Qed.

(** The example tables do get cleaned. *)
Lemma example_tables_cleaned :
  Cleaner.clean_artists Example.stable raw_artists = Ok cleaned_artists /\
  Cleaner.clean_tracks Example.stable raw_tracks = Ok cleaned_tracks /\
  Cleaner.clean_features Example.stable raw_features = Ok cleaned_features.
Proof. repeat split; reflexivity. Qed.

(* ================================================================== *)
(** * Names that are missing *)

(** [clean_artists] of [src/cleaner.py] returns the 'name' column as it
    got it, cut to the rows it keeps. *)
Lemma clean_artists_leaves_name (rt : Runtime) (artists r : DataFrame) (n : Series) :
  Cleaner.clean_artists rt artists = Ok r ->
  getitem "name" (rename_columns Cleaner.normalize_column artists) = Ok n ->
  exists keep, getitem "name" r = Ok (series_take keep n).
Proof.
  unfold Cleaner.clean_artists, drop_duplicates, df_filter. intros H Hn.
  repeat bind_inv H. injection H as <-.
  eexists. apply getitem_df_take.
  now rewrite !getitem_setitem_other by discriminate.
Qed.

(** C5 (clean_artists fills a missing name with "Unknown"): the cleaner of
    [src/cleaner.py] never touches 'name'; a missing name stays missing. *)
Theorem clean_artists_keeps_missing_name (rt : Runtime) :
  (r <- Cleaner.clean_artists rt artists_null_name ;; getitem "name" r)
  = Ok (ObjCol [ONaN; OStr "Queen"]).
Proof. reflexivity. Qed.

(** The dashboard's cleaner does fill it. *)
Lemma app_clean_artists_fills_missing_name (rt : Runtime) :
  (r <- App.clean_artists rt artists_null_name ;; getitem "name" r)
  = Ok (ObjCol [OStr "Unknown"; OStr "Queen"]).
Proof. reflexivity. Qed.

Lemma isna_fillna_str (x : string) (s : Series) :
  Forall (fun b => b = false) (isna (fillna (OStr x) s)).
Proof.
  destruct s; simpl.
  - apply Forall_map, Forall_forall. reflexivity.
  - destruct (existsb is_none l) eqn:E; simpl.
    + rewrite map_map. apply Forall_map, Forall_forall. now intros [q|] _.
    + apply Forall_map, Forall_forall. intros [q|] Hc; [reflexivity|].
      assert (existsb is_none l = true) by (apply existsb_exists; eauto). congruence.
  - rewrite map_map. apply Forall_map, Forall_forall. intros c _.
    now destruct c.
  - destruct (existsb is_none l) eqn:E; simpl.
    + rewrite map_map. apply Forall_map, Forall_forall. now intros [q|] _.
    + apply Forall_map, Forall_forall. intros [q|] Hc; [reflexivity|].
      assert (existsb is_none l = true) by (apply existsb_exists; eauto). congruence.
Qed.

(** On every table: after the dashboard's cleaner no name is missing. *)
Lemma app_clean_artists_names_present (rt : Runtime) (t r : DataFrame) :
  App.clean_artists rt t = Ok r ->
  exists n, getitem "name" r = Ok n /\ Forall (fun b => b = false) (isna n).
Proof.
  unfold App.clean_artists. intros H. repeat bind_inv H. injection H as <-.
  eexists. split; [apply getitem_setitem_same | apply isna_fillna_str].
Qed.

(* ================================================================== *)
(** * Followers and popularity of artists *)

Section Casts.

Variable rt : Runtime.

Lemma non_finite_filled (l : list (option float64)) :
  existsb is_infinite l = false ->
  existsb non_finite
    (map (fun c => match c with None => F64.of_Z 0 | _ => c end) l) = false.
Proof.
  induction l as [|[x|] l IH]; simpl; [reflexivity| |exact IH].
  intros H. apply orb_false_iff in H. destruct H as [-> H]. simpl. auto.
Qed.

Lemma non_finite_present (l : list (option float64)) :
  existsb is_none l = false -> existsb is_infinite l = false ->
  existsb non_finite l = false.
Proof.
  induction l as [|[x|] l IH]; simpl; [reflexivity| |discriminate].
  intros Hn H. apply orb_false_iff in H. destruct H as [-> H]. simpl. auto.
Qed.

(** Filling with 0 and casting a numeric column without an infinity
    gives the integers of [zero_filled_ints]. *)
Lemma astype_int_fillna_numeric (s : Series) :
  is_number s = true -> no_infinity s ->
  astype_int (fillna (OInt 0) s) = Ok (IntCol (zero_filled_ints s)).
Proof.
  destruct s; try discriminate; intros _ Hfin; [reflexivity|].
  unfold no_infinity in Hfin. simpl in Hfin.
  simpl. destruct (existsb is_none l) eqn:E; simpl.
  - rewrite (non_finite_filled l Hfin), map_map. do 2 f_equal.
    apply map_ext. now intros [q|].
  - rewrite (non_finite_present l E Hfin). do 2 f_equal.
    apply map_ext_in. intros [q|] Hq; [reflexivity|].
    assert (existsb is_none l = true) by (apply existsb_exists; eauto). congruence.
Qed.

(** An infinity makes the cast raise. *)
Lemma astype_int_fillna_infinite (s : Series) :
  has_infinity s = true -> astype_int (fillna (OInt 0) s) = Raise ValueError.
Proof.
  destruct s; try discriminate. simpl. intros H.
  apply existsb_exists in H. destruct H as ([x|] & Hin & Hx); [|discriminate].
  assert (Hnf : forall l', In (Some x) l' -> existsb non_finite l' = true).
  { intros l' H'. apply existsb_exists. eauto. }
  destruct (existsb is_none l); simpl.
  - rewrite Hnf; [reflexivity|]. apply in_map_iff. exists (Some x). auto.
  - now rewrite Hnf.
Qed.



End Casts.



(** Text that is not a number makes [astype(int)] raise; the dashboard's
    cleaner, which goes through [to_numeric], gives 0. *)
Lemma clean_artists_raises_on_text_followers :
  Cleaner.clean_artists Example.stable artists_text_followers = Raise ValueError /\
  (r <- App.clean_artists Example.stable artists_text_followers ;;
   getitem "followers" r) = Ok (IntCol [0; 20]).
Proof. split; reflexivity. Qed.

(* ================================================================== *)
(** * Numeric columns after cleaning *)

Section NumericColumns.

Variable rt : Runtime.

Lemma lookup_map_inv (f : Series -> Series) (n : string) (cs : list (string * Series))
      (s : Series) :
  lookup n (map (fun c => (fst c, f (snd c))) cs) = Some s ->
  exists s0, lookup n cs = Some s0 /\ s = f s0.
Proof.
  rewrite lookup_map. destruct (lookup n cs) as [s0|]; simpl; [|discriminate].
  intros [= <-]. eauto.
Qed.


Lemma getitem_fill_inv (n : string) (df : DataFrame) (s : Series) :
  getitem n (fill_numeric_with_median rt df) = Ok s ->
  exists s0, getitem n df = Ok s0 /\
             s = if is_number s0 then fillna_median rt s0 else s0.
Proof.
  rewrite getitem_ok. unfold fill_numeric_with_median. simpl. intros H.
  apply (lookup_map_inv (fun s => if is_number s then fillna_median rt s else s)) in H.
  destruct H as (s0 & H & ->). exists s0. now rewrite getitem_ok.
Qed.



Hypothesis permutes : partition_permutes (sorted_floats rt).










End NumericColumns.



(* ================================================================== *)
(** * Sorted lists *)

Lemma Sorted_map {A B} (R : A -> A -> Prop) (R' : B -> B -> Prop) (P : A -> Prop)
      (f : A -> B) (l : list A) :
  (forall a b, P a -> P b -> R a b -> R' (f a) (f b)) ->
  Forall P l -> Sorted R l -> Sorted R' (map f l).
Proof.
  intros Hf HP H. induction H as [|a l Hl IH Hhd]; simpl; [constructor|].
  inversion HP as [|? ? Pa Pl]; subst.
  constructor; [now apply IH|].
  destruct Hhd as [|b l Hab]; simpl; constructor.
  inversion Pl; subst. now apply Hf.
Qed.

Lemma Sorted_weaken {A} (R R' : A -> A -> Prop) (P : A -> Prop) (l : list A) :
  (forall a b, P a -> P b -> R a b -> R' a b) ->
  Forall P l -> Sorted R l -> Sorted R' l.
Proof.
  intros HR HP H. rewrite <- (map_id l). now apply (Sorted_map R R' P (fun a => a)).
Qed.

Lemma StronglySorted_app {A} (R : A -> A -> Prop) (l1 l2 : list A) :
  StronglySorted R l1 -> StronglySorted R l2 ->
  (forall a b, In a l1 -> In b l2 -> R a b) ->
  StronglySorted R (l1 ++ l2).
Proof.
  intros H1 H2 H12. induction H1 as [|a l1 Hl1 IH Ha]; simpl; [exact H2|].
  constructor.
  - apply IH. intros x y Hx Hy. apply H12; [now right | exact Hy].
  - apply Forall_app. split; [exact Ha|].
    apply Forall_forall. intros y Hy. apply H12; [now left | exact Hy].
Qed.

Lemma StronglySorted_rev {A} (R : A -> A -> Prop) (l : list A) :
  StronglySorted R l -> StronglySorted (fun a b => R b a) (rev l).
Proof.
  induction 1 as [|a l Hl IH Ha]; simpl; [constructor|].
  apply StronglySorted_app; [exact IH | repeat constructor|].
  intros x y Hx [<-|[]]. rewrite Forall_forall in Ha. apply Ha.
  now apply in_rev.
Qed.

(** Reversing a sorted list sorts it the other way round. *)
Lemma Sorted_rev {A} (R : A -> A -> Prop) (l : list A) :
  (forall a b c, R a b -> R b c -> R a c) ->
  Sorted R l -> Sorted (fun a b => R b a) (rev l).
Proof.
  intros Htrans H. apply StronglySorted_Sorted, StronglySorted_rev.
  apply Sorted_StronglySorted; [exact Htrans | exact H].
Qed.

(* ================================================================== *)
(** * The example runtime sorts *)

Module ExampleFacts.

Import Example.

Section InsertionSort.

Variable before : Z -> Z -> bool.
Hypothesis before_le : forall a b, before a b = true -> a <= b.
Hypothesis before_ge : forall a b, before a b = false -> b <= a.

Lemma insert_by_perm (k : Z) (i : nat) (l : list (Z * nat)) :
  Permutation (insert_by before k i l) ((k, i) :: l).
Proof.
  induction l as [|[k' j] l IH]; simpl; [reflexivity|].
  destruct (before k k'); [reflexivity|].
  rewrite IH. apply perm_swap.
Qed.

Lemma sort_by_perm (l : list (Z * nat)) : Permutation (sort_by before l) l.
Proof.
  induction l as [|[k i] l IH]; simpl; [reflexivity|].
  rewrite insert_by_perm. now apply perm_skip.
Qed.

Lemma insert_by_sorted (k : Z) (i : nat) (l : list (Z * nat)) :
  Sorted (fun p q => fst p <= fst q) l ->
  Sorted (fun p q => fst p <= fst q) (insert_by before k i l).
Proof.
  induction 1 as [|[k' j] l Hl IH Hhd]; simpl.
  - repeat constructor.
  - destruct (before k k') eqn:E.
    + constructor; [now constructor|]. constructor. simpl. now apply before_le.
    + constructor; [exact IH|].
      destruct l as [|[k2 j2] l]; simpl.
      * constructor. simpl. now apply before_ge.
      * inversion Hhd; subst. destruct (before k k2); constructor; simpl; auto.
Qed.

Lemma sort_by_sorted (l : list (Z * nat)) :
  Sorted (fun p q => fst p <= fst q) (sort_by before l).
Proof.
  induction l as [|[k i] l IH]; simpl; [constructor|].
  now apply insert_by_sorted.
Qed.

End InsertionSort.

Lemma combine_seq_lookup (keys : list Z) (start : nat) :
  Forall (fun p => (start <= snd p)%nat /\ nth_error keys (snd p - start) = Some (fst p))
         (combine keys (seq start (length keys))).
Proof.
  revert start. induction keys as [|k keys IH]; intros start; simpl; [constructor|].
  constructor.
  - simpl. split; [lia|]. now rewrite Nat.sub_diag.
  - eapply Forall_impl; [|apply (IH (S start))]. simpl. intros [k' j] [Hj Hk]. simpl in *.
    split; [lia|]. replace (j - start)%nat with (S (j - S start)) by lia. exact Hk.
Qed.

Lemma take_snd_fst (keys : list Z) (l : list (Z * nat)) :
  Forall (fun p => nth_error keys (snd p) = Some (fst p)) l ->
  take (map snd l) keys = map fst l.
Proof.
  induction 1 as [|[k i] l Hk _ IH]; [reflexivity|].
  simpl map. rewrite take_cons, IH. simpl in Hk. now rewrite Hk.
Qed.

Lemma map_snd_combine_seq (keys : list Z) (start : nat) :
  map snd (combine keys (seq start (length keys))) = seq start (length keys).
Proof.
  revert start. induction keys as [|k keys IH]; intros start; simpl; [reflexivity|].
  now rewrite IH.
Qed.

Lemma paired (before : Z -> Z -> bool) (keys : list Z) :
  Forall (fun p => nth_error keys (snd p) = Some (fst p))
         (sort_by before (combine keys (seq 0 (length keys)))).
Proof.
  assert (H : Forall (fun p => nth_error keys (snd p) = Some (fst p))
                     (combine keys (seq 0 (length keys)))).
  { eapply Forall_impl; [|apply (combine_seq_lookup keys 0)]. simpl.
    intros p [_ Hp]. now rewrite Nat.sub_0_r in Hp. }
  rewrite Forall_forall in *. intros p Hp. apply H.
  eapply Permutation_in; [apply sort_by_perm | exact Hp].
Qed.

(** Insertion sort meets the contract of [argsort], whichever way it
    breaks ties. *)
Lemma argsort_by_sorts (before : Z -> Z -> bool) :
  (forall a b, before a b = true -> a <= b) ->
  (forall a b, before a b = false -> b <= a) ->
  argsort_sorts (argsort_by before).
Proof.
  intros Hle Hge keys. unfold argsort_by. split.
  - eapply Permutation_trans; [apply Permutation_map, sort_by_perm|].
    now rewrite map_snd_combine_seq.
  - rewrite (take_snd_fst keys _ (paired before keys)).
    apply (Sorted_map (fun p q => fst p <= fst q) Z.le (fun _ => True) fst).
    + auto.
    + apply Forall_forall. auto.
    + now apply sort_by_sorted.
Qed.

Lemma stable_sorts : argsort_sorts (argsort stable).
Proof.
  apply argsort_by_sorts; intros a b H.
  - now apply Z.leb_le.
  - apply Z.leb_gt in H. lia.
Qed.

(** *** Stability of the insertion sort with [<=] *)

Lemma insert_leb_lex (k : Z) (i : nat) (l : list (Z * nat)) :
  Forall (fun p => (i < snd p)%nat) l ->
  Sorted lex l -> Sorted lex (insert_by Z.leb k i l).
Proof.
  intros Hpos H. induction H as [|[k' j] l Hl IH Hhd]; simpl.
  - repeat constructor.
  - inversion Hpos as [|? ? Hj Hpos']; subst. simpl in Hj.
    destruct (Z.leb k k') eqn:E.
    + constructor; [now constructor|]. constructor. unfold lex. simpl.
      apply Z.leb_le in E. lia.
    + apply Z.leb_gt in E. constructor; [now apply IH|].
      destruct l as [|[k2 j2] l]; simpl.
      * constructor. unfold lex. simpl. lia.
      * inversion Hhd; subst. destruct (Z.leb k k2); constructor; auto.
        unfold lex. simpl. lia.
Qed.

Lemma sort_leb_lex (keys : list Z) (start : nat) :
  Sorted lex (sort_by Z.leb (combine keys (seq start (length keys)))).
Proof.
  revert start. induction keys as [|k keys IH]; intros start; simpl; [constructor|].
  apply insert_leb_lex; [|apply IH].
  apply Forall_forall. intros p Hp.
  apply (Permutation_in _ (sort_by_perm Z.leb _)) in Hp.
  pose proof (combine_seq_lookup keys (S start)) as H.
  rewrite Forall_forall in H. specialize (H p Hp). lia.
Qed.

Lemma stable_is_stable : argsort_stable (argsort stable).
Proof.
  intros keys. simpl. unfold argsort_by.
  apply (Sorted_map lex _ (fun p => nth_error keys (snd p) = Some (fst p)) snd).
  - intros [k i] [k' j] Hp Hq. simpl in *. unfold lex. simpl.
    now rewrite (nth_error_nth _ _ 0 Hp), (nth_error_nth _ _ 0 Hq).
  - apply paired.
  - apply sort_leb_lex.
Qed.

End ExampleFacts.

(* ================================================================== *)
(** * Sorting in descending order *)

Section Descending.

Variable rt : Runtime.
Hypothesis sorts : argsort_sorts (argsort rt).

Lemma Permutation_in_range (ix : list nat) (n : nat) :
  Permutation ix (seq 0 n) -> Forall (fun i => (i < n)%nat) ix.
Proof.
  intros H. apply Forall_forall. intros i Hi.
  apply (Permutation_in _ H), in_seq in Hi. lia.
Qed.

Lemma argsort_in_range (keys : list Z) :
  Forall (fun i => (i < length keys)%nat) (argsort rt keys).
Proof. apply Permutation_in_range, sorts. Qed.

Lemma nargsort_desc_perm (keys : list Z) :
  Permutation (nargsort_desc rt keys) (seq 0 (length keys)).
Proof.
  unfold nargsort_desc. rewrite <- Permutation_rev.
  rewrite (Permutation_rev (seq 0 (length keys))) at 2.
  apply take_perm. rewrite length_rev, length_seq, <- (length_rev keys). apply sorts.
Qed.

Lemma nargsort_desc_in_range (keys : list Z) :
  Forall (fun i => (i < length keys)%nat) (nargsort_desc rt keys).
Proof. apply Permutation_in_range, nargsort_desc_perm. Qed.

Lemma seq_in_range (n : nat) : Forall (fun i => (i < n)%nat) (seq 0 n).
Proof. apply Forall_forall. intros i Hi. apply in_seq in Hi. lia. Qed.

(** The keys in the order [nargsort_desc] gives are those in the order
    [argsort] gives on the reversed keys, reversed. *)
Lemma take_nargsort_desc (keys : list Z) :
  take (nargsort_desc rt keys) keys = rev (take (argsort rt (rev keys)) (rev keys)).
Proof.
  unfold nargsort_desc. rewrite take_rev. f_equal.
  rewrite <- take_take.
  - now rewrite take_rev, take_seq_all.
  - apply Forall_rev, seq_in_range.
Qed.

Lemma nargsort_desc_sorted (keys : list Z) :
  Sorted Z.ge (take (nargsort_desc rt keys) keys).
Proof.
  rewrite take_nargsort_desc.
  apply (Sorted_weaken (fun a b => b <= a) Z.ge (fun _ => True)).
  - intros a b _ _ H. lia.
  - apply Forall_forall. auto.
  - apply (Sorted_rev Z.le); [intros a b c; lia | apply sorts].
Qed.

Lemma nth_rev_seq (n i : nat) :
  (i < n)%nat -> nth i (rev (seq 0 n)) 0%nat = (n - 1 - i)%nat.
Proof.
  intros H. rewrite rev_nth by (rewrite length_seq; lia).
  rewrite length_seq, seq_nth by lia. lia.
Qed.

Lemma nargsort_desc_mirror (keys : list Z) :
  nargsort_desc rt keys
  = rev (map (fun i => (length keys - 1 - i)%nat) (argsort rt (rev keys))).
Proof.
  unfold nargsort_desc. f_equal.
  pose proof (argsort_in_range (rev keys)) as H. rewrite length_rev in H.
  rewrite (take_in_range _ _ 0%nat) by now rewrite length_rev, length_seq.
  apply map_ext_Forall. eapply Forall_impl; [|exact H]. simpl.
  intros i Hi. now apply nth_rev_seq.
Qed.

(** With a stable [argsort], equal keys come out in their original order. *)
Lemma nargsort_desc_stable (keys : list Z) :
  argsort_stable (argsort rt) -> Sorted (desc_stable keys) (nargsort_desc rt keys).
Proof.
  intros Hstable. rewrite nargsort_desc_mirror.
  pose proof (argsort_in_range (rev keys)) as Hrange. rewrite length_rev in Hrange.
  apply (Sorted_rev (fun u v => desc_stable keys v u)).
  { unfold desc_stable. intros a b c. lia. }
  eapply (Sorted_map _ _ (fun i => (i < length keys)%nat));
    [| exact Hrange | apply (Hstable (rev keys))].
  intros i j Hi Hj. unfold desc_stable. simpl.
  rewrite !rev_nth by lia.
  replace (length keys - S i)%nat with (length keys - 1 - i)%nat by lia.
  replace (length keys - S j)%nat with (length keys - 1 - j)%nat by lia.
  lia.
Qed.

End Descending.

(* ================================================================== *)
(** * Masks as sets of positions *)

Lemma nonzero_from_map {A} (f : A -> bool) (d : A) (l : list A) (s : nat) :
  nonzero_from s (map f l)
  = filter (fun i => f (nth (i - s) l d)) (seq s (length l)).
Proof.
  revert s. induction l as [|a l IH]; intros s; [reflexivity|].
  simpl. rewrite Nat.sub_diag. rewrite IH.
  assert (E : filter (fun i => f (nth (i - S s) l d)) (seq (S s) (length l))
              = filter (fun i => f match (i - s)%nat with O => a | S m => nth m l d end)
                       (seq (S s) (length l))).
  { apply filter_ext_in. intros i Hi. apply in_seq in Hi.
    replace (i - s)%nat with (S (i - S s)) by lia. reflexivity. }
  rewrite E. now destruct (f a).
Qed.

(** The positions a mask keeps are those whose value passes the test. *)
Lemma nonzero_map {A} (f : A -> bool) (d : A) (l : list A) :
  nonzero (map f l) = filter (fun i => f (nth i l d)) (seq 0 (length l)).
Proof.
  unfold nonzero. rewrite (nonzero_from_map f d l 0).
  apply filter_ext. intros i. now rewrite Nat.sub_0_r.
Qed.

Lemma nonzero_from_increasing (s : nat) (mask : list bool) :
  StronglySorted lt (nonzero_from s mask).
Proof.
  revert s. induction mask as [|b mask IH]; intros s; simpl; [constructor|].
  destruct b; [|apply IH]. constructor; [apply IH|].
  eapply Forall_impl; [|apply (nonzero_from_bound (S s) mask)]. simpl. intros; lia.
Qed.

Lemma StronglySorted_nth {A} (R : A -> A -> Prop) (d : A) (l : list A) (u v : nat) :
  StronglySorted R l -> (u < v)%nat -> (v < length l)%nat ->
  R (nth u l d) (nth v l d).
Proof.
  intros H. revert u v. induction H as [|a l Hl IH Ha]; intros u v Huv Hv.
  - simpl in Hv. lia.
  - destruct v as [|v]; [lia|]. simpl in Hv. destruct u as [|u]; simpl.
    + rewrite Forall_forall in Ha. apply Ha, nth_In. lia.
    + apply IH; lia.
Qed.

Lemma take_head_seq {A} (n : Z) (l : list A) :
  take (head n (seq 0 (length l))) l = head n l.
Proof.
  unfold head. rewrite length_seq.
  destruct (0 <=? n); rewrite take_firstn, take_seq_all by apply seq_in_range;
    reflexivity.
Qed.

Lemma series_take_take (ix jx : list nat) (s : Series) :
  Forall (fun j => (j < series_length s)%nat) jx ->
  series_take ix (series_take jx s) = series_take (take ix jx) s.
Proof. intros H. destruct s; simpl in *; f_equal; now apply take_take. Qed.

Lemma df_take_take (ix jx : list nat) (df : DataFrame) :
  rectangular df -> Forall (fun j => (j < nrows df)%nat) jx ->
  df_take ix (df_take jx df) = df_take (take ix jx) df.
Proof.
  intros Hrect Hjx. unfold df_take. simpl. f_equal.
  - now apply series_take_take.
  - rewrite map_map. apply map_ext_Forall. eapply Forall_impl; [|exact Hrect].
    simpl. intros [n s] Hs. simpl in *. f_equal.
    apply series_take_take. now rewrite Hs.
Qed.

Lemma nrows_df_take (ix : list nat) (df : DataFrame) :
  Forall (fun i => (i < nrows df)%nat) ix -> nrows (df_take ix df) = length ix.
Proof. intros H. unfold nrows, df_take. simpl. now apply series_length_take. Qed.

Lemma has_column_getitem (n : string) (df : DataFrame) (s : Series) :
  getitem n df = Ok s -> has_column n df = true.
Proof.
  intros H. destruct (has_column n df) eqn:E; [reflexivity|].
  apply has_column_false in E. apply getitem_ok in H. congruence.
Qed.

(* ================================================================== *)
(** * Top tracks *)

Section TopTracks.

Variable rt : Runtime.

Lemma is_number_to_numeric (s q : Series) :
  to_numeric rt s = Ok q -> is_number q = true.
Proof.
  destruct s; simpl; try (intros [= <-]; reflexivity).
  destruct (_ || _); [discriminate|].
  destruct (forallb _ _); intros [= <-]; reflexivity.
Qed.

Lemma length_zero_filled_ints (s : Series) :
  is_number s = true -> length (zero_filled_ints s) = series_length s.
Proof. destruct s; try discriminate; intros _; simpl; now rewrite ?length_map. Qed.

Lemma length_somes_all {A} (l : list (option A)) :
  forallb is_some l = true -> length (somes l) = length l.
Proof.
  induction l as [|[a|] l IH]; simpl; try discriminate; [reflexivity|].
  intros H. f_equal. auto.
Qed.

Lemma series_length_to_numeric (s q : Series) :
  to_numeric rt s = Ok q -> series_length q = series_length s.
Proof.
  destruct s; simpl; try (intros [= <-]; simpl; now rewrite ?length_map).
  destruct (_ || _); [discriminate|].
  destruct (forallb _ _) eqn:E; intros [= <-]; simpl.
  - now rewrite (length_somes_all _ E), length_map.
  - now rewrite length_map.
Qed.

(** The key of a ranking is an int64 column as long as the column it is
    read from. *)
Lemma coerce_int_length (s : Series) (l : list Z) :
  coerce_int rt s = Ok (IntCol l) -> length l = series_length s.
Proof.
  unfold coerce_int. intros H. bind_inv H.
  destruct (astype_int_IntCol _ _ H) as (l' & [= <-] & Hlen).
  now rewrite Hlen, series_length_fillna, (series_length_to_numeric _ _ E).
Qed.

(** When the cast returns: when what [to_numeric] reads holds no
    infinity. *)
Lemma coerce_int_reads (s q : Series) :
  to_numeric rt s = Ok q ->
  (no_infinity q -> coerce_int rt s = Ok (IntCol (zero_filled_ints q))) /\
  (has_infinity q = true -> coerce_int rt s = Raise ValueError).
Proof.
  intros E. unfold coerce_int. rewrite E. cbn [bind]. split.
  - apply astype_int_fillna_numeric. eapply is_number_to_numeric; eauto.
  - apply astype_int_fillna_infinite.
Qed.

(** The rows [get_top_popular_tracks] returns: those above the
    threshold, in descending order of popularity, the first [top_n]. *)
Lemma top_tracks_order
        (tracks : DataFrame) (p : Series) (pops : list Z) (threshold top_n : Z) :
  argsort_sorts (argsort rt) ->
  wf tracks = true ->
  getitem "popularity" tracks = Ok p ->
  coerce_int rt p = Ok (IntCol pops) ->
  exists order,
    Analyzer.get_top_popular_tracks rt tracks (Some threshold) top_n
    = Ok (df_take (head top_n order) (setitem "popularity" (IntCol pops) tracks)) /\
    Permutation order
      (filter (fun i => threshold <? nth i pops 0) (seq 0 (nrows tracks))) /\
    Sorted Z.ge (map (fun i => nth i pops 0) order) /\
    (argsort_stable (argsort rt) -> Sorted (desc_stable pops) order).
Proof.
  intros Hsorts Hwf Hp Hc. apply wf_rectangular in Hwf.
  pose proof (coerce_int_length p pops Hc) as Hlen.
  rewrite (rectangular_getitem _ _ _ Hwf Hp) in Hlen.
  set (mask := map (fun z => threshold <? z) pops).
  set (nz := nonzero mask).
  set (keys := take nz pops).
  set (df := setitem "popularity" (IntCol pops) tracks).
  assert (Hrect : rectangular df) by now apply rectangular_setitem.
  assert (Hnz : Forall (fun i => (i < length pops)%nat) nz).
  { unfold nz, mask. rewrite <- (length_map (fun z => threshold <? z) pops).
    apply nonzero_bound. }
  assert (Hkeys : length keys = length nz) by now apply length_take.
  assert (Hord : Forall (fun i => (i < length nz)%nat) (nargsort_desc rt keys)).
  { rewrite <- Hkeys. now apply nargsort_desc_in_range. }
  exists (take (nargsort_desc rt keys) nz).
  assert (Hin : Forall (fun i => (i < length pops)%nat) (take (nargsort_desc rt keys) nz))
    by now apply Forall_take.
  split; [|split; [|split]].
  - unfold Analyzer.get_top_popular_tracks.
    rewrite (has_column_getitem _ _ _ Hp). simpl negb. cbv iota.
    rewrite Hp. bind_step.
    unfold coerce_int in Hc. bind_inv Hc. rewrite E. bind_step.
    rewrite Hc. bind_step. fold df.
    assert (Hget : getitem "popularity" df = Ok (IntCol pops))
      by apply getitem_setitem_same.
    rewrite Hget. bind_step. simpl gt_scalar. bind_step. bind_step.
    fold mask. unfold df_filter. fold nz. unfold sort_values_desc.
    rewrite (getitem_df_take nz "popularity" df (IntCol pops) Hget).
    bind_step. simpl series_take. cbv iota. fold keys. bind_step.
    unfold df_head.
    assert (Hnz' : Forall (fun i => (i < nrows df)%nat) nz).
    { change (nrows df) with (nrows tracks). now rewrite <- Hlen. }
    assert (Hin' : Forall (fun i => (i < nrows df)%nat) (take (nargsort_desc rt keys) nz))
      by now apply Forall_take.
    rewrite (df_take_take _ nz df Hrect Hnz').
    rewrite (df_take_take _ _ df Hrect Hin').
    rewrite (nrows_df_take _ df Hin').
    now rewrite take_head_seq.
  - assert (Hnzeq : nz = filter (fun i => threshold <? nth i pops 0) (seq 0 (length pops)))
      by apply (nonzero_map (fun z => threshold <? z) 0 pops).
    rewrite <- Hlen, <- Hnzeq.
    apply take_perm. rewrite <- Hkeys. now apply nargsort_desc_perm.
  - rewrite <- (take_in_range _ pops 0 Hin).
    rewrite <- take_take by exact Hnz. fold keys.
    now apply nargsort_desc_sorted.
  - intros Hstable.
    rewrite (take_in_range _ nz 0%nat Hord).
    eapply (Sorted_map _ _ (fun u => (u < length nz)%nat));
      [| exact Hord | apply (nargsort_desc_stable rt Hsorts keys Hstable)].
    intros u v Hu Hv. unfold desc_stable, keys.
    rewrite (take_in_range nz pops 0 Hnz).
    rewrite !(nth_indep (map _ nz) 0 (nth 0%nat pops 0)) by now rewrite length_map.
    rewrite !(map_nth (fun i => nth i pops 0) nz 0%nat).
    intros [H|[H Huv]]; [now left | right; split; [exact H|]].
    apply (StronglySorted_nth lt 0%nat nz u v); [apply nonzero_from_increasing | lia | lia].
Qed.

(** If the cast raises, so does the ranking. *)
Lemma top_tracks_raises
      (tracks : DataFrame) (p : Series) (threshold : option Z) (top_n : Z) (e : exn) :
  getitem "popularity" tracks = Ok p ->
  coerce_int rt p = Raise e ->
  Analyzer.get_top_popular_tracks rt tracks threshold top_n = Raise e.
Proof.
  intros Hp Hc. unfold Analyzer.get_top_popular_tracks.
  rewrite (has_column_getitem _ _ _ Hp). simpl negb. cbv iota.
  rewrite Hp. bind_step. unfold coerce_int in Hc.
  destruct (to_numeric rt p) as [q|e'] eqn:E; cbn [bind] in *.
  - now rewrite Hc.
  - congruence.
Qed.

Lemma Permutation_three {A} (l : list A) (a b c : A) :
  Permutation l [a; b; c] ->
  l = [a; b; c] \/ l = [a; c; b] \/ l = [b; a; c] \/
  l = [b; c; a] \/ l = [c; a; b] \/ l = [c; b; a].
Proof.
  intros H. pose proof (Permutation_length H) as Hlen.
  destruct l as [|x [|y [|z [|w l]]]]; try discriminate.
  assert (Hx : In x [a; b; c]) by (apply (Permutation_in _ H); now left).
  assert (Hy : In y [a; b; c]) by (apply (Permutation_in _ H); right; now left).
  assert (Hz : In z [a; b; c]) by (apply (Permutation_in _ H); right; right; now left).
  simpl in Hx, Hy, Hz.
  destruct Hx as [<-|[<-|[<-|[]]]].
  - apply Permutation_cons_inv in H. apply Permutation_length_2_inv in H.
    destruct H as [[= <- <-]|[= <- <-]]; tauto.
  - apply Permutation_sym in H.
    apply (Permutation_trans (perm_swap a b [c])) in H.
    apply Permutation_cons_inv, Permutation_sym, Permutation_length_2_inv in H.
    destruct H as [[= <- <-]|[= <- <-]]; tauto.
  - apply Permutation_sym in H.
    assert (P : Permutation [a; b; c] (c :: [a; b])).
    { apply Permutation_sym. apply (Permutation_cons_append [a; b] c). }
    apply Permutation_sym in P. apply (Permutation_trans P) in H.
    apply Permutation_cons_inv, Permutation_sym, Permutation_length_2_inv in H.
    destruct H as [[= <- <-]|[= <- <-]]; tauto.
Qed.

(** C3 (corrected): the rows whose popularity, cast to int, is
    strictly greater than the threshold, in descending order of
    popularity, cut to the first [top_n]; the cast is the one of
    [coerce_int], and when it raises the ranking raises.  The order of
    rows with equal popularity is the one the library's [argsort] of kind
    'quicksort' gives: the original order if that sort is stable, which
    the kind does not promise.  On the popularities 95, 90, 92, 88, 95 and
    the threshold 90: the two 95-rows, then the 92-row; the first 95-row
    first if the sort is stable. *)
Theorem get_top_popular_tracks_sorted_filter
        (tracks : DataFrame) (p : Series) (threshold top_n : Z) :
  argsort_sorts (argsort rt) ->
  wf tracks = true ->
  getitem "popularity" tracks = Ok p ->
  (forall e, coerce_int rt p = Raise e ->
     Analyzer.get_top_popular_tracks rt tracks (Some threshold) top_n = Raise e) /\
  (forall pops, coerce_int rt p = Ok (IntCol pops) ->
     exists order,
       Analyzer.get_top_popular_tracks rt tracks (Some threshold) top_n
       = Ok (df_take (head top_n order) (setitem "popularity" (IntCol pops) tracks)) /\
       Permutation order
         (filter (fun i => threshold <? nth i pops 0) (seq 0 (nrows tracks))) /\
       Sorted Z.ge (map (fun i => nth i pops 0) order) /\
       (argsort_stable (argsort rt) -> Sorted (desc_stable pops) order)) /\
  (forall q, to_numeric rt p = Ok q ->
     (no_infinity q -> coerce_int rt p = Ok (IntCol (zero_filled_ints q))) /\
     (has_infinity q = true -> coerce_int rt p = Raise ValueError)) /\
  (exists first second,
     Analyzer.get_top_popular_tracks rt five_tracks (Some 90) 10
     = Ok (df_take [first; second; 2%nat] five_tracks) /\
     ((first = 0 /\ second = 4) \/ (first = 4 /\ second = 0))%nat /\
     (argsort_stable (argsort rt) -> first = 0%nat /\ second = 4%nat)).
Proof.
  intros Hsorts Hwf Hp. split; [|split; [|split]].
  - intros e He. now apply (top_tracks_raises tracks p).
  - intros pops Hc. now apply (top_tracks_order tracks p).
  - intros q. apply coerce_int_reads.
  - destruct (top_tracks_order five_tracks (IntCol [95; 90; 92; 88; 95])
                [95; 90; 92; 88; 95] 90 10 Hsorts eq_refl eq_refl eq_refl)
      as (order & Hres & Hperm & Hsorted & Hstable).
    change (filter _ (seq 0 (nrows five_tracks))) with [0; 2; 4]%nat in Hperm.
    apply Permutation_three in Hperm.
    destruct Hperm as [-> | [-> | [-> | [-> | [-> | ->]]]]]; simpl in Hsorted.
    + exfalso. inversion Hsorted as [|? ? Htl _]. inversion Htl as [|? ? _ Hhd].
      inversion Hhd. lia.
    + exists 0%nat, 4%nat. split; [exact Hres|]. split; [now left | auto].
    + exfalso. inversion Hsorted as [|? ? _ Hhd]. inversion Hhd. lia.
    + exfalso. inversion Hsorted as [|? ? _ Hhd]. inversion Hhd. lia.
    + exists 4%nat, 0%nat. split; [exact Hres|]. split; [now right|].
      intros Hst. specialize (Hstable Hst). exfalso.
      inversion Hstable as [|? ? _ Hhd]. inversion Hhd as [|? ? Hrel].
      unfold desc_stable in Hrel. simpl in Hrel. lia.
    + exfalso. inversion Hsorted as [|? ? Htl _]. inversion Htl as [|? ? _ Hhd].
      inversion Hhd. lia.
Qed.

End TopTracks.

Lemma get_top_popular_tracks_sorted_filter_witness :
  exists order,
    Analyzer.get_top_popular_tracks Example.stable five_tracks (Some 90) 10
    = Ok (df_take (head 10 order)
            (setitem "popularity" (IntCol [95; 90; 92; 88; 95]) five_tracks)) /\
    Permutation order
      (filter (fun i => 90 <? nth i [95; 90; 92; 88; 95] 0) (seq 0 (nrows five_tracks))) /\
    Sorted Z.ge (map (fun i => nth i [95; 90; 92; 88; 95] 0) order) /\
    (argsort_stable (argsort Example.stable) ->
     Sorted (desc_stable [95; 90; 92; 88; 95]) order).
Proof.
  exact (proj1 (proj2 (get_top_popular_tracks_sorted_filter Example.stable five_tracks
                         (IntCol [95; 90; 92; 88; 95]) 90 10
                         ExampleFacts.stable_sorts eq_refl eq_refl))
           [95; 90; 92; 88; 95] eq_refl).
Defined.

(** The specification's example under a stable sort, and under the
    network numpy applies to so short an array: the first 95-row, the
    second 95-row, the 92-row. *)
Lemma five_tracks_stable :
  Analyzer.get_top_popular_tracks Example.stable five_tracks (Some 90) 10
  = Ok (df_take [0; 4; 2]%nat five_tracks) /\
  Analyzer.get_top_popular_tracks Simd.runtime five_tracks (Some 90) 10
  = Ok (df_take [0; 4; 2]%nat five_tracks).
Proof. split; reflexivity. Qed.

(** C3 as stated fails: on the popularities 91, 91, 93, 92 the network
    returns the second 91-row before the first. *)
Lemma four_tracks_ties_not_in_original_order :
  Analyzer.get_top_popular_tracks Simd.runtime four_tracks (Some 90) 10
  = Ok (df_take [2; 3; 1; 0]%nat four_tracks).
Proof. reflexivity. Qed.

(* ================================================================== *)
(** * Counting values *)

Lemma select_not_duplicated_In (seen l : list string) (k : string) :
  In k (select (map negb (duplicated_from String.eqb seen l)) l)
  <-> In k l /\ ~ In k seen.
Proof.
  revert seen. induction l as [|a l IH]; intros seen; simpl.
  - tauto.
  - destruct (existsb (String.eqb a) seen) eqn:E; simpl.
    + rewrite IH. simpl. apply existsb_exists in E. destruct E as (x & Hx & Hax).
      apply String.eqb_eq in Hax. subst x. split.
      * intros [Hk Hn]. split; [now right | tauto].
      * intros [[<-|Hk] Hn]; [contradiction|].
        split; [exact Hk | intros [<-|H]; contradiction].
    + rewrite IH. simpl.
      assert (Ha : ~ In a seen).
      { intros Ha. assert (existsb (String.eqb a) seen = true).
        { apply existsb_exists. exists a. split; [exact Ha | apply String.eqb_refl]. }
        congruence. }
      destruct (String.eqb a k) eqn:Eak.
      * apply String.eqb_eq in Eak. subst k.
        split; [intros _; split; [now left | exact Ha] | intros _; now left].
      * apply String.eqb_neq in Eak. tauto.
Qed.

Lemma select_not_duplicated_NoDup (seen l : list string) :
  NoDup (select (map negb (duplicated_from String.eqb seen l)) l).
Proof.
  revert seen. induction l as [|a l IH]; intros seen; simpl; [constructor|].
  destruct (existsb (String.eqb a) seen); simpl; [apply IH|].
  constructor; [|apply IH].
  rewrite select_not_duplicated_In. simpl. tauto.
Qed.

Lemma unique_select (l : list string) :
  unique l = select (map negb (duplicated String.eqb l)) l.
Proof. apply take_nonzero. Qed.

Lemma unique_In (l : list string) (k : string) : In k (unique l) <-> In k l.
Proof.
  rewrite unique_select. unfold duplicated. rewrite select_not_duplicated_In.
  simpl. tauto.
Qed.

Lemma unique_NoDup (l : list string) : NoDup (unique l).
Proof. rewrite unique_select. apply select_not_duplicated_NoDup. Qed.

Section ValueCounts.

Variable rt : Runtime.
Hypothesis sorts : argsort_sorts (argsort rt).

Lemma combine_map_self {A B} (f : A -> B) (l : list A) :
  combine l (map f l) = map (fun a => (a, f a)) l.
Proof. induction l as [|a l IH]; simpl; congruence. Qed.

(** The table of counts before it is sorted. *)
Lemma value_counts_perm (l : list string) :
  Permutation (value_counts_str rt l) (map (fun k => (k, count k l)) (unique l)).
Proof.
  unfold value_counts_str. rewrite combine_map_self.
  apply take_perm. rewrite length_map.
  rewrite <- (length_map (fun k => count k l) (unique l)).
  now apply nargsort_desc_perm.
Qed.

Lemma value_counts_In (l : list string) (k : string) (c : Z) :
  In (k, c) (value_counts_str rt l) <-> In k l /\ c = count k l.
Proof.
  split.
  - intros H. apply (Permutation_in _ (value_counts_perm l)) in H.
    apply in_map_iff in H. destruct H as (k' & [= <- <-] & Hk).
    now rewrite <- unique_In.
  - intros [Hk ->]. apply (Permutation_in _ (Permutation_sym (value_counts_perm l))).
    apply in_map_iff. exists k. now rewrite unique_In.
Qed.

Lemma value_counts_NoDup (l : list string) : NoDup (map fst (value_counts_str rt l)).
Proof.
  eapply Permutation_NoDup.
  - apply Permutation_map, Permutation_sym, value_counts_perm.
  - rewrite map_map. simpl. rewrite map_id. apply unique_NoDup.
Qed.

Lemma value_counts_sorted (l : list string) :
  Sorted Z.ge (map snd (value_counts_str rt l)).
Proof.
  unfold value_counts_str. rewrite <- take_map, combine_map_self, map_map. simpl.
  now apply nargsort_desc_sorted.
Qed.

End ValueCounts.

(* ================================================================== *)
(** * Genres *)

Lemma mapM_total {A B} (f : A -> result B) (l : list A) :
  (forall a, In a l -> exists b, f a = Ok b) -> exists bs, mapM f l = Ok bs.
Proof.
  induction l as [|a l IH]; intros H; simpl; [eauto|].
  destruct (H a (or_introl eq_refl)) as (b & ->).
  destruct IH as (bs & ->); [intros x Hx; apply H; now right|].
  simpl. eauto.
Qed.

Lemma mapM_map {A B} (f : A -> result B) (g : A -> B) (l : list A) :
  Forall (fun a => f a = Ok (g a)) l -> mapM f l = Ok (map g l).
Proof.
  induction 1 as [|a l Ha _ IH]; simpl; [reflexivity|].
  now rewrite Ha, IH.
Qed.

Lemma strings_of_text (l : list string) : strings_of (map OStr l) = Some l.
Proof. induction l as [|x l IH]; simpl; [reflexivity | now rewrite IH]. Qed.

Lemma split_genres_pieces (s : string) : Analyzer.split_genres s = map OStr (pieces s).
Proof. unfold Analyzer.split_genres, pieces. now rewrite map_map. Qed.

Lemma concat_map_map {A B} (f : A -> B) (ls : list (list A)) :
  concat (map (map f) ls) = map f (concat ls).
Proof. now rewrite concat_map. Qed.

Section Genres.

Variable rt : Runtime.

Lemma genre_tokens_list (l : list pyobj) : Analyzer.genre_tokens rt (OList l) = Ok l.
Proof. reflexivity. Qed.

Lemma genre_tokens_literal_list (s : string) (l : list pyobj) :
  literal_eval rt s = Ok (LitList l) -> Analyzer.genre_tokens rt (OStr s) = Ok l.
Proof. simpl. now intros ->. Qed.

Lemma genre_tokens_fallback (s : string) :
  recoverable (literal_eval rt s) ->
  (forall l, literal_eval rt s <> Ok (LitList l)) ->
  Analyzer.genre_tokens rt (OStr s) = Ok (Analyzer.split_genres s).
Proof.
  simpl. destruct (literal_eval rt s) as [[l|]|e]; simpl.
  - intros _ H. now destruct (H l).
  - reflexivity.
  - intros [->| ->] _; reflexivity.
Qed.

Lemma genre_tokens_uncaught (s : string) (e : exn) :
  literal_eval rt s = Raise e -> uncaught e ->
  Analyzer.genre_tokens rt (OStr s) = Raise e.
Proof. simpl. intros -> [H1 H2]. now destruct e. Qed.

Lemma genre_tokens_total (val : pyobj) :
  readable rt val -> exists toks, Analyzer.genre_tokens rt val = Ok toks.
Proof.
  destruct val; simpl; eauto.
  destruct (literal_eval rt s) as [[l|]|e]; simpl; eauto.
  intros [->| ->]; eauto.
Qed.

Lemma genre_distribution_value_counts
      (artists : DataFrame) (g : Series) (tokens : list (list pyobj)) :
  getitem "genres" artists = Ok g ->
  mapM (Analyzer.genre_tokens rt) (dropna_values g) = Ok tokens ->
  Analyzer.genre_distribution rt artists = value_counts rt (concat tokens).
Proof.
  intros Hg Htok. unfold Analyzer.genre_distribution.
  rewrite (has_column_getitem _ _ _ Hg). simpl negb. cbv iota.
  rewrite Hg. bind_step. rewrite Htok. now bind_step.
Qed.

(** C8 (corrected): the three ways of reading a genres value in their
    order of precedence, the third only when [ast.literal_eval] returns
    or raises one of the two exceptions that are caught: any other
    exception leaves the function.  When every text of the column can be
    read and the tokens are text (or [None], which is not counted), the
    result is every token with its number of occurrences, once, in
    descending order of that number; on the specification's example pop
    2, rock 2 and jazz 1, jazz last. *)
Theorem genre_distribution_counts_tokens (artists : DataFrame) (g : Series) :
  argsort_sorts (argsort rt) ->
  getitem "genres" artists = Ok g ->
  (forall l, Analyzer.genre_tokens rt (OList l) = Ok l) /\
  (forall s l, literal_eval rt s = Ok (LitList l) ->
               Analyzer.genre_tokens rt (OStr s) = Ok l) /\
  (forall s, recoverable (literal_eval rt s) ->
             (forall l, literal_eval rt s <> Ok (LitList l)) ->
             Analyzer.genre_tokens rt (OStr s) = Ok (map OStr (pieces s))) /\
  (forall s e, literal_eval rt s = Raise e -> uncaught e ->
               Analyzer.genre_tokens rt (OStr s) = Raise e) /\
  (Forall (readable rt) (dropna_values g) ->
   exists tokens,
     mapM (Analyzer.genre_tokens rt) (dropna_values g) = Ok tokens /\
     Analyzer.genre_distribution rt artists = value_counts rt (concat tokens) /\
     forall strs, strings_of (concat tokens) = Some strs ->
       exists dist,
         Analyzer.genre_distribution rt artists = Ok (map text_key dist) /\
         (forall k c, In (k, c) dist <-> In k strs /\ c = count k strs) /\
         NoDup (map fst dist) /\
         Sorted Z.ge (map snd dist)) /\
  (literal_eval rt "['pop','rock']" = Ok (LitList [OStr "pop"; OStr "rock"]) ->
   literal_eval rt "pop, jazz" = Raise ValueError ->
   exists dist,
     Analyzer.genre_distribution rt three_artists = Ok (map text_key dist) /\
     Permutation dist [("pop", 2); ("rock", 2); ("jazz", 1)] /\
     Sorted Z.ge (map snd dist)).
Proof.
  intros Hsorts Hg.
  split; [apply genre_tokens_list|].
  split; [apply genre_tokens_literal_list|].
  split; [intros s Hr Hs; rewrite <- split_genres_pieces; now apply genre_tokens_fallback|].
  split; [apply genre_tokens_uncaught|].
  split.
  - intros Hread.
    destruct (mapM_total (Analyzer.genre_tokens rt) (dropna_values g))
      as (tokens & Htok).
    { intros val Hval. apply genre_tokens_total.
      rewrite Forall_forall in Hread. auto. }
    pose proof (genre_distribution_value_counts artists g tokens Hg Htok) as Hdist.
    exists tokens. split; [exact Htok|]. split; [exact Hdist|].
    intros strs Hstrs. exists (value_counts_str rt strs). split.
    + rewrite Hdist. unfold value_counts. now rewrite Hstrs.
    + split; [intros k c; now apply value_counts_In|].
      split; [now apply value_counts_NoDup | now apply value_counts_sorted].
  - intros H1 H2.
    exists (value_counts_str rt ["pop"; "rock"; "pop"; "jazz"; "rock"]). split.
    + unfold Analyzer.genre_distribution. simpl. now rewrite H1, H2.
    + split; [|now apply value_counts_sorted].
      exact (value_counts_perm rt Hsorts ["pop"; "rock"; "pop"; "jazz"; "rock"]).
Qed.

End Genres.

Lemma genre_distribution_counts_tokens_witness :
  exists dist,
    Analyzer.genre_distribution Example.stable three_artists = Ok (map text_key dist) /\
    Permutation dist [("pop", 2); ("rock", 2); ("jazz", 1)] /\
    Sorted Z.ge (map snd dist).
Proof.
  exact (proj2 (proj2 (proj2 (proj2 (proj2
           (genre_distribution_counts_tokens Example.stable three_artists
              (ObjCol [OStr "['pop','rock']"; OStr "pop, jazz"; OList [OStr "rock"]])
              ExampleFacts.stable_sorts eq_refl)))))
         eq_refl eq_refl).
Defined.

(** With equal counts in order of first appearance, as a stable sort
    leaves them. *)
Lemma three_artists_distribution :
  Analyzer.genre_distribution Example.stable three_artists
  = Ok [(OStr "pop", 2); (OStr "rock", 2); (OStr "jazz", 1)].
Proof. reflexivity. Qed.

(** C8 as stated fails: a text that is no list is not always split at
    its commas.  On a dict with a list as key [ast.literal_eval] raises
    TypeError, which [genre_distribution] does not catch. *)
Lemma genre_distribution_raises_on_unhashable_key :
  literal_eval Example.stable unhashable_key = Raise TypeError /\
  Analyzer.genre_distribution Example.stable artists_dict_genres = Raise TypeError.
Proof. split; reflexivity. Qed.

(** A parsed list holds what its literal holds: the tokens of '[1, 2]'
    are numbers, and a [None] of "[None, 'pop']" is a token that is not
    counted. *)
Lemma genre_tokens_of_other_literals :
  Analyzer.genre_tokens Example.stable (OStr "[1, 2]") = Ok [OInt 1; OInt 2] /\
  Analyzer.genre_distribution Example.stable
    (mkDataFrame (IntCol [0]) [("genres", ObjCol [OStr "[None, 'pop']"])])
  = Ok [(OStr "pop", 1)].
Proof. split; reflexivity. Qed.

(* ================================================================== *)
(** * Missing genres *)

Lemma nth_error_take {A} (ix : list nat) (l : list A) (j i : nat) :
  Forall (fun i => (i < length l)%nat) ix ->
  nth_error ix j = Some i -> nth_error (take ix l) j = nth_error l i.
Proof.
  intros H. revert j. induction H as [|i0 ix Hi0 _ IH]; intros j Hj.
  - now destruct j.
  - rewrite take_cons. apply nth_error_Some in Hi0.
    destruct (nth_error l i0) as [a|] eqn:E; [|congruence].
    destruct j as [|j]; simpl in *.
    + injection Hj as <-. now rewrite E.
    + now apply IH.
Qed.

Lemma count_app (k : string) (l1 l2 : list string) :
  count k (l1 ++ l2) = count k l1 + count k l2.
Proof. unfold count. rewrite filter_app, length_app. lia. Qed.

Lemma count_nonneg (k : string) (l : list string) : 0 <= count k l.
Proof. unfold count. lia. Qed.

Lemma count_pos_In (k : string) (l : list string) : 0 < count k l -> In k l.
Proof.
  unfold count. intros H.
  destruct (filter (String.eqb k) l) as [|x t] eqn:E; [simpl in H; lia|].
  assert (Hx : In x (filter (String.eqb k) l)) by (rewrite E; now left).
  apply filter_In in Hx. destruct Hx as [Hx Hkx].
  apply String.eqb_eq in Hkx. now subst.
Qed.

Lemma is_upper_lower_char (c : ascii) : Py.is_upper (Py.lower_char c) = false.
Proof. PyFacts.each_char c; reflexivity. Qed.

Lemma Forall_filter_true {A} (f : A -> bool) (l : list A) :
  Forall (fun a => f a = true) (filter f l).
Proof. apply Forall_forall. intros a Ha. now apply filter_In in Ha. Qed.

(** What the genres pipeline of [clean_artists] leaves is formatted. *)
Lemma genres_norm_formatted (y : string) : formatted (genres_norm y).
Proof.
  unfold formatted, genres_norm, Py.lower, Py.strip, Py.remove_brackets_quotes.
  rewrite !PyFacts.chars_str. split.
  - apply Forall_map. apply PyFacts.Forall_strip_chars.
    eapply Forall_impl; [|apply Forall_filter_true].
    intros c Hc. simpl in Hc. apply negb_true_iff in Hc.
    now rewrite PyFacts.is_bracket_or_quote_lower_char, is_upper_lower_char.
  - f_equal. rewrite PyFacts.strip_chars_map_lower. f_equal.
    apply PyFacts.strip_chars_idem.
Qed.

Lemma nth_isna_None {A} (l : list (option A)) (i : nat) :
  nth i (map is_none l) false = true -> nth_error l i = Some None.
Proof.
  revert i. induction l as [|[a|] l IH]; intros [|i]; simpl; try discriminate; auto.
Qed.

Lemma dropna_values_strings (l : list string) :
  dropna_values (ObjCol (map OStr l)) = map OStr l.
Proof.
  simpl. apply PyFacts.filter_id. apply Forall_map, Forall_forall. reflexivity.
Qed.

Lemma obj_eqb_OStr (a : string) (c : pyobj) :
  obj_eqb (OStr a) c = true -> c = OStr a.
Proof.
  destruct c; simpl; try discriminate. intros H. apply String.eqb_eq in H. now subst.
Qed.

Lemma map_OStr_inj (l l' : list string) : map OStr l = map OStr l' -> l = l'.
Proof.
  revert l'. induction l as [|x l IH]; intros [|y l']; simpl; try discriminate; auto.
  intros [= -> H]. f_equal. auto.
Qed.

(** Every cell that reads "unknown" adds one token "unknown". *)
Lemma unknown_cells_counted (cells : list string) :
  Z.of_nat (length (filter (obj_eqb (OStr "unknown")) (map OStr cells)))
  <= count "unknown" (concat (map pieces cells)).
Proof.
  induction cells as [|x cells IH]; [reflexivity|].
  cbn [map concat]. rewrite count_app.
  pose proof (count_nonneg "unknown" (pieces x)) as Hx.
  cbn [filter]. destruct (obj_eqb (OStr "unknown") (OStr x)) eqn:E; [|lia].
  apply obj_eqb_OStr in E. injection E as ->.
  change (count "unknown" (pieces "unknown")) with 1.
  cbn [length]. lia.
Qed.

Section MissingGenres.

Variable rt : Runtime.

(** After the fill and the cast to text, a row whose genres were missing
    reads "Unknown". *)
Lemma filled_genres_strings (g : Series) :
  exists l0,
    astype_str rt (fillna (OStr "Unknown") g) = ObjCol (map OStr l0) /\
    length l0 = series_length g /\
    forall i, nth i (isna g) false = true -> nth_error l0 i = Some "Unknown".
Proof.
  destruct g as [l|l|l|l]; simpl.
  - eexists. rewrite <- map_map with (g := OStr). split; [reflexivity|].
    split; [apply length_map|].
    intros i H. exfalso. revert i H. induction l as [|z l IH]; intros [|i]; simpl;
      try discriminate; try apply IH.
  - destruct (existsb is_none l) eqn:E; simpl.
    + rewrite map_map. eexists. rewrite <- map_map with (g := OStr).
      split; [reflexivity|]. split; [apply length_map|].
      intros i H. apply nth_isna_None in H. now rewrite nth_error_map, H.
    + eexists. rewrite <- map_map with (g := OStr). split; [reflexivity|].
      split; [apply length_map|].
      intros i H. apply nth_isna_None in H. apply nth_error_In in H.
      assert (existsb is_none l = true) by (apply existsb_exists; eauto). congruence.
  - rewrite map_map. eexists. rewrite <- map_map with (g := OStr).
    split; [reflexivity|]. split; [apply length_map|].
    intros i H. rewrite nth_error_map.
    revert i H. induction l as [|o l IH]; intros [|i]; simpl; try discriminate;
      try apply IH.
    destruct o; simpl; try discriminate; reflexivity.
  - destruct (existsb is_none l) eqn:E; simpl.
    + rewrite map_map. eexists. rewrite <- map_map with (g := OStr).
      split; [reflexivity|]. split; [apply length_map|].
      intros i H. apply nth_isna_None in H. now rewrite nth_error_map, H.
    + eexists. rewrite <- map_map with (g := OStr). split; [reflexivity|].
      split; [now rewrite length_map, length_seq|].
      intros i H. apply nth_isna_None in H. apply nth_error_In in H.
      assert (existsb is_none l = true) by (apply existsb_exists; eauto). congruence.
Qed.

Lemma clean_genres_strings (s : Series) (l0 : list string) :
  astype_str rt s = ObjCol (map OStr l0) ->
  Cleaner.clean_genres rt s = Ok (ObjCol (map OStr (map genres_norm l0))).
Proof.
  intros H. unfold Cleaner.clean_genres. rewrite H.
  rewrite str_method_strings. cbn [bind].
  rewrite str_method_strings. cbn [bind].
  rewrite str_method_strings. now rewrite !map_map.
Qed.

Hypothesis list_needs_bracket :
  forall s l, literal_eval rt s = Ok (LitList l) -> In "["%char (Py.chars s).

(** A formatted text is never read as a list. *)
Lemma formatted_tokens (x : string) :
  formatted x -> readable rt (OStr x) ->
  Analyzer.genre_tokens rt (OStr x) = Ok (map OStr (pieces x)).
Proof.
  intros [Hchars _] Hread. rewrite <- split_genres_pieces.
  apply genre_tokens_fallback; [exact Hread|].
  intros l Hl. apply list_needs_bracket in Hl.
  rewrite Forall_forall in Hchars. destruct (Hchars _ Hl) as [Hb _].
  discriminate.
Qed.

Lemma mapM_formatted (cells : list string) :
  Forall formatted cells -> Forall (readable rt) (map OStr cells) ->
  mapM (Analyzer.genre_tokens rt) (map OStr cells)
  = Ok (map (fun x => map OStr (pieces x)) cells).
Proof.
  intros Hf Hr. rewrite Forall_map in Hr.
  rewrite <- (map_map OStr (fun v => match v with OStr x => map OStr (pieces x) | _ => [] end)).
  apply mapM_map. apply Forall_map.
  rewrite Forall_forall in *. intros x Hx. apply formatted_tokens; auto.
Qed.

(** The distribution of a genres column of formatted text. *)
Lemma formatted_distribution (a : DataFrame) (cells : list string) :
  getitem "genres" a = Ok (ObjCol (map OStr cells)) ->
  Forall formatted cells -> Forall (readable rt) (map OStr cells) ->
  Analyzer.genre_distribution rt a
  = Ok (map text_key (value_counts_str rt (concat (map pieces cells)))).
Proof.
  intros Hget Hf Hr.
  rewrite (genre_distribution_value_counts rt a _ _ Hget
             (eq_trans (f_equal _ (dropna_values_strings cells))
                       (mapM_formatted cells Hf Hr))).
  unfold value_counts. rewrite <- (map_map pieces (map OStr)), concat_map_map.
  now rewrite strings_of_text.
Qed.

(** C10 (corrected): a row without genres leaves [clean_artists] with
    the genres "unknown", and when [ast.literal_eval] returns or raises
    a caught exception on every cleaned cell, [genre_distribution] of the
    cleaned table counts every such row under the token "unknown".  The
    rows of the cleaned table are those at which an id appears first.
    What is assumed of [ast.literal_eval] is that only a text with a
    bracket gives a list. *)
Theorem missing_genres_counted_as_unknown
        (artists cleaned : DataFrame) (g i : Series) (cells : list pyobj) :
  let df := rename_columns Cleaner.normalize_column artists in
  let keep := nonzero (map negb (series_duplicated i)) in
  argsort_sorts (argsort rt) ->
  wf df = true ->
  getitem "genres" df = Ok g ->
  getitem "id" df = Ok i ->
  Cleaner.clean_artists rt artists = Ok cleaned ->
  getitem "genres" cleaned = Ok (ObjCol cells) ->
  Forall (readable rt) cells ->
  index cleaned = series_take keep (index artists) /\
  length cells = length keep /\
  (forall j r, nth_error keep j = Some r -> nth r (isna g) false = true ->
               nth_error cells j = Some (OStr "unknown")) /\
  exists dist,
    Analyzer.genre_distribution rt cleaned = Ok (map text_key dist) /\
    (forall j, nth_error cells j = Some (OStr "unknown") ->
               exists c,
                 In ("unknown", c) dist /\
                 Z.of_nat (length (filter (obj_eqb (OStr "unknown")) cells)) <= c).
Proof.
  intros df0 keep Hsorts Hwf Eg0 Ei0 H Hcells Hread. apply wf_rectangular in Hwf.
  unfold Cleaner.clean_artists in H. fold df0 in H.
  bind_inv H. rename x into g', E into Eg.
  assert (g' = g) by congruence. subst g'.
  bind_inv H. rename x into f, E into Ef.
  bind_inv H. rename x into f', E into Ef'.
  bind_inv H. rename x into p, E into Ep.
  bind_inv H. rename x into p', E into Ep'.
  bind_inv H. rename x into g1, E into Eg1.
  bind_inv H. rename x into g', E into Eg'.
  rewrite !getitem_setitem_other, getitem_setitem_same in Eg1 by discriminate.
  injection Eg1 as <-.
  destruct (filled_genres_strings g) as (l0 & Hstr & Hlen & Hmissing).
  rewrite (clean_genres_strings _ _ Hstr) in Eg'. injection Eg' as <-.
  unfold drop_duplicates, df_filter in H.
  bind_inv H. rename x into idcol, E into Eid.
  injection H as <-.
  rewrite !getitem_setitem_other in Eid by discriminate.
  assert (idcol = i) by congruence. subst idcol. fold keep in Hcells |- *.
  set (texts := take keep (map genres_norm l0)).
  assert (Hkeep : Forall (fun r => (r < length (map genres_norm l0))%nat) keep).
  { rewrite length_map, Hlen, (rectangular_getitem _ _ _ Hwf Eg).
    rewrite <- (rectangular_getitem _ _ _ Hwf Ei0).
    rewrite <- (series_duplicated_length i), <- (length_map negb (series_duplicated i)).
    apply nonzero_bound. }
  assert (Ecells : cells = map OStr texts).
  { rewrite (getitem_df_take keep "genres" _ (ObjCol (map OStr (map genres_norm l0))))
      in Hcells by apply getitem_setitem_same.
    simpl in Hcells. injection Hcells as <-. unfold texts. now rewrite take_map. }
  assert (Hfmt : Forall formatted texts).
  { apply Forall_take, Forall_map, Forall_forall. intros x _. apply genres_norm_formatted. }
  split; [reflexivity|]. split; [|split].
  - subst cells. unfold texts. now rewrite length_map, length_take.
  - intros j r Hj Hr. subst cells. unfold texts.
    rewrite nth_error_map, (nth_error_take keep _ j r Hkeep Hj), nth_error_map.
    now rewrite (Hmissing r Hr).
  - exists (value_counts_str rt (concat (map pieces texts))). split.
    + subst cells. now apply formatted_distribution.
    + intros j Hj.
      exists (count "unknown" (concat (map pieces texts))).
      pose proof (unknown_cells_counted texts) as Hcount. rewrite <- Ecells in Hcount.
      split; [|exact Hcount].
      apply value_counts_In; [exact Hsorts|]. split; [|reflexivity].
      apply count_pos_In.
      assert (Hpos : (0 < length (filter (obj_eqb (OStr "unknown")) cells))%nat).
      { apply nth_error_In in Hj.
        assert (Hin : In (OStr "unknown") (filter (obj_eqb (OStr "unknown")) cells))
          by (apply filter_In; split; [exact Hj | reflexivity]).
        destruct (filter (obj_eqb (OStr "unknown")) cells); [destruct Hin | simpl; lia]. }
      lia.
Qed.

End MissingGenres.

Lemma In_lstrip_chars (c : ascii) (l : list ascii) :
  In c (Py.lstrip_chars l) -> In c l.
Proof.
  induction l as [|a l IH]; simpl; [auto|].
  destruct (Py.is_space a); [intros H; right; now apply IH | auto].
Qed.

Lemma answer_In (s : string) (l : list (string * result literal)) (r : result literal) :
  Example.answer s l = Some r -> In (s, r) l.
Proof.
  induction l as [|[k r'] l IH]; simpl; [discriminate|].
  destruct (String.eqb_spec k s) as [->|_]; [intros [= ->]; now left | auto].
Qed.

(** The reader of the example runtime gives a list only for a text that
    has a bracket. *)
Lemma example_literal_eval_needs_bracket (argsort : list Z -> list nat)
      (s : string) (l : list pyobj) :
  literal_eval (Example.make argsort) s = Ok (LitList l) -> In "["%char (Py.chars s).
Proof.
  simpl. unfold Example.literal_eval.
  destruct (Example.answer s Example.answers) as [r|] eqn:Ea.
  - intros ->. apply answer_In in Ea. unfold Example.answers in Ea.
    repeat (destruct Ea as [Ea|Ea]; [try discriminate; injection Ea as <- _; simpl; tauto|]).
    destruct Ea.
  - destruct (Py.chars s) as [|c rest]; [discriminate|].
    destruct (Ascii.eqb c "[") eqn:Ec; [|discriminate].
    intros _. apply Ascii.eqb_eq in Ec. subst c. now left.
Qed.

Lemma missing_genres_counted_as_unknown_witness :
  exists dist,
    Analyzer.genre_distribution Example.stable cleaned_artists = Ok (map text_key dist) /\
    (forall j, nth_error [OStr "unknown"; OStr EmptyString; OStr "hip hop"] j
               = Some (OStr "unknown") ->
               exists c,
                 In ("unknown", c) dist /\
                 Z.of_nat (length (filter (obj_eqb (OStr "unknown"))
                                     [OStr "unknown"; OStr EmptyString; OStr "hip hop"]))
                 <= c).
Proof.
  refine (proj2 (proj2 (proj2
            (missing_genres_counted_as_unknown Example.stable
               (example_literal_eval_needs_bracket _)
               raw_artists cleaned_artists
               (ObjCol [ONaN; OStr "['Glam Rock', 'Rock']"; OStr "[]"; OStr " Hip Hop "])
               (ObjCol [OStr "a1"; OStr "a1"; OStr "a2"; OStr "a3"])
               [OStr "unknown"; OStr EmptyString; OStr "hip hop"]
               ExampleFacts.stable_sorts eq_refl eq_refl eq_refl eq_refl eq_refl _)))).
  repeat apply Forall_cons; try apply Forall_nil; cbv; auto.
Defined.

(** The example artists: the one row without genres is counted under
    "unknown"; the empty list of genres gives the empty token. *)
Lemma cleaned_artists_distribution :
  getitem "genres" cleaned_artists
  = Ok (ObjCol [OStr "unknown"; OStr EmptyString; OStr "hip hop"]) /\
  Analyzer.genre_distribution Example.stable cleaned_artists
  = Ok [(OStr "unknown", 1); (OStr EmptyString, 1); (OStr "hip hop", 1)].
Proof. split; reflexivity. Qed.

(** C10 as stated fails: the row without genres is given "unknown", but
    the dict beside it survives the cleaning, [ast.literal_eval] raises
    TypeError on it, and [genre_distribution] counts nothing. *)
Lemma missing_genres_not_counted_beside_dict :
  (a <- Cleaner.clean_artists Example.stable artists_braces_genres ;; getitem "genres" a)
  = Ok (ObjCol [OStr "unknown"; OStr "{{}: 1}"]) /\
  (a <- Cleaner.clean_artists Example.stable artists_braces_genres ;;
   Analyzer.genre_distribution Example.stable a)
  = Raise TypeError.
Proof. split; reflexivity. Qed.

(* ================================================================== *)
(** * The calendar *)

Module CalendarFacts.

Ltac Zify.zify_post_hook ::= Z.div_mod_to_equations.

Lemma year_end_days_increasing (y : Z) :
  days_from_civil y 12 31 < days_from_civil (y + 1) 12 31.
Proof.
  unfold days_from_civil.
  change (12 <=? 2) with false. change (2 <? 12) with true. cbv iota. lia.
Qed.

Lemma month_start_increasing (p : Z) :
  days_from_civil (p / 12) (p mod 12 + 1) 1
  < days_from_civil ((p + 1) / 12) ((p + 1) mod 12 + 1) 1.
Proof.
  assert (Hq : (p mod 12 < 11 /\ (p + 1) / 12 = p / 12 /\ (p + 1) mod 12 = p mod 12 + 1) \/
               (p mod 12 = 11 /\ (p + 1) / 12 = p / 12 + 1 /\ (p + 1) mod 12 = 0)) by lia.
  pose proof (Z.mod_pos_bound p 12 ltac:(lia)) as Hk.
  set (k := p mod 12) in *. set (y := p / 12) in *.
  clearbody k y. unfold days_from_civil.
  destruct Hq as [(H1 & -> & ->)|(H1 & -> & ->)].
  - destruct (k + 1 <=? 2) eqn:E1; destruct (2 <? k + 1) eqn:E2;
      destruct (k + 1 + 1 <=? 2) eqn:E3; destruct (2 <? k + 1 + 1) eqn:E4; try lia.
    all: assert (Hc : k = 0 \/ k = 1 \/ k = 2 \/ k = 3 \/ k = 4 \/ k = 5 \/ k = 6 \/
                      k = 7 \/ k = 8 \/ k = 9 \/ k = 10) by lia.
    all: repeat (destruct Hc as [Hc|Hc]; [subst k; try lia|]); try (subst k; lia).
  - subst k. change (11 + 1 <=? 2) with false. change (2 <? 11 + 1) with true.
    change (0 + 1 <=? 2) with true. change (2 <? 0 + 1) with false. cbv iota. lia.
Qed.

Lemma ns_per_day_pos : 0 < ns_per_day.
Proof. reflexivity. Qed.

(** The label of the next period is later. *)
Lemma period_end_next (o : offset) (p : Z) : period_end o p < period_end o (p + 1).
Proof.
  destruct o; simpl; unfold timestamp.
  - apply Z.mul_lt_mono_pos_r; [apply ns_per_day_pos | apply year_end_days_increasing].
  - apply Z.mul_lt_mono_pos_r; [apply ns_per_day_pos|].
    pose proof (month_start_increasing (p + 1)). lia.
Qed.

Lemma period_end_increasing (o : offset) (p q : Z) :
  p < q -> period_end o p < period_end o q.
Proof.
  intros H. replace q with (p + 1 + Z.of_nat (Z.to_nat (q - p - 1))) by lia.
  induction (Z.to_nat (q - p - 1)) as [|n IH].
  - rewrite Z.add_0_r. apply period_end_next.
  - eapply Z.lt_trans; [exact IH|].
    replace (p + 1 + Z.of_nat (S n)) with (p + 1 + Z.of_nat n + 1) by lia.
    apply period_end_next.
Qed.

End CalendarFacts.

(* ================================================================== *)
(** * The popularity trend *)

Lemma fold_min_le (p : Z) (ps : list Z) (x : Z) :
  In x (p :: ps) -> fold_right Z.min p ps <= x.
Proof.
  induction ps as [|a ps IH]; simpl.
  - intros [<-|[]]. lia.
  - intros [<-|[<-|H]]; [| lia |].
    + specialize (IH (or_introl eq_refl)). lia.
    + specialize (IH (or_intror H)). lia.
Qed.

Lemma fold_max_ge (p : Z) (ps : list Z) (x : Z) :
  In x (p :: ps) -> x <= fold_right Z.max p ps.
Proof.
  induction ps as [|a ps IH]; simpl.
  - intros [<-|[]]. lia.
  - intros [<-|[<-|H]]; [| lia |].
    + specialize (IH (or_introl eq_refl)). lia.
    + specialize (IH (or_intror H)). lia.
Qed.

Lemma fold_min_In (p : Z) (ps : list Z) : In (fold_right Z.min p ps) (p :: ps).
Proof.
  induction ps as [|a ps IH]; simpl; [now left|].
  destruct (Z.min_spec a (fold_right Z.min p ps)) as [[_ ->]|[_ ->]].
  - right. now left.
  - simpl in IH. destruct IH as [IH|IH]; [now left | right; now right].
Qed.

Lemma fold_max_In (p : Z) (ps : list Z) : In (fold_right Z.max p ps) (p :: ps).
Proof.
  induction ps as [|a ps IH]; simpl; [now left|].
  destruct (Z.max_spec a (fold_right Z.max p ps)) as [[_ ->]|[_ ->]].
  - simpl in IH. destruct IH as [IH|IH]; [now left | right; now right].
  - right. now left.
Qed.

Lemma zrange_In (lo hi q : Z) : In q (zrange lo hi) <-> lo <= q <= hi.
Proof.
  unfold zrange. rewrite in_map_iff. split.
  - intros (k & <- & Hk). apply in_seq in Hk. lia.
  - intros H. exists (Z.to_nat (q - lo)). split; [lia|]. apply in_seq. lia.
Qed.

Lemma zrange_increasing (lo hi : Z) : Sorted Z.lt (zrange lo hi).
Proof.
  unfold zrange. generalize (Z.to_nat (hi - lo + 1)). intros n.
  apply (Sorted_map lt Z.lt (fun _ => True)).
  - intros a b _ _ H. lia.
  - apply Forall_forall. auto.
  - apply StronglySorted_Sorted. generalize 0%nat. induction n as [|n IH]; intros s; simpl.
    + constructor.
    + constructor; [apply IH|]. apply Forall_forall. intros x Hx.
      apply in_seq in Hx. lia.
Qed.

(** The buckets of [resample_mean]: one for every period between the
    periods of two rows, none else, in chronological order. *)
Lemma resample_mean_buckets (o : offset) (rows : list (Z * option float64)) (b : Z * option float64) :
  In b (resample_mean o rows) <->
  exists r1 r2 q,
    In r1 rows /\ In r2 rows /\
    period_of o (fst r1) <= q <= period_of o (fst r2) /\
    b = bucket o rows q.
Proof.
  unfold resample_mean.
  destruct (map (fun r => period_of o (fst r)) rows) as [|p ps] eqn:E.
  - destruct rows; [|discriminate]. split; [intros [] | intros (r1 & _ & _ & [] & _)].
  - rewrite in_map_iff. split.
    + intros (q & <- & Hq). apply zrange_In in Hq.
      pose proof (fold_min_In p ps) as Hlo. pose proof (fold_max_In p ps) as Hhi.
      rewrite <- E in Hlo, Hhi. apply in_map_iff in Hlo, Hhi.
      destruct Hlo as (r1 & Hr1 & Hin1). destruct Hhi as (r2 & Hr2 & Hin2).
      exists r1, r2, q. repeat split; auto; lia.
    + intros (r1 & r2 & q & Hin1 & Hin2 & Hq & ->). exists q. split; [reflexivity|].
      apply zrange_In.
      assert (H1 : In (period_of o (fst r1)) (p :: ps))
        by (rewrite <- E; now apply (in_map (fun r => period_of o (fst r)))).
      assert (H2 : In (period_of o (fst r2)) (p :: ps))
        by (rewrite <- E; now apply (in_map (fun r => period_of o (fst r)))).
      apply fold_min_le in H1. apply fold_max_ge in H2. lia.
Qed.

Lemma resample_mean_chronological (o : offset) (rows : list (Z * option float64)) :
  Sorted Z.lt (map fst (resample_mean o rows)).
Proof.
  unfold resample_mean.
  destruct (map (fun r => period_of o (fst r)) rows) as [|p ps]; [constructor|].
  rewrite map_map. simpl.
  apply (Sorted_map Z.lt Z.lt (fun _ => True) (period_end o)).
  - intros a b _ _. apply CalendarFacts.period_end_increasing.
  - apply Forall_forall. auto.
  - apply zrange_increasing.
Qed.

(** The mean skips what is missing. *)
Lemma kahan_sum_skips_missing (sumx c : option float64) (n : Z) (l : list (option float64)) :
  kahan_sum sumx c n l = kahan_sum sumx c n (map Some (somes l)).
Proof.
  revert sumx c n. induction l as [|[x|] l IH]; intros sumx c n; simpl; auto.
Qed.

Lemma mean_skips_missing (l : list (option float64)) :
  group_mean l = group_mean (map Some (somes l)).
Proof. unfold group_mean. now rewrite kahan_sum_skips_missing. Qed.

Lemma select_present {A} (l : list (option A)) :
  select (map negb (map is_none l)) l = map Some (somes l).
Proof. induction l as [|[a|] l IH]; simpl; congruence. Qed.

Lemma dated_rows_present {A} (l : list Z) (v : list A) :
  dated_rows (map Some l) v = combine l v.
Proof.
  unfold dated_rows. revert v. induction l as [|t l IH]; intros [|a v]; simpl; auto.
  now rewrite IH.
Qed.

Lemma lookup_filter_other (n m : string) (cs : list (string * Series)) :
  n <> m ->
  lookup n (filter (fun c => negb (String.eqb (fst c) m)) cs) = lookup n cs.
Proof.
  intros H. induction cs as [|[k s] cs IH]; simpl; [reflexivity|].
  destruct (String.eqb k m) eqn:E; simpl.
  - apply String.eqb_eq in E. subst k.
    assert (String.eqb m n = false) by (apply String.eqb_neq; congruence).
    now rewrite H0.
  - now rewrite IH.
Qed.

Section Trend.

Variable rt : Runtime.

Lemma float_values_numeric (s : Series) :
  is_number s = true ->
  exists v, float_values s = Ok v /\ length v = series_length s.
Proof.
  destruct s; try discriminate; intros _; simpl; eexists; split; try reflexivity.
  apply length_map.
Qed.

(** [popularity_trend] resamples the popularity read as numbers, indexed
    by the release dates read as timestamps, over the rows that have a
    release date. *)
Lemma popularity_trend_resample
      (tracks : DataFrame) (d p q : Series) (freq : string) :
  let kept := nonzero (map negb (isna (to_datetime rt d))) in
  getitem "release_date" tracks = Ok d ->
  getitem "popularity" tracks = Ok p ->
  to_numeric rt (series_take kept p) = Ok q ->
  Analyzer.popularity_trend rt tracks freq
  = resample rt (if String.eqb (Py.upper freq) "Y" then "YE" else freq)
      (series_take kept (to_datetime rt d)) q.
Proof.
  intros kept Hd Hp Hq.
  unfold Analyzer.popularity_trend. cbv zeta.
  rewrite (has_column_getitem _ _ _ Hd). simpl negb. cbv iota.
  rewrite Hd. bind_step.
  set (dt := to_datetime rt d) in *.
  set (df1 := setitem "release_date" dt tracks).
  assert (Hd1 : getitem "release_date" df1 = Ok dt) by apply getitem_setitem_same.
  assert (Hp1 : getitem "popularity" df1 = Ok p).
  { unfold df1. now rewrite getitem_setitem_other by discriminate. }
  unfold dropna. rewrite Hd1. bind_step. bind_step.
  unfold df_filter. fold kept.
  set (df2 := df_take kept df1).
  assert (Hp2 : getitem "popularity" df2 = Ok (series_take kept p))
    by now apply getitem_df_take.
  assert (Hd2 : getitem "release_date" df2 = Ok (series_take kept dt))
    by now apply getitem_df_take.
  rewrite (has_column_getitem _ _ _ Hp2). rewrite Hp2. bind_step.
  rewrite Hq. bind_step. bind_step.
  set (df3 := setitem "popularity" q df2).
  unfold set_index.
  assert (Hd3 : getitem "release_date" df3 = Ok (series_take kept dt)).
  { unfold df3. now rewrite getitem_setitem_other by discriminate. }
  rewrite Hd3. bind_step. bind_step.
  assert (Hp4 : forall ix,
             getitem "popularity"
               (mkDataFrame ix
                  (filter (fun c => negb (String.eqb (fst c) "release_date")) (cols df3)))
             = Ok q).
  { intros ix. unfold getitem. simpl cols.
    rewrite lookup_filter_other by discriminate.
    unfold df3. simpl cols. now rewrite lookup_assign_same. }
  rewrite Hp4. bind_step. reflexivity.
Qed.

(** The buckets [popularity_trend] returns. *)
Lemma trend_buckets
        (tracks : DataFrame) (d p q : Series) (freq : string) (o : offset)
        (dates : list (option Z)) :
  wf tracks = true ->
  getitem "release_date" tracks = Ok d ->
  getitem "popularity" tracks = Ok p ->
  to_offset (if String.eqb (Py.upper freq) "Y" then "YE" else freq) = Some o ->
  to_datetime rt d = DateCol dates ->
  to_numeric rt (series_take (nonzero (map negb (map is_none dates))) p) = Ok q ->
  exists pops trend,
    float_values q = Ok pops /\
    length pops = length (somes dates) /\
    Analyzer.popularity_trend rt tracks freq = Ok trend /\
    (forall b,
        In b trend <->
        exists r1 r2 y,
          In r1 (combine (somes dates) pops) /\ In r2 (combine (somes dates) pops) /\
          period_of o (fst r1) <= y <= period_of o (fst r2) /\
          b = bucket o (combine (somes dates) pops) y) /\
    Sorted Z.lt (map fst trend).
Proof.
  intros Hwf Hd Hp Hfreq Hdates Hq. apply wf_rectangular in Hwf.
  destruct (float_values_numeric q (is_number_to_numeric rt _ _ Hq))
    as (pops & Hpops & Hlenp).
  assert (Hlen : length dates = series_length p).
  { rewrite (rectangular_getitem _ _ _ Hwf Hp).
    rewrite <- (rectangular_getitem _ _ _ Hwf Hd), <- (series_length_to_datetime rt d).
    now rewrite Hdates. }
  assert (Hkept : length pops = length (somes dates)).
  { rewrite Hlenp, (series_length_to_numeric rt _ _ Hq).
    rewrite series_length_take.
    - rewrite <- (length_map Some (somes dates)), <- select_present, <- take_nonzero.
      symmetry. apply length_take.
      rewrite <- (length_map is_none dates), <- (length_map negb (map is_none dates)).
      apply nonzero_bound.
    - rewrite <- Hlen, <- (length_map is_none dates),
        <- (length_map negb (map is_none dates)).
      apply nonzero_bound. }
  exists pops, (resample_mean o (combine (somes dates) pops)).
  split; [exact Hpops|]. split; [exact Hkept|].
  split; [|split; [intros b; apply resample_mean_buckets
                  | apply resample_mean_chronological]].
  rewrite (popularity_trend_resample tracks d p q freq Hd Hp);
    [|now rewrite Hdates].
  unfold resample. rewrite Hfreq, Hdates. simpl series_take. simpl isna.
  rewrite Hpops. bind_step.
  now rewrite take_nonzero, select_present, dated_rows_present.
Qed.

(** Release dates with different offsets from UTC are left as objects,
    and an index of objects cannot be resampled. *)
Lemma trend_mixed_offsets
        (tracks : DataFrame) (d p q : Series) (freq : string) (o : offset)
        (stamps : list pyobj) :
  getitem "release_date" tracks = Ok d ->
  getitem "popularity" tracks = Ok p ->
  to_offset (if String.eqb (Py.upper freq) "Y" then "YE" else freq) = Some o ->
  to_datetime rt d = ObjCol stamps ->
  to_numeric rt (series_take (nonzero (map negb (map is_null stamps))) p) = Ok q ->
  Analyzer.popularity_trend rt tracks freq = Raise TypeError.
Proof.
  intros Hd Hp Hfreq Hdates Hq.
  rewrite (popularity_trend_resample tracks d p q freq Hd Hp);
    [|now rewrite Hdates].
  unfold resample. now rewrite Hfreq, Hdates.
Qed.

(** The specification's example: 2020 gives 60, 2021 gives 90. *)
Lemma trend_tracks_yearly :
  Analyzer.popularity_trend rt trend_tracks "YE"
  = Ok [(timestamp 2020 12 31, F64.of_Z 60);
        (timestamp 2021 12 31, F64.of_Z 90)].
Proof. vm_compute. reflexivity. Qed.

(** C7 (corrected): when the release dates read into one datetime
    column, rows without a release date are dropped, the rest is put
    into calendar periods, and the result has one bucket for every
    period from the earliest to the latest, in chronological order, each
    with the mean of the popularity values present in it, which for a
    period without any is NaN: such buckets are kept, not omitted.  When
    the release dates are left as objects, the function raises
    TypeError.  On tracks of 2020 with popularity 50 and 70 and of 2021
    with popularity 90, by years: 60 for 2020 and 90 for 2021. *)
Theorem popularity_trend_buckets
        (tracks : DataFrame) (d p : Series) (freq : string) (o : offset) :
  wf tracks = true ->
  getitem "release_date" tracks = Ok d ->
  getitem "popularity" tracks = Ok p ->
  to_offset (if String.eqb (Py.upper freq) "Y" then "YE" else freq) = Some o ->
  (forall dates q,
     to_datetime rt d = DateCol dates ->
     to_numeric rt (series_take (nonzero (map negb (map is_none dates))) p) = Ok q ->
     exists pops trend,
       float_values q = Ok pops /\
       length pops = length (somes dates) /\
       Analyzer.popularity_trend rt tracks freq = Ok trend /\
       (forall b,
           In b trend <->
           exists r1 r2 y,
             In r1 (combine (somes dates) pops) /\ In r2 (combine (somes dates) pops) /\
             period_of o (fst r1) <= y <= period_of o (fst r2) /\
             b = bucket o (combine (somes dates) pops) y) /\
       Sorted Z.lt (map fst trend)) /\
  (forall stamps q,
     to_datetime rt d = ObjCol stamps ->
     to_numeric rt (series_take (nonzero (map negb (map is_null stamps))) p) = Ok q ->
     Analyzer.popularity_trend rt tracks freq = Raise TypeError) /\
  (forall l, group_mean l = group_mean (map Some (somes l))) /\
  Analyzer.popularity_trend rt trend_tracks "YE"
  = Ok [(timestamp 2020 12 31, F64.of_Z 60);
        (timestamp 2021 12 31, F64.of_Z 90)].
Proof.
  intros Hwf Hd Hp Hfreq. split; [|split; [|split]].
  - intros dates q. now apply trend_buckets.
  - intros stamps q. now apply (trend_mixed_offsets tracks d p q freq o).
  - apply mean_skips_missing.
  - apply trend_tracks_yearly.
Qed.

End Trend.

Lemma popularity_trend_buckets_witness :
  exists pops trend,
    float_values (IntCol [50; 70; 90]) = Ok pops /\
    length pops = 3%nat /\
    Analyzer.popularity_trend Example.stable trend_tracks "Y" = Ok trend /\
    (forall b,
        In b trend <->
        exists r1 r2 y,
          In r1 (combine [timestamp 2020 3 1; timestamp 2020 7 15; timestamp 2021 1 1] pops) /\
          In r2 (combine [timestamp 2020 3 1; timestamp 2020 7 15; timestamp 2021 1 1] pops) /\
          period_of YearEnd (fst r1) <= y <= period_of YearEnd (fst r2) /\
          b = bucket YearEnd
                (combine [timestamp 2020 3 1; timestamp 2020 7 15; timestamp 2021 1 1] pops)
                y) /\
    Sorted Z.lt (map fst trend).
Proof.
  exact (proj1 (popularity_trend_buckets Example.stable trend_tracks
                  (DateCol [Some (timestamp 2020 3 1); Some (timestamp 2020 7 15);
                            Some (timestamp 2021 1 1)])
                  (IntCol [50; 70; 90]) "Y" YearEnd eq_refl eq_refl eq_refl eq_refl)
           [Some (timestamp 2020 3 1); Some (timestamp 2020 7 15);
            Some (timestamp 2021 1 1)]
           (IntCol [50; 70; 90]) eq_refl eq_refl).
Defined.

(** C7 as stated fails: with tracks of 2018 and 2020 the year 2019, which
    has no row, is not omitted; its bucket is there with a missing mean. *)
Lemma popularity_trend_keeps_empty_bucket :
  Analyzer.popularity_trend Example.stable gap_tracks "YE"
  = Ok [(timestamp 2018 12 31, F64.of_Z 50);
        (timestamp 2019 12 31, None);
        (timestamp 2020 12 31, F64.of_Z 90)].
Proof. vm_compute. reflexivity. Qed.

(** On every table that has a release date and no popularity,
    [popularity_trend] raises. *)
Lemma popularity_trend_needs_popularity (rt : Runtime) (tracks : DataFrame) (freq : string) :
  has_column "release_date" tracks = true ->
  has_column "popularity" tracks = false ->
  Analyzer.popularity_trend rt tracks freq = Raise (KeyError "popularity").
Proof.
  intros Hd Hp. apply has_column_true in Hd. destruct Hd as (d & Hd).
  apply getitem_ok in Hd. apply has_column_false in Hp.
  unfold Analyzer.popularity_trend. cbv zeta.
  rewrite (has_column_getitem _ _ _ Hd). simpl negb. cbv iota.
  rewrite Hd. bind_step.
  set (dt := to_datetime rt d).
  set (df1 := setitem "release_date" dt tracks).
  assert (Hd1 : getitem "release_date" df1 = Ok dt)
    by apply getitem_setitem_same.
  assert (Hp1 : lookup "popularity" (cols df1) = None).
  { unfold df1. simpl. now rewrite lookup_assign_other by discriminate. }
  unfold dropna, df_filter. rewrite Hd1. bind_step. bind_step.
  set (df2 := df_take _ df1).
  assert (Hp2 : lookup "popularity" (cols df2) = None).
  { unfold df2. now rewrite lookup_df_take, Hp1. }
  assert (Hc2 : has_column "popularity" df2 = false).
  { destruct (has_column "popularity" df2) eqn:E; [|reflexivity].
    apply has_column_true in E. destruct E as (s & E). congruence. }
  rewrite Hc2. bind_step.
  unfold set_index.
  assert (Hd2 : exists l, getitem "release_date" df2 = Ok l).
  { eexists. unfold df2. apply (getitem_df_take _ "release_date" df1 dt Hd1). }
  destruct Hd2 as (l & ->). bind_step. bind_step.
  clearbody df2. unfold getitem. simpl cols.
  now rewrite lookup_filter_other, Hp2 by discriminate.
Qed.
(* ================================================================== *)
(** * Rankings *)

Lemma length_head {A} (n : Z) (l : list A) :
  length (head n l) = head_length n (length l).
Proof.
  unfold head, head_length. destruct (0 <=? n); rewrite length_firstn; lia.
Qed.

Lemma length_nonzero_from_map {A} (f : A -> bool) (l : list A) (s : nat) :
  length (nonzero_from s (map f l)) = length (filter f l).
Proof.
  revert s. induction l as [|a l IH]; intros s; simpl; [reflexivity|].
  destruct (f a); simpl; now rewrite IH.
Qed.

Lemma filter_true {A} (l : list A) : filter (fun _ => true) l = l.
Proof. induction l; simpl; congruence. Qed.

Section Rankings.

Variable rt : Runtime.
Hypothesis sorts : argsort_sorts (argsort rt).

(** Sorting by an int column and cutting: the rows at the first
    positions of the descending order. *)
Lemma sort_then_head (name : string) (df : DataFrame) (keys : list Z) (n : Z) :
  rectangular df ->
  getitem name df = Ok (IntCol keys) ->
  (s <- sort_values_desc rt name df ;; Ok (df_head n s))
  = Ok (df_take (head n (nargsort_desc rt keys)) df).
Proof.
  intros Hrect Hget.
  assert (Hlen : length keys = nrows df)
    by apply (rectangular_getitem _ _ _ Hrect Hget).
  assert (Hin : Forall (fun i => (i < nrows df)%nat) (nargsort_desc rt keys)).
  { rewrite <- Hlen. now apply nargsort_desc_in_range. }
  unfold sort_values_desc. rewrite Hget. bind_step. bind_step.
  unfold df_head. rewrite (nrows_df_take _ df Hin).
  rewrite (df_take_take _ _ df Hrect Hin). now rewrite take_head_seq.
Qed.

Lemma head_in_range {A} (P : A -> Prop) (n : Z) (l : list A) :
  Forall P l -> Forall P (head n l).
Proof.
  intros H. rewrite Forall_forall in *. intros x Hx. apply H.
  unfold head in Hx.
  destruct (0 <=? n);
    match type of Hx with
    | In _ (firstn ?k _) => rewrite <- (firstn_skipn k l); apply in_or_app; now left
    end.
Qed.

(** The rows of a ranking: the key column cast to int, all rows in
    descending order of the key, the first [top_n]. *)
Lemma ranking (name : string) (df : DataFrame) (s : Series) (keys : list Z) (top_n : Z) :
  rectangular df ->
  getitem name df = Ok s ->
  coerce_int rt s = Ok (IntCol keys) ->
  let order := nargsort_desc rt keys in
  let ranked := setitem name (IntCol keys) df in
  rectangular ranked /\
  getitem name ranked = Ok (IntCol keys) /\
  length keys = nrows df /\
  Permutation order (seq 0 (nrows df)) /\
  Sorted Z.ge (map (fun i => nth i keys 0) order) /\
  (argsort_stable (argsort rt) -> Sorted (desc_stable keys) order) /\
  rectangular (df_take (head top_n order) ranked) /\
  nrows (df_take (head top_n order) ranked) = head_length top_n (nrows df).
Proof.
  intros Hrect Hget Hc order ranked.
  assert (Hlen : length keys = nrows df).
  { rewrite (coerce_int_length rt s keys Hc).
    apply (rectangular_getitem _ _ _ Hrect Hget). }
  assert (Hin : Forall (fun i => (i < length keys)%nat) order)
    by now apply nargsort_desc_in_range.
  assert (Hperm : Permutation order (seq 0 (length keys)))
    by now apply nargsort_desc_perm.
  assert (Hin' : Forall (fun i => (i < nrows ranked)%nat) (head top_n order)).
  { apply head_in_range. unfold ranked. rewrite nrows_setitem. now rewrite <- Hlen. }
  assert (Hrr : rectangular ranked) by now apply rectangular_setitem.
  split; [exact Hrr|]. split; [apply getitem_setitem_same|].
  split; [exact Hlen|]. split; [now rewrite <- Hlen|].
  split; [|split; [|split]].
  - rewrite <- (take_in_range _ keys 0 Hin). now apply nargsort_desc_sorted.
  - now apply nargsort_desc_stable.
  - now apply rectangular_df_take.
  - rewrite (nrows_df_take _ _ Hin'), length_head.
    now rewrite (Permutation_length Hperm), length_seq, Hlen.
Qed.

Lemma top_artists_by_followers_result
      (artists : DataFrame) (f : Series) (keys : list Z) (top_n : Z) :
  rectangular artists ->
  getitem "followers" artists = Ok f ->
  coerce_int rt f = Ok (IntCol keys) ->
  Analyzer.top_artists_by_followers rt artists top_n
  = Ok (df_take (head top_n (nargsort_desc rt keys))
          (setitem "followers" (IntCol keys) artists)).
Proof.
  intros Hrect Hf Hc.
  destruct (ranking "followers" artists f keys top_n Hrect Hf Hc) as (Hrr & Hget & _).
  unfold Analyzer.top_artists_by_followers.
  rewrite (has_column_getitem _ _ _ Hf). simpl negb. cbv iota.
  rewrite Hf. bind_step. unfold coerce_int in Hc. bind_inv Hc.
  rewrite E. bind_step. rewrite Hc. bind_step.
  now apply sort_then_head.
Qed.

Lemma top_artists_by_followers_raises
      (artists : DataFrame) (f : Series) (top_n : Z) (e : exn) :
  getitem "followers" artists = Ok f ->
  coerce_int rt f = Raise e ->
  Analyzer.top_artists_by_followers rt artists top_n = Raise e.
Proof.
  intros Hf Hc. unfold Analyzer.top_artists_by_followers.
  rewrite (has_column_getitem _ _ _ Hf). simpl negb. cbv iota.
  rewrite Hf. bind_step. unfold coerce_int in Hc.
  destruct (to_numeric rt f) as [q|e'] eqn:E; cbn [bind] in *.
  - now rewrite Hc.
  - congruence.
Qed.

Lemma get_top_popular_tracks_all_result
      (tracks : DataFrame) (p : Series) (keys : list Z) (top_n : Z) :
  rectangular tracks ->
  getitem "popularity" tracks = Ok p ->
  coerce_int rt p = Ok (IntCol keys) ->
  Analyzer.get_top_popular_tracks rt tracks None top_n
  = Ok (df_take (head top_n (nargsort_desc rt keys))
          (setitem "popularity" (IntCol keys) tracks)).
Proof.
  intros Hrect Hp Hc.
  destruct (ranking "popularity" tracks p keys top_n Hrect Hp Hc) as (Hrr & Hget & _).
  unfold Analyzer.get_top_popular_tracks.
  rewrite (has_column_getitem _ _ _ Hp). simpl negb. cbv iota.
  rewrite Hp. bind_step. unfold coerce_int in Hc. bind_inv Hc.
  rewrite E. bind_step. rewrite Hc. bind_step. bind_step.
  now apply sort_then_head.
Qed.

(** X1: [top_artists_by_followers] casts the follower counts to integers
    as [coerce_int] does and raises when that cast raises; otherwise all
    artists are ranked by them in descending order (ties in original
    order if the sort is stable) and the first [top_n] of the ranking are
    returned.  The cast returns when what [to_numeric] reads holds no
    infinity, with 0 for what is missing or is no number. *)
Theorem top_artists_by_followers_ranks (artists : DataFrame) (f : Series) (top_n : Z) :
  wf artists = true ->
  getitem "followers" artists = Ok f ->
  (forall e, coerce_int rt f = Raise e ->
     Analyzer.top_artists_by_followers rt artists top_n = Raise e) /\
  (forall keys, coerce_int rt f = Ok (IntCol keys) ->
     exists order,
       Analyzer.top_artists_by_followers rt artists top_n
       = Ok (df_take (head top_n order) (setitem "followers" (IntCol keys) artists)) /\
       Permutation order (seq 0 (nrows artists)) /\
       Sorted Z.ge (map (fun i => nth i keys 0) order) /\
       (argsort_stable (argsort rt) -> Sorted (desc_stable keys) order)) /\
  (forall q, to_numeric rt f = Ok q ->
     (no_infinity q -> coerce_int rt f = Ok (IntCol (zero_filled_ints q))) /\
     (has_infinity q = true -> coerce_int rt f = Raise ValueError)).
Proof.
  intros Hwf Hf. apply wf_rectangular in Hwf. split; [|split].
  - intros e. now apply top_artists_by_followers_raises.
  - intros keys Hc.
    destruct (ranking "followers" artists f keys top_n Hwf Hf Hc)
      as (_ & _ & _ & Hperm & Hsorted & Hstable & _).
    exists (nargsort_desc rt keys).
    split; [|split; [exact Hperm | split; [exact Hsorted | exact Hstable]]].
    now apply (top_artists_by_followers_result artists f).
  - intros q. apply coerce_int_reads.
Qed.

(** X2: without a threshold [get_top_popular_tracks] ranks every track:
    popularity is cast to int as [coerce_int] does, the function raising
    when the cast raises, and the first [top_n] rows of the descending
    order are returned. *)
Theorem get_top_popular_tracks_without_threshold
        (tracks : DataFrame) (p : Series) (top_n : Z) :
  wf tracks = true ->
  getitem "popularity" tracks = Ok p ->
  (forall e, coerce_int rt p = Raise e ->
     Analyzer.get_top_popular_tracks rt tracks None top_n = Raise e) /\
  (forall keys, coerce_int rt p = Ok (IntCol keys) ->
     exists order,
       Analyzer.get_top_popular_tracks rt tracks None top_n
       = Ok (df_take (head top_n order) (setitem "popularity" (IntCol keys) tracks)) /\
       Permutation order (seq 0 (nrows tracks)) /\
       Sorted Z.ge (map (fun i => nth i keys 0) order) /\
       (argsort_stable (argsort rt) -> Sorted (desc_stable keys) order)).
Proof.
  intros Hwf Hp. apply wf_rectangular in Hwf. split.
  - intros e. now apply top_tracks_raises.
  - intros keys Hc.
    destruct (ranking "popularity" tracks p keys top_n Hwf Hp Hc)
      as (_ & _ & _ & Hperm & Hsorted & Hstable & _).
    exists (nargsort_desc rt keys).
    split; [|split; [exact Hperm | split; [exact Hsorted | exact Hstable]]].
    now apply (get_top_popular_tracks_all_result tracks p).
Qed.

Lemma get_top_popular_tracks_size
        (tracks : DataFrame) (p : Series) (pops : list Z)
        (threshold : option Z) (top_n : Z) :
  wf tracks = true ->
  getitem "popularity" tracks = Ok p ->
  coerce_int rt p = Ok (IntCol pops) ->
  exists r,
    Analyzer.get_top_popular_tracks rt tracks threshold top_n = Ok r /\
    rectangular r /\
    nrows r = head_length top_n (count_above threshold pops).
Proof.
  intros Hwt Hp Hc. destruct threshold as [t|].
  - destruct (top_tracks_order rt tracks p pops t top_n sorts Hwt Hp Hc)
      as (order & Hres & Hperm & _).
    apply wf_rectangular in Hwt.
    destruct (ranking "popularity" tracks p pops top_n Hwt Hp Hc)
      as (Hrr & _ & Hlen & _).
    assert (Hin : Forall (fun i => (i < nrows (setitem "popularity" (IntCol pops) tracks))%nat)
                    (head top_n order)).
    { apply head_in_range. rewrite nrows_setitem.
      eapply Permutation_Forall; [apply Permutation_sym; exact Hperm|].
      apply Forall_forall. intros i Hi. apply filter_In in Hi.
      destruct Hi as [Hi _]. apply in_seq in Hi. lia. }
    eexists. split; [exact Hres|]. split; [now apply rectangular_df_take|].
    rewrite (nrows_df_take _ _ Hin), length_head. f_equal.
    rewrite (Permutation_length Hperm), <- Hlen.
    rewrite <- (nonzero_map (fun z => t <? z) 0 pops).
    apply length_nonzero_from_map.
  - apply wf_rectangular in Hwt.
    destruct (ranking "popularity" tracks p pops top_n Hwt Hp Hc)
      as (_ & _ & Hlen & _ & _ & _ & Hrect & Hn).
    eexists.
    split; [exact (get_top_popular_tracks_all_result tracks p pops top_n Hwt Hp Hc)|].
    split; [exact Hrect|]. rewrite Hn. f_equal.
    unfold count_above. now rewrite filter_true.
Qed.

Lemma top_artists_by_followers_size
      (artists : DataFrame) (f : Series) (keys : list Z) (top_n : Z) :
  rectangular artists ->
  getitem "followers" artists = Ok f ->
  coerce_int rt f = Ok (IntCol keys) ->
  exists r,
    Analyzer.top_artists_by_followers rt artists top_n = Ok r /\
    rectangular r /\
    nrows r = head_length top_n (nrows artists).
Proof.
  intros Hwa Hf Hc.
  destruct (ranking "followers" artists f keys top_n Hwa Hf Hc)
    as (_ & _ & _ & _ & _ & _ & Hrect & Hn).
  eexists.
  split; [exact (top_artists_by_followers_result artists f keys top_n Hwa Hf Hc)|].
  split; [exact Hrect | exact Hn].
Qed.

(** X3: how many rows the two rankings return when the cast of their key
    returns: [top_n] of them when there are that many candidates (the
    tracks whose integer popularity is above the threshold, all artists),
    all candidates otherwise, none for [top_n = 0]; a negative [top_n]
    leaves out the last [-top_n] candidates.  Every column of the result
    has that many cells. *)
Theorem rankings_size
        (tracks artists : DataFrame) (p f : Series) (pops keys : list Z)
        (threshold : option Z) (top_n : Z) :
  wf tracks = true ->
  wf artists = true ->
  getitem "popularity" tracks = Ok p ->
  getitem "followers" artists = Ok f ->
  coerce_int rt p = Ok (IntCol pops) ->
  coerce_int rt f = Ok (IntCol keys) ->
  (exists r,
     Analyzer.get_top_popular_tracks rt tracks threshold top_n = Ok r /\
     rectangular r /\
     nrows r = head_length top_n (count_above threshold pops)) /\
  (exists r,
     Analyzer.top_artists_by_followers rt artists top_n = Ok r /\
     rectangular r /\
     nrows r = head_length top_n (nrows artists)).
Proof.
  intros Hwt Hwa Hp Hf Hcp Hcf. split.
  - exact (get_top_popular_tracks_size tracks p pops threshold top_n Hwt Hp Hcp).
  - exact (top_artists_by_followers_size artists f keys top_n
             (wf_rectangular _ Hwa) Hf Hcf).
Qed.

End Rankings.

Lemma top_artists_by_followers_ranks_witness :
  exists order,
    Analyzer.top_artists_by_followers Example.stable artists_mixed_followers 3
    = Ok (df_take (head 3 order)
            (setitem "followers" (IntCol [12; 0; 0; 40]) artists_mixed_followers)) /\
    Permutation order (seq 0 (nrows artists_mixed_followers)) /\
    Sorted Z.ge (map (fun i => nth i [12; 0; 0; 40] 0) order) /\
    (argsort_stable (argsort Example.stable) ->
     Sorted (desc_stable [12; 0; 0; 40]) order).
Proof.
  exact (proj1 (proj2
           (top_artists_by_followers_ranks Example.stable ExampleFacts.stable_sorts
              artists_mixed_followers
              (ObjCol [OStr "12"; OStr "many"; ONaN; OInt 40]) 3 eq_refl eq_refl))
           [12; 0; 0; 40] eq_refl).
Defined.

(** A follower count that reads as infinity makes the ranking raise; one
    beyond int64 becomes the smallest int64 and is ranked last. *)
Lemma top_artists_by_followers_beyond_int64 :
  Analyzer.top_artists_by_followers Example.stable
    (mkDataFrame (IntCol [0; 1])
       [("followers", FloatCol [Some (FInf false); F64.of_Z 5])]) 10
  = Raise ValueError /\
  Analyzer.top_artists_by_followers Example.stable
    (mkDataFrame (IntCol [0; 1])
       [("followers", FloatCol [F64.of_Z (10 ^ 20); F64.of_Z 5])]) 10
  = Ok (mkDataFrame (IntCol [1; 0])
          [("followers", IntCol [5; INT64_MIN])]).
Proof. split; reflexivity. Qed.

Lemma get_top_popular_tracks_without_threshold_witness :
  exists order,
    Analyzer.get_top_popular_tracks Example.stable five_tracks None 2
    = Ok (df_take (head 2 order)
            (setitem "popularity" (IntCol [95; 90; 92; 88; 95]) five_tracks)) /\
    Permutation order (seq 0 (nrows five_tracks)) /\
    Sorted Z.ge (map (fun i => nth i [95; 90; 92; 88; 95] 0) order) /\
    (argsort_stable (argsort Example.stable) ->
     Sorted (desc_stable [95; 90; 92; 88; 95]) order).
Proof.
  exact (proj2
           (get_top_popular_tracks_without_threshold Example.stable
              ExampleFacts.stable_sorts
              five_tracks (IntCol [95; 90; 92; 88; 95]) 2 eq_refl eq_refl)
           [95; 90; 92; 88; 95] eq_refl).
Defined.

Lemma rankings_size_witness :
  (exists r,
     Analyzer.get_top_popular_tracks Example.stable five_tracks (Some 90) 2 = Ok r /\
     rectangular r /\ nrows r = 2%nat) /\
  (exists r,
     Analyzer.top_artists_by_followers Example.stable artists_mixed_followers 2 = Ok r /\
     rectangular r /\ nrows r = 2%nat).
Proof.
  exact (rankings_size Example.stable ExampleFacts.stable_sorts
           five_tracks artists_mixed_followers
           (IntCol [95; 90; 92; 88; 95])
           (ObjCol [OStr "12"; OStr "many"; ONaN; OInt 40])
           [95; 90; 92; 88; 95] [12; 0; 0; 40]
           (Some 90) 2 eq_refl eq_refl eq_refl eq_refl eq_refl eq_refl).
Defined.

(* ================================================================== *)
(** * The release date as index *)

Lemma has_column_filter_out (n : string) (ix : Series) (cs : list (string * Series)) :
  has_column n
    (mkDataFrame ix (filter (fun c => negb (String.eqb (fst c) n)) cs)) = false.
Proof.
  unfold has_column, columns. simpl.
  induction cs as [|[k s] cs IH]; simpl; [reflexivity|].
  destruct (String.eqb k n) eqn:E; simpl; [exact IH|].
  now rewrite String.eqb_sym, E, IH.
Qed.

Section ReleaseDateIndex.

Variable rt : Runtime.

(** X4: [set_release_date_index] returns on every table and keeps every
    row: the release dates, read as timestamps, become the row labels (NaT
    where a date cannot be read), the column leaves the table, and the
    other columns stay as they are.  A table without the column is
    returned unchanged, so applying the function twice is applying it
    once. *)
Theorem set_release_date_index_keeps_rows (tracks : DataFrame) :
  wf tracks = true ->
  exists r,
    Analyzer.set_release_date_index rt tracks = Ok r /\
    nrows r = nrows tracks /\
    has_column "release_date" r = false /\
    (forall d, getitem "release_date" tracks = Ok d -> index r = to_datetime rt d) /\
    (has_column "release_date" tracks = false -> r = tracks) /\
    (forall n, n <> "release_date" -> getitem n r = getitem n tracks) /\
    Analyzer.set_release_date_index rt r = Ok r.
Proof.
  intros Hwf. apply wf_rectangular in Hwf.
  unfold Analyzer.set_release_date_index at 1. cbv zeta.
  destruct (has_column "release_date" tracks) eqn:Hc.
  - destruct (has_column_true _ _ Hc) as (d & Hd). apply getitem_ok in Hd.
    rewrite Hd. bind_step.
    unfold set_index. rewrite getitem_setitem_same. bind_step.
    eexists. split; [reflexivity|].
    split; [|split; [apply has_column_filter_out|split; [|split; [|split]]]].
    + unfold nrows at 1. simpl index. rewrite series_length_to_datetime.
      apply (rectangular_getitem _ _ _ Hwf Hd).
    + intros d' Hd'. assert (d' = d) by congruence. now subst d'.
    + discriminate.
    + intros n Hn. unfold getitem. simpl cols.
      rewrite lookup_filter_other by exact Hn.
      rewrite lookup_assign_other; [reflexivity | congruence].
    + unfold Analyzer.set_release_date_index. cbv zeta.
      now rewrite has_column_filter_out.
  - exists tracks. split; [reflexivity|]. split; [reflexivity|]. split; [exact Hc|].
    split; [|split; [reflexivity|split; [reflexivity|]]].
    + intros d Hd. apply has_column_getitem in Hd. congruence.
    + unfold Analyzer.set_release_date_index. cbv zeta. now rewrite Hc.
Qed.

End ReleaseDateIndex.

Lemma set_release_date_index_keeps_rows_witness :
  exists r,
    Analyzer.set_release_date_index Example.stable tracks_bad_date = Ok r /\
    nrows r = nrows tracks_bad_date /\
    has_column "release_date" r = false /\
    (forall d, getitem "release_date" tracks_bad_date = Ok d ->
               index r = to_datetime Example.stable d) /\
    (has_column "release_date" tracks_bad_date = false -> r = tracks_bad_date) /\
    (forall n, n <> "release_date" -> getitem n r = getitem n tracks_bad_date) /\
    Analyzer.set_release_date_index Example.stable r = Ok r.
Proof.
  exact (set_release_date_index_keeps_rows Example.stable tracks_bad_date eq_refl).
Defined.

(** The dates of the example: the one that cannot be read is NaT. *)
Lemma tracks_bad_date_index :
  (r <- Analyzer.set_release_date_index Example.stable tracks_bad_date ;; Ok (index r))
  = Ok (DateCol [Some (timestamp 2020 3 1); None; Some (timestamp 2019 12 31)]).
Proof. reflexivity. Qed.

(* ================================================================== *)
(** * Genre counts *)

Lemma total_perm (l1 l2 : list Z) : Permutation l1 l2 -> total l1 = total l2.
Proof. induction 1; simpl; lia. Qed.

Lemma take_nil_r {A} (ix : list nat) : take ix (@nil A) = [].
Proof.
  induction ix as [|i ix IH]; [reflexivity|].
  rewrite take_cons, IH. now destruct i.
Qed.

(** The counts of distinct keys add up to the number of elements that are
    among the keys. *)
Lemma total_counts (keys l : list string) :
  NoDup keys ->
  total (map (fun k => count k l) keys)
  = Z.of_nat (length (filter (fun x => existsb (String.eqb x) keys) l)).
Proof.
  intros Hnd. induction Hnd as [|k keys Hk Hnd IH].
  - simpl. induction l; simpl; auto.
  - change (total (map (fun k => count k l) (k :: keys)))
      with (count k l + total (map (fun k => count k l) keys)).
    rewrite IH. unfold count. rewrite <- Nat2Z.inj_add. f_equal. clear IH.
    induction l as [|x l IHl]; [reflexivity|].
    cbn [filter existsb] in *. rewrite (String.eqb_sym k x).
    destruct (String.eqb x k) eqn:E.
    + apply String.eqb_eq in E. subst x.
      assert (Hno : existsb (String.eqb k) keys = false).
      { destruct (existsb (String.eqb k) keys) eqn:Ex; [|reflexivity].
        apply existsb_exists in Ex. destruct Ex as (y & Hy & Hky).
        apply String.eqb_eq in Hky. subst y. contradiction. }
      rewrite Hno. cbn [orb length]. lia.
    + cbn [orb]. destruct (existsb (String.eqb x) keys); cbn [length]; lia.
Qed.

Lemma total_counts_unique (l : list string) :
  total (map (fun k => count k l) (unique l)) = Z.of_nat (length l).
Proof.
  rewrite total_counts by apply unique_NoDup. f_equal. f_equal.
  apply PyFacts.filter_id. apply Forall_forall. intros x Hx.
  apply existsb_exists. exists x. split; [now apply unique_In | apply String.eqb_refl].
Qed.

Lemma mapM_raises {A B} (f : A -> result B) (l : list A) (a : A) (e : exn) :
  In a l -> f a = Raise e ->
  exists a' e', In a' l /\ f a' = Raise e' /\ mapM f l = Raise e'.
Proof.
  induction l as [|x l IH]; intros Hin Ha; [destruct Hin|].
  simpl. destruct (f x) as [b|e0] eqn:Ex.
  - destruct Hin as [->|Hin]; [congruence|].
    destruct (IH Hin Ha) as (a' & e' & Hin' & Ha' & Hm).
    exists a', e'. split; [now right|]. split; [exact Ha'|].
    rewrite bind_Ok. now rewrite Hm.
  - exists x, e0. split; [now left|]. now split.
Qed.

(** The text among tokens that are text or [None]: the tokens that are
    not [None], in order. *)
Lemma strings_of_spec (l : list pyobj) (strs : list string) :
  strings_of l = Some strs ->
  map OStr strs = filter (fun t => negb (obj_eqb ONone t)) l.
Proof.
  revert strs. induction l as [|t l IH]; simpl; intros strs H.
  - now injection H as <-.
  - destruct t; try discriminate.
    + simpl. now apply IH.
    + destruct (strings_of l) as [strs'|]; [|discriminate].
      injection H as <-. simpl. f_equal. now apply IH.
Qed.

Section GenreCounts.

Variable rt : Runtime.

Lemma genre_tokens_raises_uncaught (v : pyobj) (e : exn) :
  Analyzer.genre_tokens rt v = Raise e -> uncaught e.
Proof.
  destruct v; simpl; try discriminate.
  destruct (literal_eval rt s) as [[l|]|e0]; try discriminate.
  destruct e0; try discriminate; intros [= <-]; split; discriminate.
Qed.

Lemma genre_tokens_other (v : pyobj) :
  holds_genres v = false -> Analyzer.genre_tokens rt v = Ok [].
Proof. destruct v; simpl; try discriminate; reflexivity. Qed.

Lemma value_counts_str_nil : value_counts_str rt [] = [].
Proof. unfold value_counts_str. simpl. apply take_nil_r. Qed.

(** X5: when [ast.literal_eval] returns or raises a caught exception on
    every text of the column, [genre_distribution] counts the tokens
    read; when these are text or [None], the counts add up to the number
    of tokens that are text ([None] is not counted), every genre listed
    has a count of at least 1, and without such tokens the distribution
    is empty. *)
Theorem genre_distribution_counts_sum (artists : DataFrame) (g : Series) :
  argsort_sorts (argsort rt) ->
  getitem "genres" artists = Ok g ->
  Forall (readable rt) (dropna_values g) ->
  exists tokens,
    mapM (Analyzer.genre_tokens rt) (dropna_values g) = Ok tokens /\
    forall strs, strings_of (concat tokens) = Some strs ->
      exists dist,
        Analyzer.genre_distribution rt artists = Ok (map text_key dist) /\
        map OStr strs = filter (fun t => negb (obj_eqb ONone t)) (concat tokens) /\
        total (map snd dist) = Z.of_nat (length strs) /\
        Forall (fun kc => 1 <= snd kc) dist /\
        (strs = [] -> dist = []).
Proof.
  intros Hsorts Hg Hread.
  destruct (mapM_total (Analyzer.genre_tokens rt) (dropna_values g)) as (tokens & Htok).
  { intros v Hv. apply genre_tokens_total. rewrite Forall_forall in Hread. auto. }
  exists tokens. split; [exact Htok|]. intros strs Hstrs.
  exists (value_counts_str rt strs).
  split; [|split; [|split; [|split]]].
  - rewrite (genre_distribution_value_counts rt artists g tokens Hg Htok).
    unfold value_counts. now rewrite Hstrs.
  - now apply strings_of_spec.
  - rewrite (total_perm _ _ (Permutation_map snd (value_counts_perm rt Hsorts _))).
    rewrite map_map. simpl. apply total_counts_unique.
  - apply Forall_forall. intros [k c] Hin. simpl.
    apply (value_counts_In rt Hsorts) in Hin. destruct Hin as [Hin ->].
    unfold count.
    assert (Hk : In k (filter (String.eqb k) strs)).
    { apply filter_In. split; [exact Hin | apply String.eqb_refl]. }
    destruct (filter (String.eqb k) strs); [destruct Hk | simpl; lia].
  - intros ->. apply value_counts_str_nil.
Qed.

(** X6: [genre_distribution] catches only ValueError and SyntaxError.
    When [ast.literal_eval] raises anything else on the text of some
    artist's genres, the function raises as well, and what it raises is
    neither of the two. *)
Theorem genre_distribution_propagates
        (artists : DataFrame) (cells : list pyobj) (s : string) (e : exn) :
  getitem "genres" artists = Ok (ObjCol cells) ->
  In (OStr s) cells ->
  literal_eval rt s = Raise e ->
  uncaught e ->
  exists e', Analyzer.genre_distribution rt artists = Raise e' /\ uncaught e'.
Proof.
  intros Hg Hin He Hu.
  pose proof (genre_tokens_uncaught rt s e He Hu) as Hraise.
  assert (Hin' : In (OStr s) (dropna_values (ObjCol cells))).
  { simpl. apply filter_In. now split. }
  destruct (mapM_raises _ _ _ _ Hin' Hraise) as (v & e' & _ & Hv' & Hm).
  exists e'. split; [|now apply (genre_tokens_raises_uncaught v)].
  unfold Analyzer.genre_distribution.
  rewrite (has_column_getitem _ _ _ Hg). simpl negb. cbv iota.
  rewrite Hg. bind_step. now rewrite Hm.
Qed.

(** X7: values that are neither text nor a list add nothing: on a genres
    column without any text or list, of numbers say, [genre_distribution]
    returns the empty distribution. *)
Theorem genre_distribution_skips_other_values (artists : DataFrame) (g : Series) :
  getitem "genres" artists = Ok g ->
  existsb holds_genres (dropna_values g) = false ->
  Analyzer.genre_distribution rt artists = Ok [].
Proof.
  intros Hg Hno.
  assert (Htok : mapM (Analyzer.genre_tokens rt) (dropna_values g)
                 = Ok (map (fun _ => []) (dropna_values g))).
  { apply mapM_map. apply Forall_forall. intros v Hv. apply genre_tokens_other.
    destruct (holds_genres v) eqn:E; [|reflexivity].
    assert (existsb holds_genres (dropna_values g) = true)
      by (apply existsb_exists; eauto).
    congruence. }
  rewrite (genre_distribution_value_counts rt artists g _ Hg Htok).
  assert (E : forall l : list pyobj, concat (map (fun _ => @nil pyobj) l) = []).
  { intros l. induction l; simpl; auto. }
  rewrite E. unfold value_counts. simpl. now rewrite value_counts_str_nil.
Qed.

End GenreCounts.

Lemma genre_distribution_counts_sum_witness :
  exists dist,
    Analyzer.genre_distribution Example.stable three_artists = Ok (map text_key dist) /\
    map OStr ["pop"; "rock"; "pop"; "jazz"; "rock"]
    = filter (fun t => negb (obj_eqb ONone t))
        (concat [[OStr "pop"; OStr "rock"]; [OStr "pop"; OStr "jazz"]; [OStr "rock"]]) /\
    total (map snd dist) = 5 /\
    Forall (fun kc => 1 <= snd kc) dist /\
    (["pop"; "rock"; "pop"; "jazz"; "rock"] = [] -> dist = []).
Proof.
  destruct (genre_distribution_counts_sum Example.stable three_artists
              (ObjCol [OStr "['pop','rock']"; OStr "pop, jazz"; OList [OStr "rock"]])
              ExampleFacts.stable_sorts eq_refl)
    as (tokens & Htok & H).
  - repeat apply Forall_cons; try apply Forall_nil; cbv; auto.
  - injection Htok as <-. exact (H _ eq_refl).
Defined.

Lemma genre_distribution_propagates_witness :
  exists e',
    Analyzer.genre_distribution Example.stable artists_dict_genres = Raise e' /\
    uncaught e'.
Proof.
  apply (genre_distribution_propagates Example.stable artists_dict_genres
           [OStr "['pop']"; OStr unhashable_key] unhashable_key TypeError eq_refl).
  - right. now left.
  - reflexivity.
  - split; discriminate.
Defined.

Lemma genre_distribution_skips_other_values_witness :
  Analyzer.genre_distribution Example.stable artists_numeric_genres = Ok [].
Proof.
  exact (genre_distribution_skips_other_values Example.stable artists_numeric_genres
           (FloatCol [F64.of_Z 1; None; F64.of_Z 3]) eq_refl eq_refl).
Defined.

(* ================================================================== *)
(** * A trend without dates *)

Section TrendEdges.

Variable rt : Runtime.

Lemma nonzero_none (mask : list bool) :
  existsb negb mask = false -> nonzero (map negb mask) = [].
Proof.
  unfold nonzero. generalize 0%nat.
  induction mask as [|b mask IH]; intros s H; [reflexivity|].
  simpl in *. apply orb_false_iff in H. destruct H as [-> H]. now apply IH.
Qed.

(** A column in which nothing was read is a datetime column. *)
Lemma to_datetime_all_missing (d : Series) :
  existsb negb (isna (to_datetime rt d)) = false ->
  exists dates, to_datetime rt d = DateCol dates.
Proof.
  intros H.
  assert (Hobj : forall cells,
             existsb negb (isna (ObjCol (map datetime_obj cells))) = false ->
             same_offset cells = true).
  { intros cells Hc. unfold same_offset, offsets.
    assert (E : somes cells = []).
    { induction cells as [|[[t o]|] cells IH]; [reflexivity | discriminate Hc |].
      apply IH. exact Hc. }
    now rewrite E. }
  unfold to_datetime in *.
  destruct d; eauto;
    match goal with
    | |- context [if same_offset ?c then _ else _] =>
        destruct (same_offset c) eqn:E; [eauto|];
        apply Hobj in H; congruence
    end.
Qed.

Lemma to_numeric_no_rows (p : Series) : exists q, to_numeric rt (series_take [] p) = Ok q.
Proof. destruct p; simpl; eauto. Qed.

(** X8: when no release date can be read (or the table has no rows),
    [popularity_trend] returns the empty trend: it does not raise. *)
Theorem popularity_trend_without_dates
        (tracks : DataFrame) (d p : Series) (freq : string) (o : offset) :
  wf tracks = true ->
  getitem "release_date" tracks = Ok d ->
  getitem "popularity" tracks = Ok p ->
  to_offset (if String.eqb (Py.upper freq) "Y" then "YE" else freq) = Some o ->
  existsb negb (isna (to_datetime rt d)) = false ->
  Analyzer.popularity_trend rt tracks freq = Ok [].
Proof.
  intros Hwf Hd Hp Hfreq Hnone.
  destruct (to_datetime_all_missing d Hnone) as (dates & Hdates).
  assert (Hkept : nonzero (map negb (isna (to_datetime rt d))) = []).
  { now apply nonzero_none. }
  destruct (to_numeric_no_rows p) as (q & Hq).
  rewrite (popularity_trend_resample rt tracks d p q freq Hd Hp)
    by now rewrite Hkept.
  rewrite Hkept, Hdates. unfold resample. rewrite Hfreq. simpl series_take.
  destruct p; simpl in Hq; injection Hq as <-; reflexivity.
Qed.

End TrendEdges.

Lemma popularity_trend_without_dates_witness :
  Analyzer.popularity_trend Example.stable tracks_no_dates "ME" = Ok [].
Proof.
  exact (popularity_trend_without_dates Example.stable tracks_no_dates
           (ObjCol [OStr "soon"; ONaN]) (IntCol [50; 70]) "ME" MonthEnd
           eq_refl eq_refl eq_refl eq_refl eq_refl).
Defined.

(* ================================================================== *)
(** * What the cleaners keep *)

Lemma columns_rename (f : string -> string) (df : DataFrame) :
  columns (rename_columns f df) = map f (columns df).
Proof. unfold columns, rename_columns. simpl. now rewrite !map_map. Qed.

Lemma columns_fill (rt : Runtime) (df : DataFrame) :
  columns (fill_numeric_with_median rt df) = columns df.
Proof. unfold columns, fill_numeric_with_median. simpl. now rewrite map_map. Qed.

Lemma index_df_filter (mask : list bool) (df : DataFrame) :
  index (df_filter mask df) = series_take (nonzero mask) (index df).
Proof. reflexivity. Qed.

Lemma series_length_filter_le (mask : list bool) (s : Series) :
  (series_length (series_take (nonzero mask) s) <= series_length s)%nat.
Proof.
  rewrite series_take_select. destruct s; simpl; apply select_length_le.
Qed.

Lemma nrows_df_filter_le (mask : list bool) (df : DataFrame) :
  (nrows (df_filter mask df) <= nrows df)%nat.
Proof. unfold nrows. rewrite index_df_filter. apply series_length_filter_le. Qed.

Lemma getitem_df_filter (mask : list bool) (n : string) (df : DataFrame) (s : Series) :
  getitem n df = Ok s ->
  getitem n (df_filter mask df) = Ok (series_take (nonzero mask) s).
Proof. apply getitem_df_take. Qed.




Section Cleaners.

Variable rt : Runtime.

Lemma clean_features_inv (features r : DataFrame) :
  Cleaner.clean_features rt features = Ok r ->
  exists i,
    getitem "track_id" (rename_columns Cleaner.normalize_column features) = Ok i /\
    r = df_take (kept_rows rt i)
          (fill_numeric_with_median rt
             (rename_columns Cleaner.normalize_column features)).
Proof.
  unfold Cleaner.clean_features, drop_duplicates. cbv zeta. intros H.
  bind_inv H. injection H as <-.
  apply getitem_fill_inv in E. destruct E as (i & Hi & ->).
  now exists i.
Qed.


Lemma clean_tracks_inv (tracks r : DataFrame) :
  Cleaner.clean_tracks rt tracks = Ok r ->
  exists d i,
    getitem "release_date" (rename_columns Cleaner.normalize_column tracks) = Ok d /\
    getitem "id" (rename_columns Cleaner.normalize_column tracks) = Ok i /\
    r = df_take (kept_rows rt i)
          (fill_numeric_with_median rt
             (setitem "release_date" (to_datetime rt d)
                (rename_columns Cleaner.normalize_column tracks))).
Proof.
  unfold Cleaner.clean_tracks, drop_duplicates. cbv zeta. intros H.
  bind_inv H. bind_inv H. injection H as <-.
  apply getitem_fill_inv in E0. destruct E0 as (i & Hi & ->).
  rewrite getitem_setitem_other in Hi by discriminate.
  now exists x, i.
Qed.


Lemma clean_artists_inv (artists r : DataFrame) :
  Cleaner.clean_artists rt artists = Ok r ->
  exists g f p i fol pop cells,
    getitem "genres" (rename_columns Cleaner.normalize_column artists) = Ok g /\
    getitem "followers" (rename_columns Cleaner.normalize_column artists) = Ok f /\
    getitem "popularity" (rename_columns Cleaner.normalize_column artists) = Ok p /\
    getitem "id" (rename_columns Cleaner.normalize_column artists) = Ok i /\
    astype_int (fillna (OInt 0) f) = Ok (IntCol fol) /\
    astype_int (fillna (OInt 0) p) = Ok (IntCol pop) /\
    Cleaner.clean_genres rt (fillna (OStr "Unknown") g) = Ok (ObjCol (map OStr cells)) /\
    Forall (fun x => genres_norm x = x) cells /\
    r = df_filter (map negb (series_duplicated i))
          (setitem "genres" (ObjCol (map OStr cells))
             (setitem "popularity" (IntCol pop)
                (setitem "followers" (IntCol fol)
                   (setitem "genres" (fillna (OStr "Unknown") g)
                      (rename_columns Cleaner.normalize_column artists))))).
Proof.
  unfold Cleaner.clean_artists, drop_duplicates. cbv zeta. intros H.
  set (df0 := rename_columns Cleaner.normalize_column artists) in *.
  bind_inv H. rename x into g, E into Eg.
  bind_inv H. rename x into f, E into Ef.
  bind_inv H. rename x into f', E into Ef'.
  bind_inv H. rename x into p, E into Ep.
  bind_inv H. rename x into p', E into Ep'.
  bind_inv H. rename x into g1, E into Eg1.
  bind_inv H. rename x into g', E into Eg'.
  bind_inv H. rename x into i, E into Ei.
  injection H as <-.
  rewrite getitem_setitem_other in Ef by discriminate.
  rewrite !getitem_setitem_other in Ep by discriminate.
  rewrite !getitem_setitem_other, getitem_setitem_same in Eg1 by discriminate.
  injection Eg1 as <-.
  rewrite !getitem_setitem_other in Ei by discriminate.
  destruct (astype_int_IntCol _ _ Ef') as (fol & -> & _).
  destruct (astype_int_IntCol _ _ Ep') as (pop & -> & _).
  destruct (clean_genres_spec rt _ _ Eg') as (cells & -> & Hnorm & _).
  exists g, f, p, i, fol, pop, cells. repeat split; assumption.
Qed.

Lemma clean_artists_columns (artists a : DataFrame) :
  Cleaner.clean_artists rt artists = Ok a ->
  columns a = map Cleaner.normalize_column (columns artists).
Proof.
  intros Ha. apply clean_artists_inv in Ha.
  destruct Ha as (g & fo & p & i & fol & pop & cells &
                  Hg & Hfo & Hp & Hi & _ & _ & _ & _ & ->).
  unfold df_filter. rewrite columns_df_take.
  set (df0 := rename_columns Cleaner.normalize_column artists) in *.
  set (df1 := setitem "genres" (fillna (OStr "Unknown") g) df0).
  set (df2 := setitem "followers" (IntCol fol) df1).
  set (df3 := setitem "popularity" (IntCol pop) df2).
  assert (H1 : getitem "followers" df1 = Ok fo)
    by (unfold df1; now rewrite getitem_setitem_other by discriminate).
  assert (H2 : getitem "popularity" df2 = Ok p)
    by (unfold df2, df1; now rewrite !getitem_setitem_other by discriminate).
  assert (H3 : getitem "genres" df3 = Ok (fillna (OStr "Unknown") g)).
  { unfold df3, df2, df1.
    now rewrite !getitem_setitem_other, getitem_setitem_same by discriminate. }
  rewrite (columns_setitem _ _ _ _ H3). unfold df3.
  rewrite (columns_setitem _ _ _ _ H2). unfold df2.
  rewrite (columns_setitem _ _ _ _ H1). unfold df1.
  rewrite (columns_setitem _ _ _ _ Hg). apply columns_rename.
Qed.

Lemma clean_tracks_columns (tracks t : DataFrame) :
  Cleaner.clean_tracks rt tracks = Ok t ->
  columns t = map Cleaner.normalize_column (columns tracks).
Proof.
  intros Ht. apply clean_tracks_inv in Ht. destruct Ht as (d & i & Hd & _ & ->).
  rewrite columns_df_take, columns_fill.
  rewrite (columns_setitem _ _ _ _ Hd). apply columns_rename.
Qed.

Lemma clean_features_columns (features f : DataFrame) :
  Cleaner.clean_features rt features = Ok f ->
  columns f = map Cleaner.normalize_column (columns features).
Proof.
  intros Hf. apply clean_features_inv in Hf. destruct Hf as (i & _ & ->).
  rewrite columns_df_take, columns_fill. apply columns_rename.
Qed.

Lemma clean_artists_rectangular (artists a : DataFrame) :
  rectangular (rename_columns Cleaner.normalize_column artists) ->
  Cleaner.clean_artists rt artists = Ok a ->
  rectangular a.
Proof.
  intros Hrect H. unfold Cleaner.clean_artists in H. cbv zeta in H.
  set (df0 := rename_columns Cleaner.normalize_column artists) in *.
  bind_inv H. rename x into g, E into Eg.
  set (df1 := setitem "genres" (fillna (OStr "Unknown") g) df0) in *.
  assert (R1 : rectangular df1).
  { apply rectangular_setitem; [exact Hrect|].
    rewrite series_length_fillna. apply (rectangular_getitem _ _ _ Hrect Eg). }
  bind_inv H. rename x into f, E into Ef.
  bind_inv H. rename x into f', E into Ef'.
  set (df2 := setitem "followers" f' df1) in *.
  assert (R2 : rectangular df2).
  { apply rectangular_setitem; [exact R1|].
    destruct (astype_int_IntCol _ _ Ef') as (l & -> & Hl). simpl.
    rewrite Hl, series_length_fillna. apply (rectangular_getitem _ _ _ R1 Ef). }
  bind_inv H. rename x into p, E into Ep.
  bind_inv H. rename x into p', E into Ep'.
  set (df3 := setitem "popularity" p' df2) in *.
  assert (R3 : rectangular df3).
  { apply rectangular_setitem; [exact R2|].
    destruct (astype_int_IntCol _ _ Ep') as (l & -> & Hl). simpl.
    rewrite Hl, series_length_fillna. apply (rectangular_getitem _ _ _ R2 Ep). }
  bind_inv H. rename x into g1, E into Eg1.
  bind_inv H. rename x into g', E into Eg'.
  set (df4 := setitem "genres" g' df3) in *.
  assert (R4 : rectangular df4).
  { apply rectangular_setitem; [exact R3|].
    destruct (clean_genres_spec rt _ _ Eg') as (l & -> & _ & Hl). simpl.
    rewrite length_map, Hl. apply (rectangular_getitem _ _ _ R3 Eg1). }
  apply (drop_duplicates_rectangular "id" df4 a R4 H).
Qed.

Lemma clean_tracks_rectangular (tracks t : DataFrame) :
  rectangular (rename_columns Cleaner.normalize_column tracks) ->
  Cleaner.clean_tracks rt tracks = Ok t ->
  rectangular t.
Proof.
  intros Hrect H. unfold Cleaner.clean_tracks in H. cbv zeta in H.
  bind_inv H. rename x into d, E into Ed.
  refine (drop_duplicates_rectangular "id" _ t _ H).
  apply rectangular_fill, rectangular_setitem; [exact Hrect|].
  rewrite series_length_to_datetime. apply (rectangular_getitem _ _ _ Hrect Ed).
Qed.

(** X9: the cleaners neither add, drop nor reorder columns: the cleaned
    table has the columns of the raw one under their normalised names
    (lower case, spaces as underscores), and no more rows than it. *)
Theorem cleaners_keep_columns (artists tracks features a t f : DataFrame) :
  Cleaner.clean_artists rt artists = Ok a ->
  Cleaner.clean_tracks rt tracks = Ok t ->
  Cleaner.clean_features rt features = Ok f ->
  (columns a = map Cleaner.normalize_column (columns artists) /\
   (nrows a <= nrows artists)%nat) /\
  (columns t = map Cleaner.normalize_column (columns tracks) /\
   (nrows t <= nrows tracks)%nat) /\
  (columns f = map Cleaner.normalize_column (columns features) /\
   (nrows f <= nrows features)%nat).
Proof.
  intros Ha Ht Hf. split; [|split].
  - split; [now apply clean_artists_columns|].
    apply clean_artists_inv in Ha.
    destruct Ha as (g & fo & p & i & fol & pop & cells &
                    _ & _ & _ & _ & _ & _ & _ & _ & ->).
    apply (nrows_df_filter_le _ (mkDataFrame (index artists) _)).
  - split; [now apply clean_tracks_columns|].
    apply clean_tracks_inv in Ht. destruct Ht as (d & i & _ & _ & ->).
    apply (nrows_df_filter_le _ (mkDataFrame (index tracks) _)).
  - split; [now apply clean_features_columns|].
    apply clean_features_inv in Hf. destruct Hf as (i & _ & ->).
    apply (nrows_df_filter_le _ (mkDataFrame (index features) _)).
Qed.

End Cleaners.

Lemma cleaners_keep_columns_witness :
  (columns cleaned_artists = map Cleaner.normalize_column (columns raw_artists) /\
   (nrows cleaned_artists <= nrows raw_artists)%nat) /\
  (columns cleaned_tracks = map Cleaner.normalize_column (columns raw_tracks) /\
   (nrows cleaned_tracks <= nrows raw_tracks)%nat) /\
  (columns cleaned_features = map Cleaner.normalize_column (columns raw_features) /\
   (nrows cleaned_features <= nrows raw_features)%nat).
Proof.
  exact (cleaners_keep_columns Example.stable raw_artists raw_tracks raw_features
           cleaned_artists cleaned_tracks cleaned_features eq_refl eq_refl eq_refl).
Defined.

(* ================================================================== *)
(** * The rows and cells the cleaners leave *)



Section CleanedRows.

Variable rt : Runtime.



Lemma cleaned_genres_formatted (artists a : DataFrame) :
  Cleaner.clean_artists rt artists = Ok a ->
  exists cells,
    getitem "genres" a = Ok (ObjCol (map OStr cells)) /\
    Forall formatted cells.
Proof.
  intros Ha. apply clean_artists_inv in Ha.
  destruct Ha as (g & fo & p & i & fol & pop & cells &
                  _ & _ & _ & _ & _ & _ & _ & Hnorm & ->).
  exists (take (nonzero (map negb (series_duplicated i))) cells). split.
  - erewrite getitem_df_filter; [|apply getitem_setitem_same].
    simpl. now rewrite take_map.
  - apply Forall_take. eapply Forall_impl; [|exact Hnorm].
    intros x Hx. rewrite <- Hx. apply genres_norm_formatted.
Qed.

(** X12: after [clean_artists] every cell of 'genres' is text without
    brackets, single quotes or upper-case letters and without white space
    at either end. *)
Theorem clean_artists_genres_format (artists a : DataFrame) :
  Cleaner.clean_artists rt artists = Ok a ->
  exists cells,
    getitem "genres" a = Ok (ObjCol (map OStr cells)) /\
    Forall formatted cells.
Proof. apply cleaned_genres_formatted. Qed.


End CleanedRows.



Lemma clean_artists_genres_format_witness :
  exists cells,
    getitem "genres" cleaned_artists = Ok (ObjCol (map OStr cells)) /\
    Forall formatted cells.
Proof.
  exact (clean_artists_genres_format Example.stable raw_artists cleaned_artists eq_refl).
Defined.


(* ================================================================== *)
(** * The dashboard's filters *)

Lemma select_select_nonzero (m1 m2 : list bool) (s : nat) :
  select (select m1 m2) (nonzero_from s m1) = nonzero_from s (mask_and m1 m2).
Proof.
  revert m2 s. induction m1 as [|b m1 IH]; intros m2 s; [reflexivity|].
  destruct m2 as [|c m2]; [now destruct b|].
  unfold mask_and in *. destruct b; simpl.
  - destruct c; simpl; now rewrite IH.
  - apply IH.
Qed.

(** Two filters in a row are one filter by both masks. *)
Lemma df_filter_filter (m1 m2 : list bool) (df : DataFrame) :
  rectangular df ->
  length m1 = nrows df ->
  df_filter (select m1 m2) (df_filter m1 df) = df_filter (mask_and m1 m2) df.
Proof.
  intros Hrect Hlen. unfold df_filter.
  rewrite df_take_take; [|exact Hrect|rewrite <- Hlen; apply nonzero_bound].
  f_equal. rewrite take_nonzero. apply select_select_nonzero.
Qed.

Lemma mask_and_true (n : nat) (m : list bool) :
  length m = n -> mask_and (repeat true n) m = m.
Proof.
  revert m. induction n as [|n IH]; intros [|b m] H; try discriminate; [reflexivity|].
  unfold mask_and in *. simpl. f_equal. apply IH. now injection H.
Qed.

Lemma mask_true_and (n : nat) (m : list bool) :
  length m = n -> mask_and m (repeat true n) = m.
Proof.
  revert m. induction n as [|n IH]; intros [|b m] H; try discriminate; [reflexivity|].
  unfold mask_and in *. simpl. rewrite andb_true_r. f_equal. apply IH. now injection H.
Qed.

Lemma years_mask (year_range : Z * Z) (dates : list (option Z)) :
  mask_and (ge_scalar (map (option_map year_of) dates) (fst year_range))
           (le_scalar (map (option_map year_of) dates) (snd year_range))
  = map (in_years year_range) dates.
Proof.
  unfold mask_and, ge_scalar, le_scalar.
  induction dates as [|[t|] dates IH]; simpl; [reflexivity| |]; now rewrite IH.
Qed.

Section Filters.

Variable rt : Runtime.

Lemma eq_str_take (ix : list nat) (s : Series) (x : string) :
  eq_str rt (series_take ix s) x = take ix (eq_str rt s x).
Proof.
  destruct s; cbn [series_take eq_str]; rewrite ?take_map; try reflexivity.
  destruct (to_datetime_at rt (ObjCol [OStr x]) 0) as [[t [o|]]|];
    now rewrite take_map.
Qed.

Lemma length_eq_str (s : Series) (x : string) :
  length (eq_str rt s x) = series_length s.
Proof.
  destruct s; cbn [series_length eq_str]; rewrite ?length_map; try reflexivity.
  destruct (to_datetime_at rt (ObjCol [OStr x]) 0) as [[t [o|]]|];
    now rewrite length_map.
Qed.

Lemma selection_mask_eq_str (cells : list pyobj) (choice : string) :
  (if String.eqb choice "All" then repeat true (series_length (ObjCol cells))
   else eq_str rt (ObjCol cells) choice)
  = selection_mask (OStr choice) cells.
Proof.
  unfold selection_mask.
  change (obj_eqb (OStr choice) (OStr "All")) with (String.eqb choice "All").
  destruct (String.eqb choice "All").
  - cbn [series_length orb]. induction cells as [|c cells IH]; [reflexivity|].
    cbn [length repeat map]. now rewrite IH.
  - reflexivity.
Qed.

(** X14: [get_filtered_tracks] returns, in their original order, the
    tracks whose artist is the one chosen (every track for "All") and
    whose release year lies in the range, both ends included.  A track
    without a release date is in no range. *)
Theorem get_filtered_tracks_rows
        (tracks : DataFrame) (cells : list pyobj) (dates : list (option Z))
        (artist : string) (year_range : Z * Z) :
  wf tracks = true ->
  getitem "artists" tracks = Ok (ObjCol cells) ->
  getitem "release_date" tracks = Ok (DateCol dates) ->
  App.get_filtered_tracks rt tracks artist year_range
  = Ok (df_filter (mask_and (selection_mask (OStr artist) cells)
                            (map (in_years year_range) dates))
                  tracks).
Proof.
  intros Hwf Ha Hd. apply wf_rectangular in Hwf.
  rewrite <- selection_mask_eq_str. set (a := ObjCol cells) in *.
  pose proof (rectangular_getitem _ _ _ Hwf Ha) as Hla.
  pose proof (rectangular_getitem _ _ _ Hwf Hd) as Hld. simpl in Hld.
  unfold App.get_filtered_tracks. cbv zeta.
  destruct (String.eqb artist "All"); simpl negb; cbv iota.
  - bind_step. rewrite Hd. repeat first [bind_step | progress simpl dt_year].
    rewrite years_mask, mask_and_true; [reflexivity|].
    now rewrite length_map, Hld, Hla.
  - rewrite Ha. bind_step. bind_step.
    rewrite (getitem_df_filter _ _ _ _ Hd). simpl series_take.
    repeat first [bind_step | progress simpl dt_year].
    rewrite years_mask, take_nonzero, <- select_map.
    apply f_equal. apply df_filter_filter; [exact Hwf|].
    now rewrite length_eq_str.
Qed.

(** X15: [get_filtered_artists] returns, in their original order, the
    artists whose name is the one chosen and whose genres text is the one
    chosen, "All" standing for no condition: the two filters applied one
    after the other select by both conditions at once. *)
Theorem get_filtered_artists_rows
        (artists : DataFrame) (names genres : list pyobj) (artist genre : string) :
  wf artists = true ->
  getitem "name" artists = Ok (ObjCol names) ->
  getitem "genres" artists = Ok (ObjCol genres) ->
  App.get_filtered_artists rt artists artist genre
  = Ok (df_filter (mask_and (selection_mask (OStr artist) names)
                            (selection_mask (OStr genre) genres))
                  artists).
Proof.
  intros Hwf Hn Hg. apply wf_rectangular in Hwf.
  rewrite <- !selection_mask_eq_str.
  set (n := ObjCol names) in *. set (g := ObjCol genres) in *.
  pose proof (rectangular_getitem _ _ _ Hwf Hn) as Hln.
  pose proof (rectangular_getitem _ _ _ Hwf Hg) as Hlg.
  unfold App.get_filtered_artists. cbv zeta.
  destruct (String.eqb artist "All"); simpl negb; cbv iota.
  - bind_step. destruct (String.eqb genre "All"); simpl negb; cbv iota.
    + bind_step. rewrite mask_and_true by (rewrite repeat_length; congruence).
      unfold df_filter. rewrite Hlg, nonzero_all_true. now rewrite df_take_all.
    + rewrite Hg. bind_step. bind_step.
      now rewrite mask_and_true by (rewrite length_eq_str; congruence).
  - rewrite Hn. bind_step. bind_step.
    destruct (String.eqb genre "All"); simpl negb; cbv iota.
    + bind_step. now rewrite mask_true_and by (rewrite length_eq_str; congruence).
    + rewrite (getitem_df_filter _ _ _ _ Hg). bind_step. bind_step.
      rewrite eq_str_take, take_nonzero.
      apply f_equal. apply df_filter_filter; [exact Hwf|].
      now rewrite length_eq_str.
Qed.

End Filters.

Lemma get_filtered_tracks_rows_witness :
  App.get_filtered_tracks Example.stable dashboard_tracks "Queen" (1970, 1999)
  = Ok (df_filter [true; false; false; true] dashboard_tracks).
Proof.
  exact (get_filtered_tracks_rows Example.stable dashboard_tracks
           [OStr "Queen"; OStr "Adele"; OStr "Queen"; OStr "Queen"]
           [Some (timestamp 1975 10 31); Some (timestamp 2015 11 20);
            None; Some (timestamp 1991 2 4)]
           "Queen" (1970, 1999) eq_refl eq_refl eq_refl).
Defined.

Lemma get_filtered_artists_rows_witness :
  App.get_filtered_artists Example.stable dashboard_artists "All" "['rock']"
  = Ok (df_filter [true; false; true] dashboard_artists).
Proof.
  exact (get_filtered_artists_rows Example.stable dashboard_artists
           [OStr "Queen"; OStr "Adele"; OStr "Nas"]
           [OStr "['rock']"; OStr "['pop']"; OStr "['rock']"]
           "All" "['rock']" eq_refl eq_refl eq_refl).
Defined.

(* ================================================================== *)
(** * The dashboard's cleaners *)


Section AppCleaners.

Variable rt : Runtime.





End AppCleaners.



(* ================================================================== *)
(** * The analysis run *)

Lemma wf_intro (df : DataFrame) :
  distinct (columns df) = true -> rectangular df -> wf df = true.
Proof.
  intros Hd Hr. unfold wf. rewrite Hd. simpl. apply forallb_forall.
  intros c Hc. apply Nat.eqb_eq. unfold rectangular in Hr.
  rewrite Forall_forall in Hr. now apply Hr.
Qed.

Lemma wf_distinct (df : DataFrame) : wf df = true -> distinct (columns df) = true.
Proof. unfold wf. intros H. now apply andb_true_iff in H. Qed.

Lemma to_numeric_number (rt : Runtime) (s : Series) :
  is_number s = true -> to_numeric rt s = Ok s.
Proof. now destruct s. Qed.

Section Run.

Variable rt : Runtime.
Hypothesis sorts : argsort_sorts (argsort rt).
Hypothesis list_needs_bracket :
  forall s l, literal_eval rt s = Ok (LitList l) -> In "["%char (Py.chars s).

Lemma clean_data_inv (artists tracks features a t f : DataFrame) :
  Cleaner.clean_data rt artists tracks features = Ok (a, t, f) ->
  Cleaner.clean_artists rt artists = Ok a /\
  Cleaner.clean_tracks rt tracks = Ok t /\
  Cleaner.clean_features rt features = Ok f.
Proof.
  unfold Cleaner.clean_data. intros H.
  bind_inv H. bind_inv H. bind_inv H. injection H as <- <- <-. auto.
Qed.

(** After cleaning, the artists are ranked and their genres counted
    whenever the genres can be read. *)
Lemma cleaned_artists_analysed (artists a : DataFrame) (cells : list pyobj) :
  rectangular (rename_columns Cleaner.normalize_column artists) ->
  Cleaner.clean_artists rt artists = Ok a ->
  getitem "genres" a = Ok (ObjCol cells) ->
  Forall (readable rt) cells ->
  exists ta dist,
    Analyzer.top_artists_by_followers rt a Config.TOP_N_ARTISTS = Ok ta /\
    Analyzer.genre_distribution rt a = Ok dist /\
    columns ta = columns a /\
    nrows ta = Nat.min 10 (nrows a).
Proof.
  intros Hrect Ha Hcells Hread.
  assert (Ra : rectangular a) by now apply (clean_artists_rectangular rt artists a).
  destruct (cleaned_genres_formatted rt artists a Ha) as (texts & Hget & Hfmt).
  assert (cells = map OStr texts) by congruence. subst cells.
  assert (Hfol : exists fol, getitem "followers" a = Ok (IntCol fol)).
  { pose proof Ha as Ha'. apply clean_artists_inv in Ha'.
    destruct Ha' as (g & fo & p & i & fol & pop & cs &
                     _ & _ & _ & _ & _ & _ & _ & _ & ->).
    eexists.
    rewrite (getitem_df_filter _ "followers" _ (IntCol fol)); [reflexivity|].
    rewrite !getitem_setitem_other by discriminate. apply getitem_setitem_same. }
  destruct Hfol as (fol & Hfc).
  destruct (top_artists_by_followers_size rt sorts a (IntCol fol) fol
              Config.TOP_N_ARTISTS Ra Hfc eq_refl)
    as (ta & Hta & _ & Hna).
  exists ta, (map text_key (value_counts_str rt (concat (map pieces texts)))).
  split; [exact Hta|]. split; [|split].
  - now apply formatted_distribution.
  - apply (top_artists_by_followers_columns rt a ta _ Hta).
  - rewrite Hna. reflexivity.
Qed.

(** X18: the run of [main] on cleaned tables, when [ast.literal_eval]
    returns or raises a caught exception on every cleaned genres text.
    If the cleaned tracks have a numeric popularity column without an
    infinite value and a datetime release date, [run_analysis] returns,
    with at most [TOP_N_TRACKS] tracks and the first [TOP_N_ARTISTS]
    artists, both with the columns of the cleaned tables, and a yearly
    trend in chronological order.  If the tracks have no popularity
    column it raises KeyError for it, although the top tracks degrade to
    an empty table. *)
Theorem run_analysis_after_cleaning
        (artists tracks features a t f : DataFrame) (cells : list pyobj) :
  wf (rename_columns Cleaner.normalize_column artists) = true ->
  wf (rename_columns Cleaner.normalize_column tracks) = true ->
  Cleaner.clean_data rt artists tracks features = Ok (a, t, f) ->
  getitem "genres" a = Ok (ObjCol cells) ->
  Forall (readable rt) cells ->
  (forall p dates,
     getitem "popularity" t = Ok p ->
     is_number p = true -> no_infinity p ->
     getitem "release_date" t = Ok (DateCol dates) ->
     exists res,
       Main.run_analysis rt a t f = Ok res /\
       columns (Main.top_tracks res) = columns t /\
       (nrows (Main.top_tracks res) <= 10)%nat /\
       columns (Main.top_artists res) = columns a /\
       nrows (Main.top_artists res) = Nat.min 10 (nrows a) /\
       Sorted Z.lt (map fst (Main.popularity_trend res))) /\
  (has_column "popularity" t = false ->
   Main.run_analysis rt a t f = Raise (KeyError "popularity")).
Proof.
  intros Hwa Hwt H Hcells Hread. apply clean_data_inv in H. destruct H as (Ha & Ht & Hf).
  assert (Wt : wf t = true).
  { apply wf_intro.
    - rewrite (clean_tracks_columns rt tracks t Ht), <- columns_rename.
      now apply wf_distinct.
    - apply (clean_tracks_rectangular rt tracks t); [now apply wf_rectangular | exact Ht]. }
  destruct (cleaned_artists_analysed artists a cells (wf_rectangular _ Hwa) Ha Hcells Hread)
    as (ta & dist & Hta & Hdist & Hcols & Hna).
  split.
  - intros p dates Hp Hnum Hfin Hd.
    pose proof (to_numeric_number rt p Hnum) as Hq.
    destruct (coerce_int_reads rt p p Hq) as (Hc & _). specialize (Hc Hfin).
    destruct (get_top_popular_tracks_size rt sorts t p _
                (Some Config.POPULARITY_THRESHOLD) Config.TOP_N_TRACKS Wt Hp Hc)
      as (tt & Htt & _ & Hnt).
    destruct (trend_buckets rt t (DateCol dates) p
                (series_take (nonzero (map negb (map is_none dates))) p)
                Config.POPULARITY_FREQ YearEnd dates Wt Hd Hp eq_refl eq_refl)
      as (pops & trend & _ & _ & Htrend & _ & Hsorted).
    { apply to_numeric_number. now rewrite is_number_take. }
    exists (Main.mkResults tt ta dist trend).
    split; [|split; [|split; [|split; [|split]]]].
    + unfold Main.run_analysis. rewrite Htt. bind_step. rewrite Hta. bind_step.
      rewrite Hdist. bind_step. rewrite Htrend. now bind_step.
    + apply (get_top_popular_tracks_columns rt t tt _ _ Htt).
    + cbn [Main.top_tracks]. rewrite Hnt. unfold head_length.
      change (0 <=? Config.TOP_N_TRACKS) with true. cbv iota.
      change (Z.to_nat Config.TOP_N_TRACKS) with 10%nat. apply Nat.le_min_l.
    + exact Hcols.
    + exact Hna.
    + exact Hsorted.
  - intros Hc. unfold Main.run_analysis.
    destruct (missing_tested_column_degrades rt t) as (Hdeg & _).
    rewrite (Hdeg Hc). bind_step. rewrite Hta. bind_step. rewrite Hdist. bind_step.
    assert (Hdate : has_column "release_date" t = true).
    { pose proof Ht as Ht'. apply clean_tracks_inv in Ht'.
      destruct Ht' as (d & i & _ & _ & ->).
      eapply has_column_getitem.
      apply getitem_df_take, getitem_fill, getitem_setitem_same. }
    now rewrite (popularity_trend_needs_popularity rt t _ Hdate Hc).
Qed.

End Run.

Lemma run_analysis_after_cleaning_witness :
  exists res,
    Main.run_analysis Example.stable cleaned_artists cleaned_tracks cleaned_features
    = Ok res /\
    columns (Main.top_tracks res) = columns cleaned_tracks /\
    (nrows (Main.top_tracks res) <= 10)%nat /\
    columns (Main.top_artists res) = columns cleaned_artists /\
    nrows (Main.top_artists res) = Nat.min 10 (nrows cleaned_artists) /\
    Sorted Z.lt (map fst (Main.popularity_trend res)).
Proof.
  refine (proj1 (run_analysis_after_cleaning Example.stable ExampleFacts.stable_sorts
                   (example_literal_eval_needs_bracket _)
                   raw_artists raw_tracks raw_features
                   cleaned_artists cleaned_tracks cleaned_features
                   [OStr "unknown"; OStr EmptyString; OStr "hip hop"]
                   eq_refl eq_refl eq_refl eq_refl _)
            (IntCol [50; 70; 90]) [Some (timestamp 2020 3 1); None; None]
            eq_refl eq_refl eq_refl eq_refl).
  repeat apply Forall_cons; try apply Forall_nil; cbv; auto.
Defined.

(* ================================================================== *)
(** * Genres after cleaning *)

Section CleanedGenres.

Variable rt : Runtime.
Hypothesis list_needs_bracket :
  forall s l, literal_eval rt s = Ok (LitList l) -> In "["%char (Py.chars s).

(** X19: genres that went through [clean_artists] are text without
    brackets, so [genre_distribution] never reads them as a list.  When
    [ast.literal_eval] returns or raises a caught exception on every
    cell, it counts the pieces between the commas of each cell, stripped
    of white space; when it raises another exception on some cell,
    [genre_distribution] raises.  An empty cell, which is what an empty
    list is cleaned to, gives one piece, the empty text. *)
Theorem cleaned_genres_split_at_commas (artists a : DataFrame) :
  Cleaner.clean_artists rt artists = Ok a ->
  exists cells,
    getitem "genres" a = Ok (ObjCol (map OStr cells)) /\
    Forall formatted cells /\
    (Forall (readable rt) (map OStr cells) ->
     Analyzer.genre_distribution rt a
     = Ok (map text_key (value_counts_str rt (concat (map pieces cells))))) /\
    (forall s e, In s cells -> literal_eval rt s = Raise e -> uncaught e ->
       exists e', Analyzer.genre_distribution rt a = Raise e' /\ uncaught e') /\
    genres_norm "[]" = EmptyString /\
    pieces EmptyString = [EmptyString].
Proof.
  intros Ha. destruct (cleaned_genres_formatted rt artists a Ha) as (cells & Hget & Hfmt).
  exists cells. split; [exact Hget|]. split; [exact Hfmt|].
  split; [|split; [|split; reflexivity]].
  - intros Hread. now apply formatted_distribution.
  - intros s e Hin He Hu.
    pose proof (genre_tokens_uncaught rt s e He Hu) as Hraise.
    assert (Hin' : In (OStr s) (dropna_values (ObjCol (map OStr cells)))).
    { rewrite dropna_values_strings. now apply in_map. }
    destruct (mapM_raises _ _ _ _ Hin' Hraise) as (v & e' & _ & Hv' & Hm).
    exists e'. split; [|now apply (genre_tokens_raises_uncaught rt v)].
    unfold Analyzer.genre_distribution.
    rewrite (has_column_getitem _ _ _ Hget). simpl negb. cbv iota.
    rewrite Hget. bind_step. now rewrite Hm.
Qed.

End CleanedGenres.

Lemma cleaned_genres_split_at_commas_witness :
  exists cells,
    getitem "genres" cleaned_artists = Ok (ObjCol (map OStr cells)) /\
    Forall formatted cells /\
    (Forall (readable Example.stable) (map OStr cells) ->
     Analyzer.genre_distribution Example.stable cleaned_artists
     = Ok (map text_key
             (value_counts_str Example.stable (concat (map pieces cells))))) /\
    (forall s e, In s cells -> literal_eval Example.stable s = Raise e -> uncaught e ->
       exists e',
         Analyzer.genre_distribution Example.stable cleaned_artists = Raise e' /\
         uncaught e') /\
    genres_norm "[]" = EmptyString /\
    pieces EmptyString = [EmptyString].
Proof.
  exact (cleaned_genres_split_at_commas Example.stable
           (example_literal_eval_needs_bracket _)
           raw_artists cleaned_artists eq_refl).
Defined.

(* ================================================================== *)
(** * Column names *)

Lemma is_upper_space_to_underscore (c : ascii) :
  Py.is_upper c = false -> Py.is_upper (Py.space_to_underscore c) = false.
Proof. PyFacts.each_char c; intros H; try reflexivity; discriminate H. Qed.

Lemma space_to_underscore_no_space (c : ascii) :
  Ascii.eqb (Py.space_to_underscore c) " " = false.
Proof. PyFacts.each_char c; reflexivity. Qed.

Lemma normalize_char_ascii (c : ascii) :
  (Py.code c <? 128)%nat = true ->
  (Py.code (Py.space_to_underscore (Py.lower_char c)) <? 128)%nat = true.
Proof. PyFacts.each_char c; intros H; try reflexivity; discriminate H. Qed.

(** X20: the normalised name of a column has no upper-case letter and no
    space and is its own normalised name; the normalised name of an
    ASCII name is ASCII and as long as the name it comes from. *)
Theorem normalize_column_shape (c : string) :
  Forall (fun ch => Py.is_upper ch = false /\ Ascii.eqb ch " " = false)
         (Py.chars (Cleaner.normalize_column c)) /\
  Cleaner.normalize_column (Cleaner.normalize_column c) = Cleaner.normalize_column c /\
  (Py.is_ascii c = true ->
   Py.is_ascii (Cleaner.normalize_column c) = true /\
   String.length (Cleaner.normalize_column c) = String.length c).
Proof.
  split; [|split].
  - unfold Cleaner.normalize_column, Py.replace_spaces, Py.lower.
    rewrite !PyFacts.chars_str, map_map. apply Forall_map, Forall_forall. intros ch _.
    split; [apply is_upper_space_to_underscore, is_upper_lower_char
           | apply space_to_underscore_no_space].
  - apply (PyFacts.replace_spaces_lower c).
  - intros Hascii. split.
    + unfold Py.is_ascii, Cleaner.normalize_column, Py.replace_spaces, Py.lower in *.
      rewrite !PyFacts.chars_str, map_map.
      rewrite forallb_forall in *. intros ch Hch.
      apply in_map_iff in Hch. destruct Hch as (c0 & <- & Hc0).
      apply normalize_char_ascii. auto.
    + unfold Cleaner.normalize_column, Py.replace_spaces, Py.lower.
      rewrite !PyFacts.chars_str, map_map. unfold Py.str, Py.chars.
      rewrite <- (string_of_list_ascii_of_string c) at 2.
      generalize (list_ascii_of_string c). intros l.
      induction l as [|a l IH]; simpl; [reflexivity | now rewrite IH].
Qed.

Lemma normalize_column_shape_witness :
  Py.is_ascii (Cleaner.normalize_column "Release Date") = true /\
  String.length (Cleaner.normalize_column "Release Date") = 12%nat.
Proof.
  exact (proj2 (proj2 (normalize_column_shape "Release Date")) eq_refl).
Defined.

(* ================================================================== *)
(** * What is printed *)

Lemma has_column_columns (n : string) (df df' : DataFrame) :
  columns df = columns df' -> has_column n df = has_column n df'.
Proof. unfold has_column. now intros ->. Qed.

Lemma select_columns_two (a b : string) (df : DataFrame) :
  has_column a df = true -> has_column b df = true ->
  exists sa sb,
    select_columns [a; b] df = Ok (mkDataFrame (index df) [(a, sa); (b, sb)]).
Proof.
  intros Ha Hb.
  destruct (has_column_true _ _ Ha) as (sa & Hsa).
  destruct (has_column_true _ _ Hb) as (sb & Hsb).
  exists sa, sb. unfold select_columns, getitem. simpl. now rewrite Hsa, Hsb.
Qed.

Lemma select_columns_missing_first (a b : string) (df : DataFrame) :
  has_column a df = false -> select_columns [a; b] df = Raise (KeyError a).
Proof.
  intros Ha. apply has_column_false in Ha.
  unfold select_columns, getitem. simpl. now rewrite Ha.
Qed.

Lemma length_tail_le {A} (n : nat) (l : list A) : (length (tail n l) <= n)%nat.
Proof. unfold tail. rewrite length_skipn. lia. Qed.

Section Display.

Variable rt : Runtime.

Lemma run_analysis_inv (artists tracks features : DataFrame) (res : Main.Results) :
  Main.run_analysis rt artists tracks features = Ok res ->
  Analyzer.get_top_popular_tracks rt tracks
    (Some Config.POPULARITY_THRESHOLD) Config.TOP_N_TRACKS = Ok (Main.top_tracks res) /\
  Analyzer.top_artists_by_followers rt artists Config.TOP_N_ARTISTS
  = Ok (Main.top_artists res) /\
  Analyzer.genre_distribution rt artists = Ok (Main.genres res) /\
  Analyzer.popularity_trend rt tracks Config.POPULARITY_FREQ
  = Ok (Main.popularity_trend res).
Proof.
  unfold Main.run_analysis. intros H.
  bind_inv H. bind_inv H. bind_inv H. bind_inv H. injection H as <-. simpl. auto.
Qed.

(** X21: after a run on tables that have the ranked columns,
    [display_results] prints its four headings, each followed by its
    result: the names and keys of both rankings, at most 15 genres, the
    last 5 points of the trend at most.  It does so exactly when the
    tracks and the artists have a 'name' column; without one it raises
    KeyError after the heading of the table that lacks it. *)
Theorem display_results_after_run
        (artists tracks features : DataFrame) (res : Main.Results) :
  Main.run_analysis rt artists tracks features = Ok res ->
  has_column "popularity" tracks = true ->
  has_column "followers" artists = true ->
  (has_column "name" tracks = true -> has_column "name" artists = true ->
   exists shown_tracks shown_artists,
     Main.display_results res
     = ([heading_tracks; Main.Frame shown_tracks;
         heading_artists; Main.Frame shown_artists;
         heading_genres; Main.Counts (head 15 (Main.genres res));
         heading_trend; Main.Points (tail 5 (Main.popularity_trend res))],
        Ok tt) /\
     columns shown_tracks = ["name"; "popularity"] /\
     index shown_tracks = index (Main.top_tracks res) /\
     columns shown_artists = ["name"; "followers"] /\
     index shown_artists = index (Main.top_artists res) /\
     (length (head 15 (Main.genres res)) <= 15)%nat /\
     (length (tail 5 (Main.popularity_trend res)) <= 5)%nat) /\
  (has_column "name" tracks = false ->
   Main.display_results res = ([heading_tracks], Raise (KeyError "name"))) /\
  (has_column "name" tracks = true -> has_column "name" artists = false ->
   exists shown_tracks,
     Main.display_results res
     = ([heading_tracks; Main.Frame shown_tracks; heading_artists],
        Raise (KeyError "name"))).
Proof.
  intros H Hpop Hfol. apply run_analysis_inv in H. destruct H as (Htt & Hta & _ & _).
  pose proof (get_top_popular_tracks_columns rt _ _ _ _ Htt) as Ctt.
  pose proof (top_artists_by_followers_columns rt _ _ _ Hta) as Cta.
  rewrite <- (has_column_columns "popularity" _ _ Ctt) in Hpop.
  rewrite <- (has_column_columns "followers" _ _ Cta) in Hfol.
  split; [|split].
  - intros Hnt Hna.
    rewrite <- (has_column_columns "name" _ _ Ctt) in Hnt.
    rewrite <- (has_column_columns "name" _ _ Cta) in Hna.
    destruct (select_columns_two "name" "popularity" _ Hnt Hpop) as (s1 & s2 & E1).
    destruct (select_columns_two "name" "followers" _ Hna Hfol) as (s3 & s4 & E2).
    eexists. eexists. split.
    + unfold Main.display_results. rewrite E1, E2. reflexivity.
    + split; [reflexivity|]. split; [reflexivity|]. split; [reflexivity|].
      split; [reflexivity|]. split; [|apply length_tail_le].
      rewrite length_head. unfold head_length.
      change (0 <=? 15) with true. cbv iota.
      change (Z.to_nat 15) with 15%nat. apply Nat.le_min_l.
  - intros Hnt. rewrite <- (has_column_columns "name" _ _ Ctt) in Hnt.
    unfold Main.display_results.
    now rewrite (select_columns_missing_first "name" "popularity" _ Hnt).
  - intros Hnt Hna.
    rewrite <- (has_column_columns "name" _ _ Ctt) in Hnt.
    rewrite <- (has_column_columns "name" _ _ Cta) in Hna.
    destruct (select_columns_two "name" "popularity" _ Hnt Hpop) as (s1 & s2 & E1).
    eexists. unfold Main.display_results.
    rewrite E1, (select_columns_missing_first "name" "followers" _ Hna). reflexivity.
Qed.

End Display.

Lemma display_results_after_run_witness :
  exists res,
    Main.run_analysis Example.stable named_artists named_tracks numeric_features = Ok res /\
    (has_column "name" named_tracks = true -> has_column "name" named_artists = true ->
     exists shown_tracks shown_artists,
       Main.display_results res
       = ([heading_tracks; Main.Frame shown_tracks;
           heading_artists; Main.Frame shown_artists;
           heading_genres; Main.Counts (head 15 (Main.genres res));
           heading_trend; Main.Points (tail 5 (Main.popularity_trend res))],
          Ok tt) /\
       columns shown_tracks = ["name"; "popularity"] /\
       index shown_tracks = index (Main.top_tracks res) /\
       columns shown_artists = ["name"; "followers"] /\
       index shown_artists = index (Main.top_artists res) /\
       (length (head 15 (Main.genres res)) <= 15)%nat /\
       (length (tail 5 (Main.popularity_trend res)) <= 5)%nat) /\
    (has_column "name" named_tracks = false ->
     Main.display_results res = ([heading_tracks], Raise (KeyError "name"))) /\
    (has_column "name" named_tracks = true -> has_column "name" named_artists = false ->
     exists shown_tracks,
       Main.display_results res
       = ([heading_tracks; Main.Frame shown_tracks; heading_artists],
          Raise (KeyError "name"))).
Proof.
  eexists. split; [reflexivity|].
  exact (display_results_after_run Example.stable named_artists named_tracks
           numeric_features _ eq_refl eq_refl eq_refl).
Defined.

(* ================================================================== *)
(** * What is plotted *)

Lemma figures_app (a b : list Visualizer.call) (st : figure_state)
      (la lb : list (option string)) :
  figures st a = Some la ->
  figures NoFigure b = Some lb ->
  figures st (a ++ b) = Some (la ++ lb).
Proof.
  revert st la. induction a as [|c a IH]; intros st la Ha Hb.
  - destruct st; try discriminate. injection Ha as <-. exact Hb.
  - destruct c, st; simpl in *; try discriminate;
      try (now apply IH).
    + destruct (figures Saved a) as [l|] eqn:E; [|discriminate].
      injection Ha as <-. now rewrite (IH Saved l E Hb).
    + destruct (figures NoFigure a) as [l|] eqn:E; [|discriminate].
      injection Ha as <-. now rewrite (IH NoFigure l E Hb).
Qed.

Lemma io_bind_out {E A B} (m : io E A) (k : A -> io E B) :
  fst (io_bind m k)
  = fst m ++ match snd m with
             | Ok a => fst (k a)
             | Raise _ => []
             end.
Proof.
  destruct m as [out [a|e]]; simpl; [|now rewrite app_nil_r].
  now destruct (k a).
Qed.

Lemma head_positive_nonempty {A} (n : Z) (a : A) (l : list A) :
  0 < n -> head n (a :: l) <> [].
Proof.
  intros Hn. unfold head. destruct (Z.leb_spec 0 n); [|lia].
  destruct (Z.to_nat n) eqn:E; [lia|]. discriminate.
Qed.

Section Plots.

Variable rt : Runtime.

Lemma plot_correlation_heatmap_figures
      (df : DataFrame) (title : string) (save_path : option string) :
  figures NoFigure (fst (Visualizer.plot_correlation_heatmap df title save_path))
  = Some (if empty (select_dtypes_number df)
             || (length (cols (select_dtypes_number df)) <? 2)%nat
          then [] else [given save_path]).
Proof.
  unfold Visualizer.plot_correlation_heatmap. cbv zeta.
  destruct (empty (select_dtypes_number df)
            || (length (cols (select_dtypes_number df)) <? 2)%nat); [reflexivity|].
  destruct save_path as [[|c p]|]; reflexivity.
Qed.

(** The genre chart when there is something to draw. *)
Lemma plot_genre_distribution_drawn
      (kc : pyobj * Z) (l : list (pyobj * Z)) (top_n : Z) (save_path : option string) :
  head top_n (kc :: l) <> [] ->
  figures NoFigure
    (fst (Visualizer.plot_genre_distribution (Some (kc :: l)) top_n save_path))
  = Some [given save_path] /\
  snd (Visualizer.plot_genre_distribution (Some (kc :: l)) top_n save_path) = Ok tt.
Proof.
  intros H. unfold Visualizer.plot_genre_distribution, Visualizer.plot_bar.
  destruct (head top_n (kc :: l)) as [|b r]; [congruence|].
  destruct save_path as [[|c p]|]; split; reflexivity.
Qed.

(** The genre chart when the genres are cut to none: the figure is
    opened, and the bar chart of nothing raises. *)
Lemma plot_genre_distribution_cut_to_none
      (kc : pyobj * Z) (l : list (pyobj * Z)) (top_n : Z) (save_path : option string) :
  head top_n (kc :: l) = [] ->
  Visualizer.plot_genre_distribution (Some (kc :: l)) top_n save_path
  = ([Visualizer.Figure 12 6], Raise IndexError).
Proof.
  intros H. unfold Visualizer.plot_genre_distribution, Visualizer.plot_bar.
  now rewrite H.
Qed.

Lemma plot_popularity_trend_figures
      (series : option (list (Z * option float64))) (freq_label : string)
      (save_path : option string) :
  figures NoFigure (fst (Visualizer.plot_popularity_trend series freq_label save_path))
  = Some (match series with Some (_ :: _) => [given save_path] | _ => [] end).
Proof.
  destruct series as [[|b l]|]; try reflexivity.
  destruct save_path as [[|c p]|]; reflexivity.
Qed.

Lemma plot_top_entities_figures
      (df : option DataFrame) (column value_col : string) (top_n : Z) (title : string)
      (save_path : option string) :
  exists drawn : bool,
    figures NoFigure
      (fst (Visualizer.plot_top_entities rt df column value_col top_n title save_path))
    = Some (if drawn then [given save_path] else []).
Proof.
  unfold Visualizer.plot_top_entities.
  destruct df as [df|]; [|now exists false].
  destruct (empty df); [now exists false|].
  destruct (negb (has_column column df) || negb (has_column value_col df));
    [now exists false|].
  destruct (select_columns [column; value_col] df) as [pair|e]; [|now exists false].
  destruct (sort_values_desc_unique rt value_col pair) as [sorted|e] eqn:Es.
  - destruct (empty (df_head top_n sorted)) eqn:Ee.
    + exists false. unfold io_bind, lift. simpl. rewrite Es. simpl. now rewrite Ee.
    + exists true. unfold io_bind at 1 2, lift. rewrite Es. cbv zeta. rewrite Ee.
      destruct save_path as [[|c p]|]; reflexivity.
  - exists false. unfold io_bind, lift. simpl. now rewrite Es.
Qed.

Lemma plot_top_entities_none
      (df : option DataFrame) (column value_col : string) (title : string)
      (save_path : option string) :
  fst (Visualizer.plot_top_entities rt df column value_col 0 title save_path) = [].
Proof.
  unfold Visualizer.plot_top_entities.
  destruct df as [df|]; [|reflexivity].
  destruct (empty df); [reflexivity|].
  destruct (negb (has_column column df) || negb (has_column value_col df));
    [reflexivity|].
  destruct (select_columns [column; value_col] df) as [pair|e]; [|reflexivity].
  unfold io_bind at 1, lift.
  destruct (sort_values_desc_unique rt value_col pair) as [sorted|e]; [|reflexivity].
  unfold io_bind at 1. cbv zeta.
  assert (E : empty (df_head 0 sorted) = true).
  { unfold empty. now rewrite nrows_df_head_zero. }
  now rewrite E.
Qed.

Lemma plots_return
      (df : DataFrame) (series : option (list (Z * option float64)))
      (title freq_label : string) (save_path : option string) :
  snd (Visualizer.plot_correlation_heatmap df title save_path) = Ok tt /\
  snd (Visualizer.plot_popularity_trend series freq_label save_path) = Ok tt.
Proof.
  split.
  - unfold Visualizer.plot_correlation_heatmap. cbv zeta.
    destruct (empty (select_dtypes_number df)
              || (length (cols (select_dtypes_number df)) <? 2)%nat); [reflexivity|].
    destruct save_path as [[|c p]|]; reflexivity.
  - destruct series as [[|b l]|]; try reflexivity.
    destruct save_path as [[|c p]|]; reflexivity.
Qed.

(** X22: a plot function of the visualizer makes no call at all or opens
    one figure and finishes it: saved to the path and closed when a path
    that is not empty is given, shown otherwise.  The heat map is drawn
    when the table has a row and at least two numeric columns, the trend
    chart when its series is not empty; these two never raise.  The genre
    chart makes no call for no genres; it is drawn when the first [top_n]
    genres are not none, as for every positive [top_n]; when they are
    none, as for [top_n = 0], the figure is opened, the bar chart raises
    IndexError, and the figure stays open.  [plot_top_entities] draws
    nothing for [top_n = 0]. *)
Theorem plots_finish_their_figure
        (df : DataFrame) (ranking_df : option DataFrame)
        (series : option (list (Z * option float64)))
        (title freq_label column value_col : string) (top_n : Z)
        (save_path : option string) :
  (figures NoFigure (fst (Visualizer.plot_correlation_heatmap df title save_path))
   = Some (if empty (select_dtypes_number df)
              || (length (cols (select_dtypes_number df)) <? 2)%nat
           then [] else [given save_path]) /\
   snd (Visualizer.plot_correlation_heatmap df title save_path) = Ok tt) /\
  (Visualizer.plot_genre_distribution None top_n save_path = ([], Ok tt) /\
   Visualizer.plot_genre_distribution (Some []) top_n save_path = ([], Ok tt) /\
   (forall kc l, head top_n (kc :: l) <> [] ->
      figures NoFigure
        (fst (Visualizer.plot_genre_distribution (Some (kc :: l)) top_n save_path))
      = Some [given save_path] /\
      snd (Visualizer.plot_genre_distribution (Some (kc :: l)) top_n save_path) = Ok tt) /\
   (forall (kc : pyobj * Z) l, 0 < top_n -> head top_n (kc :: l) <> []) /\
   (forall kc l, head top_n (kc :: l) = [] ->
      Visualizer.plot_genre_distribution (Some (kc :: l)) top_n save_path
      = ([Visualizer.Figure 12 6], Raise IndexError)) /\
   figures NoFigure [Visualizer.Figure 12 6] = None) /\
  (figures NoFigure (fst (Visualizer.plot_popularity_trend series freq_label save_path))
   = Some (match series with Some (_ :: _) => [given save_path] | _ => [] end) /\
   snd (Visualizer.plot_popularity_trend series freq_label save_path) = Ok tt) /\
  (exists drawn : bool,
     figures NoFigure
       (fst (Visualizer.plot_top_entities rt ranking_df column value_col top_n title
               save_path))
     = Some (if drawn then [given save_path] else [])) /\
  fst (Visualizer.plot_top_entities rt ranking_df column value_col 0 title save_path) = [].
Proof.
  destruct (plots_return df series title freq_label save_path) as (R1 & R3).
  split; [split; [apply plot_correlation_heatmap_figures | exact R1]|].
  split.
  { split; [reflexivity|]. split; [reflexivity|].
    split; [intros kc l; apply plot_genre_distribution_drawn|].
    split; [intros kc l; apply head_positive_nonempty|].
    split; [intros kc l; apply plot_genre_distribution_cut_to_none | reflexivity]. }
  split; [split; [apply plot_popularity_trend_figures | exact R3]|].
  split; [apply plot_top_entities_figures | apply plot_top_entities_none].
Qed.

(** X23: [generate_visuals] never shows a figure and leaves none open:
    every figure it opens is saved and closed before the next one is
    opened.  The files written are among the five of the results folder,
    in the order of the calls: the heat map when the features have a row
    and two numeric columns, the genre and trend charts when the results
    are not empty. *)
Theorem generate_visuals_saves_and_closes (res : Main.Results) (features : DataFrame) :
  exists artists_drawn tracks_drawn : bool,
    figures NoFigure (fst (Main.generate_visuals rt res features))
    = Some (map Some
              (select
                 [negb (empty (select_dtypes_number features)
                        || (length (cols (select_dtypes_number features)) <? 2)%nat);
                  match Main.genres res with [] => false | _ => true end;
                  match Main.popularity_trend res with [] => false | _ => true end;
                  artists_drawn; tracks_drawn]
                 visuals)).
Proof.
  unfold Main.generate_visuals.
  set (p1 := Visualizer.plot_correlation_heatmap features "Feature Correlation Heatmap"
               (Some (Main.in_results "correlation_heatmap.png"))).
  set (p2 := Visualizer.plot_genre_distribution (Some (Main.genres res))
               Config.TOP_N_GENRES (Some (Main.in_results "genre_distribution.png"))).
  set (p3 := Visualizer.plot_popularity_trend (Some (Main.popularity_trend res))
               Config.POPULARITY_FREQ_LABEL
               (Some (Main.in_results "popularity_trend.png"))).
  set (p4 := Visualizer.plot_top_entities rt (Some (Main.top_artists res)) _ _ _ _ _).
  set (p5 := Visualizer.plot_top_entities rt (Some (Main.top_tracks res)) _ _ _ _ _).
  destruct (plots_return features (Some (Main.popularity_trend res))
              "Feature Correlation Heatmap" Config.POPULARITY_FREQ_LABEL
              (Some (Main.in_results "correlation_heatmap.png"))) as (R1 & _).
  destruct (plots_return features (Some (Main.popularity_trend res))
              "Feature Correlation Heatmap" Config.POPULARITY_FREQ_LABEL
              (Some (Main.in_results "popularity_trend.png"))) as (_ & R3).
  assert (F2R2 : figures NoFigure (fst p2)
                 = Some (match Main.genres res with
                         | [] => []
                         | _ => [given (Some (Main.in_results "genre_distribution.png"))]
                         end) /\
                 snd p2 = Ok tt).
  { unfold p2. destruct (Main.genres res) as [|kc l]; [split; reflexivity|].
    apply plot_genre_distribution_drawn. now apply head_positive_nonempty. }
  destruct F2R2 as (F2 & R2).
  fold p1 in R1. fold p3 in R3.
  pose proof (plot_correlation_heatmap_figures features "Feature Correlation Heatmap"
                (Some (Main.in_results "correlation_heatmap.png"))) as F1.
  pose proof (plot_popularity_trend_figures (Some (Main.popularity_trend res))
                Config.POPULARITY_FREQ_LABEL
                (Some (Main.in_results "popularity_trend.png"))) as F3.
  destruct (plot_top_entities_figures (Some (Main.top_artists res)) "name" "followers"
              Config.TOP_N_ARTISTS
              ("Top " ++ Py.str_of_int Config.TOP_N_ARTISTS ++ " Artists by Followers")%string
              (Some (Main.in_results "top_artists.png"))) as (d4 & F4).
  destruct (plot_top_entities_figures (Some (Main.top_tracks res)) "name" "popularity"
              Config.TOP_N_TRACKS
              ("Top " ++ Py.str_of_int Config.TOP_N_TRACKS ++ " Tracks by Popularity")%string
              (Some (Main.in_results "top_tracks.png"))) as (d5 & F5).
  fold p1 in F1. fold p3 in F3. fold p4 in F4. fold p5 in F5.
  rewrite !io_bind_out, R1, R2, R3.
  destruct (snd p4) as [[]|e].
  - exists d4, d5.
    rewrite (figures_app _ _ _ _ _ F1
               (figures_app _ _ _ _ _ F2
                  (figures_app _ _ _ _ _ F3 (figures_app _ _ _ _ _ F4 F5)))).
    f_equal.
    destruct (empty (select_dtypes_number features)
              || (length (cols (select_dtypes_number features)) <? 2)%nat);
      destruct (Main.genres res); destruct (Main.popularity_trend res);
      destruct d4, d5; reflexivity.
  - exists d4, false.
    assert (F0 : figures NoFigure [] = Some []) by reflexivity.
    rewrite (figures_app _ _ _ _ _ F1
               (figures_app _ _ _ _ _ F2
                  (figures_app _ _ _ _ _ F3 (figures_app _ _ _ _ _ F4 F0)))).
    f_equal.
    destruct (empty (select_dtypes_number features)
              || (length (cols (select_dtypes_number features)) <? 2)%nat);
      destruct (Main.genres res); destruct (Main.popularity_trend res);
      destruct d4; reflexivity.
Qed.

End Plots.

Lemma plots_finish_their_figure_witness :
  Visualizer.plot_genre_distribution (Some [(OStr "pop", 2); (OStr "rock", 1)]) 0
    (Some "genres.png")
  = ([Visualizer.Figure 12 6], Raise IndexError) /\
  figures NoFigure
    (fst (Visualizer.plot_genre_distribution (Some [(OStr "pop", 2); (OStr "rock", 1)]) 1
            (Some "genres.png")))
  = Some [Some "genres.png"].
Proof.
  destruct (plots_finish_their_figure Example.stable numeric_features None None
              "t" "Yearly" "name" "followers" 0 (Some "genres.png"))
    as (_ & (_ & _ & _ & _ & Hnone & _) & _).
  destruct (plots_finish_their_figure Example.stable numeric_features None None
              "t" "Yearly" "name" "followers" 1 (Some "genres.png"))
    as (_ & (_ & _ & Hdrawn & Hpos & _) & _).
  split.
  - exact (Hnone (OStr "pop", 2) [(OStr "rock", 1)] eq_refl).
  - exact (proj1 (Hdrawn (OStr "pop", 2) [(OStr "rock", 1)]
                    (Hpos (OStr "pop", 2) [(OStr "rock", 1)] eq_refl))).
Defined.

(* ================================================================== *)
(** * Filtering tracks that were not cleaned *)

Section Uncleaned.

Variable rt : Runtime.

(** X24: [get_filtered_tracks] reads the year through the [.dt] accessor,
    which only a datetime column has: on a table whose release dates are
    of any other kind, text as read from the file say, it raises
    AttributeError, whatever the artist and the years chosen. *)
Theorem get_filtered_tracks_needs_datetime
        (tracks : DataFrame) (a d : Series) (artist : string) (year_range : Z * Z) :
  getitem "artists" tracks = Ok a ->
  getitem "release_date" tracks = Ok d ->
  (forall l, d <> DateCol l) ->
  App.get_filtered_tracks rt tracks artist year_range = Raise AttributeError.
Proof.
  intros Ha Hd Hno. unfold App.get_filtered_tracks. cbv zeta.
  destruct (String.eqb artist "All"); simpl negb; cbv iota.
  - bind_step. rewrite Hd. bind_step.
    destruct d; try reflexivity. now destruct (Hno l).
  - rewrite Ha. bind_step. bind_step.
    rewrite (getitem_df_filter _ _ _ _ Hd). bind_step.
    destruct d; try reflexivity. now destruct (Hno l).
Qed.

End Uncleaned.

Lemma get_filtered_tracks_needs_datetime_witness :
  App.get_filtered_tracks Example.stable uncleaned_tracks "Queen" (1970, 1999)
  = Raise AttributeError.
Proof.
  apply (get_filtered_tracks_needs_datetime Example.stable uncleaned_tracks
           (ObjCol [OStr "Queen"; OStr "Adele"])
           (ObjCol [OStr "1975-10-31"; OStr "2015-11-20"])
           "Queen" (1970, 1999) eq_refl eq_refl).
  intros l. discriminate.
Defined.
